(** * Risk rules of vnpy_riskmanager: a shallow embedding and its properties

    The development follows the Cython sources rule by rule:
    - [RuleTemplate]        template.pyx (the rule contract, reflection by name)
    - [OrderValidityRule]   order_validity_rule_cy.pyx
    - [OrderSizeRule]       order_size_rule_cy.pyx
    - [DuplicateOrderRule]  duplicate_order_rule_cy.pyx
    - [DailyLimitRule]      daily_limit_rule_cy.pyx
    - [ActiveOrderRule]     active_order_rule_cy.pyx

    Conventions of the embedding.
    - In [OrderValidityRule], whose answer depends on the arithmetic of
      floating-point numbers, a Python [float] and a C [double] are IEEE 754
      binary64 numbers ([Double.t], the [spec_float] of the Standard
      Library), with their rounding, signed zeros, infinities and NaN. In the
      other rules, which compare a float with a limit, test it for zero or
      print it, a float is an exact rational ([Q]); there rounding,
      infinities and NaN are outside the model.
    - A Python [int] and a C [int] field are both [Z]; [c_int] is the range
      of the C type. On a run of fewer than 2^31 calls every counter of the
      rules stays inside it ([daily_limit_counters_in_range],
      [duplicate_order_counts_in_range], [active_order_count_in_range]), so
      that on such runs the integers of the model are those of the code;
      beyond them the arithmetic of the code is signed overflow in C, which
      the language leaves undefined.
    - A field declared with a C type converts what is assigned to it by
      name: [cdef public int] and [cdef public float] through the
      conversions [as_c_int] and [as_c_float], which raise on the objects
      they refuse and over which the statements quantify; [active], which the
      template declares [cdef public bint], keeps the truth value of the
      object.
    - A [dict] or [defaultdict] keyed by strings is a [gmap string _], a
      [set] of strings a [gset string]; the declared [parameters] and
      [variables] of a rule, whose order matters, are association lists.
    - The calls a rule makes on its engine ([write_log], [put_rule_event])
      are collected in order, next to the rule's state, by the monad [M]. *)

From Stdlib Require Import QArith Qpower Ascii String SpecFloat.
From stdpp Require Import gmap strings list fin_maps pretty.

Local Open Scope Z_scope.

(** ** Objects of vnpy.trader (outside the sources) *)

(** Modelled from the spec: the order statuses of vnpy.trader.constant; the
    sources name only [Status.CANCELLED], the glossary names the terminal
    states filled, cancelled and rejected. *)
Inductive Status :=
| SUBMITTING | NOTTRADED | PARTTRADED | ALLTRADED | CANCELLED | REJECTED.

#[global] Instance Status_eq_dec : EqDecision Status.
Proof. solve_decision. Defined.

(** Modelled from the spec: a member of one of the enumerations of
    vnpy.trader.constant (order type, direction, offset), which are outside
    the sources. Python keeps the members of an [Enum] and their values in
    bijection, so a member is represented by its [value], a string. *)
Record Enum := mkEnum { value : string }.

(** Modelled from the spec: section 3, "OrderRequest (external, read-only to
    this core): symbol identifier, order type, direction, open/close offset,
    price, volume". *)
Record OrderRequest := mkOrderRequest {
  req_vt_symbol : string;
  req_type : Enum;
  req_direction : Enum;
  req_offset : Enum;
  req_volume : Q;
  req_price : Q
}.

(** Modelled from the spec: section 3, "OrderData (external): order
    identifier, symbol identifier, active/inactive status". *)
Record OrderData := mkOrderData {
  order_vt_orderid : string;
  order_vt_symbol : string;
  order_status : Status
}.

(** Modelled from the spec: the glossary's "Active order: an order not yet in
    a terminal state (filled, cancelled, rejected)"; [OrderData.is_active] is
    a method of vnpy.trader.object. *)
Definition is_active (order : OrderData) : bool :=
  match order_status order with
  | SUBMITTING | NOTTRADED | PARTTRADED => true
  | ALLTRADED | CANCELLED | REJECTED => false
  end.

(** Modelled from the spec: section 3, "TradeData (external): trade
    identifier, symbol identifier". *)
Record TradeData := mkTradeData {
  trade_vt_tradeid : string;
  trade_vt_symbol : string
}.

(** Modelled from the spec: section 3, "ContractData (external): symbol
    identifier, minimum price increment, minimum volume, maximum volume (may
    be unset/zero meaning no maximum), contract multiplier". *)
Record ContractData := mkContractData {
  contract_vt_symbol : string;
  contract_pricetick : Q;
  contract_min_volume : Q;
  contract_max_volume : option Q;
  contract_size : Q
}.

(** ** Numbers *)

Definition INT_MIN : Z := - 2 ^ 31.
Definition INT_MAX : Z := 2 ^ 31 - 1.

(** The values a C [int] holds. *)
Definition c_int (z : Z) : Prop := INT_MIN <= z <= INT_MAX.

(** Python's [x > y] on floats. *)
Definition Qgtb (x y : Q) : bool := negb (Qle_bool x y).

(** Python's truth value of a float: false exactly at zero. *)
Definition float_truth (x : Q) : bool := negb (Qeq_bool x 0).

(** ** Doubles *)

Module Double.

(** An IEEE 754 binary64 number: a Python [float], a C [double]. *)
Definition t : Type := spec_float.

Definition prec : Z := 53.
Definition emax : Z := 1024.

(** The doubles proper are the values whose mantissa and exponent are those
    of the format. The operations below are defined on every [spec_float],
    and what is proved of every [spec_float] holds of the doubles. *)
Definition valid (x : t) : bool := valid_binary prec emax x.

Definition zero : t := S754_zero false.
Definition nan : t := S754_nan.

(** The double of an integer, rounded to nearest when the integer is not a
    double itself. *)
Definition of_Z (z : Z) : t := binary_normalize prec emax z 0 false.

(** [x < y], [x > y], [x <= y] and [x == y], in C and in Python: false when
    an operand is NaN. *)
Definition ltb (x y : t) : bool := SFltb x y.
Definition gtb (x y : t) : bool := SFltb y x.
Definition eqb (x y : t) : bool := SFeqb x y.

(** Python's truth value of a float, C's of a double: false at the two zeros,
    true at NaN. *)
Definition truth (x : t) : bool := negb (eqb x zero).

(** Python's truth value of [float | None]. *)
Definition opt_truth (x : option t) : bool :=
  match x with
  | Some v => truth v
  | None => false
  end.

Definition is_finite (x : t) : bool :=
  match x with
  | S754_zero _ | S754_finite _ _ _ => true
  | S754_infinity _ | S754_nan => false
  end.


(** The sign bit; NaN has no sign here, and none is asked for below. *)
Definition sign (x : t) : bool :=
  match x with
  | S754_zero s | S754_infinity s | S754_finite s _ _ => s
  | S754_nan => false
  end.

(** [fabs], [x + y], [x - y] and [x / y] of C, rounding to nearest, ties to
    even. *)
Definition abs (x : t) : t := SFabs x.
Definition add (x y : t) : t := SFadd prec emax x y.
Definition sub (x y : t) : t := SFsub prec emax x y.
Definition div (x y : t) : t := SFdiv prec emax x y.

(** A decimal literal of a few digits, [n / d] for small integers: the double
    next to the quotient, which the division of the two integers rounds
    to. *)
Definition of_ratio (n d : Z) : t := div (of_Z n) (of_Z d).

(** [fmod(x, y)] of C: NaN when an operand is NaN, [x] is infinite or [y] is
    zero; [x] when [y] is infinite or [x] is zero; else [x - n * y] for the
    integer [n] that [x / y] truncates to, which is a double and has the sign
    of [x]. Both mantissas are brought to the smaller exponent, where the
    remainder is the remainder of integers. *)
Definition fmod (x y : t) : t :=
  match x, y with
  | S754_nan, _ | _, S754_nan => S754_nan
  | S754_infinity _, _ => S754_nan
  | _, S754_zero _ => S754_nan
  | _, S754_infinity _ => x
  | S754_zero _, S754_finite _ _ _ => x
  | S754_finite sx mx ex, S754_finite _ my ey =>
      let e := Z.min ex ey in
      let r := Z.rem (Z.pos mx * 2 ^ (ex - e)) (Z.pos my * 2 ^ (ey - e)) in
      binary_normalize prec emax (if sx then - r else r) e sx
  end.

(** Python's [x % y] on floats ([float_rem] of CPython), for a divisor that
    is not zero: the remainder of [fmod], moved by [y] when it is not zero
    and its sign is not the sign of [y], and the zero of the sign of [y]
    when it is zero. *)
Definition rem (x y : t) : t :=
  let r := fmod x y in
  if truth r then
    if xorb (ltb y zero) (ltb r zero) then add r y else r
  else S754_zero (sign y).

(** The rational a double stands for, when it is finite. *)
Definition to_Q (x : t) : option Q :=
  match x with
  | S754_zero _ => Some 0%Q
  | S754_finite s m e =>
      Some (inject_Z (if s then Z.neg m else Z.pos m) * Qpower 2 e)%Q
  | S754_infinity _ | S754_nan => None
  end.

(** The literal [1e-6]: the double next to 10^-6. *)
Definition tolerance : t := S754_finite false 4722366482869645 (-72).

(** Modelled from the spec: the request and the contract of section 3, as
    [OrderValidityRule] reads them, with the prices and volumes as the doubles
    they are. *)
Record OrderRequest := mkOrderRequest {
  req_vt_symbol : string;
  req_type : Enum;
  req_direction : Enum;
  req_offset : Enum;
  req_volume : t;
  req_price : t
}.

Record ContractData := mkContractData {
  contract_vt_symbol : string;
  contract_pricetick : t;
  contract_min_volume : t;
  contract_max_volume : option t;
  contract_size : t
}.

End Double.

(** ** The calls of a rule on its engine *)

(** The f-strings handed to [write_log], by template and arguments. *)
Inductive log_msg :=
| ContractNotExist (vt_symbol : string) (req : Double.OrderRequest)
| PriceNotMultiple (price pricetick : Double.t) (req : Double.OrderRequest)
| VolumeAboveMax (volume max_volume : Double.t) (req : Double.OrderRequest)
| VolumeBelowMin (volume min_volume : Double.t) (req : Double.OrderRequest)
| OrderVolumeExceeded (volume : Q) (limit : Z) (req : OrderRequest)
| OrderValueExceeded (order_value limit : Q) (req : OrderRequest)
| DuplicateCountReached (count limit : Z) (req : OrderRequest)
| ContractOrderCountReached (count limit : Z) (req : OrderRequest)
| ContractCancelCountReached (count limit : Z) (req : OrderRequest)
| ContractTradeCountReached (count limit : Z) (req : OrderRequest)
| TotalOrderCountReached (count limit : Z) (req : OrderRequest)
| TotalCancelCountReached (count limit : Z) (req : OrderRequest)
| TotalTradeCountReached (count limit : Z) (req : OrderRequest)
| ActiveCountReached (count limit : Z) (req : OrderRequest).

(** [risk_engine.write_log(msg)] and [risk_engine.put_rule_event(self)]. *)
Inductive engine_call :=
| WriteLog (msg : log_msg)
| PutRuleEvent.

(** A method of a rule with state [S]: it returns a value, leaves a state and
    has made some calls on the engine, in order. *)
Definition M (S A : Type) : Type := S -> A * S * list engine_call.

Definition ret {S A} (a : A) : M S A := fun s => (a, s, []).

Definition bind {S A B} (m : M S A) (f : A -> M S B) : M S B :=
  fun s => let '(a, s1, c1) := m s in
           let '(b, s2, c2) := f a s1 in
           (b, s2, c1 ++ c2).

Definition get {S} : M S S := fun s => (s, s, []).
Definition modify {S} (f : S -> S) : M S unit := fun s => (tt, f s, []).

(** [RuleTemplate.write_log] and [RuleTemplate.put_event]. *)
Definition write_log {S} (msg : log_msg) : M S unit :=
  fun s => (tt, s, [WriteLog msg]).
Definition put_event {S} : M S unit := fun s => (tt, s, [PutRuleEvent]).

Notation "'let*' x ':=' m 'in' k" := (bind m (fun x => k))
  (at level 10, x name, m at level 100, k at level 200).
Notation "m >> k" := (bind m (fun _ => k))
  (at level 90, right associativity).

Definition result {S A} (r : A * S * list engine_call) : A := r.1.1.
Definition state_of {S A} (r : A * S * list engine_call) : S := r.1.2.
Definition calls {S A} (r : A * S * list engine_call) : list engine_call := r.2.

(** ** Python values, dictionaries and exceptions *)

(** The Python objects that settings and snapshots hold: scalars, and the
    [defaultdict(int)] of a per-symbol counter. *)
Inductive PyVal :=
| PyNone
| PyBool (b : bool)
| PyInt (z : Z)
| PyFloat (q : Q)
| PyStr (s : string)
| PyCounts (d : gmap string Z).

Inductive exn := TypeError | OverflowError.

(** Python's truth value of an object: [None], [False], the number zero, the
    empty string and the empty dictionary are false. *)
Definition py_truth (value : PyVal) : bool :=
  match value with
  | PyNone => false
  | PyBool b => b
  | PyInt z => negb (z =? 0)
  | PyFloat q => negb (Qeq_bool q 0)
  | PyStr s => negb (String.eqb s "")
  | PyCounts d => negb (bool_decide (d = ∅))
  end.

(** A [dict] whose order of insertion matters: [parameters], [variables] and
    the tables that [get_data] builds. *)
Definition dict (A : Type) : Type := list (string * A).

Definition dict_keys {A} (d : dict A) : list string := d.*1.

Fixpoint dict_get {A} (k : string) (d : dict A) : option A :=
  match d with
  | [] => None
  | (k', v) :: d' => if String.eqb k k' then Some v else dict_get k d'
  end.

(** [d[k] = v]: an existing key keeps its place. *)
Fixpoint dict_set {A} (k : string) (v : A) (d : dict A) : dict A :=
  match d with
  | [] => [(k, v)]
  | (k', v') :: d' =>
      if String.eqb k k' then (k', v) :: d' else (k', v') :: dict_set k v d'
  end.

(** [d.update(other)]. *)
Definition dict_update {A} (d other : dict A) : dict A :=
  fold_left (fun acc kv => dict_set kv.1 kv.2 acc) other d.

(** [d[k]] on a [defaultdict(int)]: a missing key is inserted with 0. *)
Definition defaultdict_getitem (k : string) (d : gmap string Z) : Z * gmap string Z :=
  match d !! k with
  | Some v => (v, d)
  | None => (0, <[k := 0]> d)
  end.

(** The [defaultdict] a read of [d[k]] leaves behind. *)
Definition defaultdict_touched (k : string) (d : gmap string Z) : gmap string Z :=
  (defaultdict_getitem k d).2.

(** [d[k] += 1] on a [defaultdict(int)]. *)
Definition defaultdict_incr (k : string) (d : gmap string Z) : gmap string Z :=
  let '(v, d') := defaultdict_getitem k d in <[k := v + 1]> d'.

(** The count a [defaultdict(int)] holds for a key, 0 when it is missing. *)
Definition count_of (k : string) (d : gmap string Z) : Z := default 0 (d !! k).

(** ** RuleTemplate *)

Module RuleTemplate.

(** The two methods that reach attributes by name, over any rule object
    [S]: [setattr] converts the value when the attribute is a typed field and
    raises when the conversion does; [getattr] finds no value when the
    object has no such attribute. *)
Section Reflection.
Context {S V : Type}.
Variable setattr : string -> V -> S -> exn + S.
Variable getattr : S -> string -> option V.
Variable py_None : V.

(** The loop of [update_setting] over the keys of [parameters]. The state
    reached is returned with the exception that ended the loop, if any. *)
Fixpoint update_setting_loop
    (names : list string) (rule_setting : gmap string V) (self : S)
    : S * option exn :=
  match names with
  | [] => (self, None)
  | name :: names' =>
      match rule_setting !! name with
      | Some value =>
          match setattr name value self with
          | inr self' => update_setting_loop names' rule_setting self'
          | inl e => (self, Some e)
          end
      | None => update_setting_loop names' rule_setting self
      end
  end.

(** The loops of [get_data]: [data[name] = getattr(self, name, None)]. *)
Definition collect (self : S) (names : list string) : dict V :=
  fold_left
    (fun data attr => dict_set attr (default py_None (getattr self attr)) data)
    names [].
End Reflection.

(** The fields of the template other than [active]. Like [active] they are
    declared in template.pxd, outside the sources; the model has them as the
    fields of its records and does not reach them by name, so that it speaks
    of the rules that declare none of them as a parameter or variable, as
    the rules of the repository do. *)
Definition reserved : list string :=
  ["risk_engine"; "name"; "parameters"; "variables"].

Section Template.
(** Python objects, with [None], the two booleans and the truth value of an
    object. *)
Context {V : Type}.
Variable py_None : V.
Variable py_bool : bool -> V.
Variable py_truth : V -> bool.

(** A rule whose parameters and variables are attributes of the instance, as
    a subclass written in Python has them. The fields [name], [parameters]
    and [variables] are the template's own; [attrs] holds what is reached by
    name: the field [active] of the template and the attributes of the
    instance. *)
Record rule := mkRule {
  name : string;
  class_name : string;
  parameters : dict string;
  variables : dict string;
  attrs : gmap string V
}.

(** What an assignment leaves to be read. [active] is a typed field of the
    template, [cdef public bint active] in template.pxd: it holds the truth
    value of the object assigned. An attribute of the instance holds the
    object itself. *)
Definition stored (attr : string) (value : V) : V :=
  if String.eqb attr "active" then py_bool (py_truth value) else value.

Definition setattr (attr : string) (value : V) (self : rule) : rule :=
  mkRule (name self) (class_name self) (parameters self) (variables self)
         (<[attr := stored attr value]> (attrs self)).

Definition getattr (self : rule) (attr : string) : option V :=
  attrs self !! attr.

Definition update_setting (rule_setting : gmap string V) (self : rule)
    : rule * option exn :=
  update_setting_loop (fun attr value self => inr (setattr attr value self))
    (dict_keys (parameters self)) rule_setting self.

Record rule_data := mkRuleData {
  data_name : string;
  data_class_name : string;
  data_parameters : dict V;
  data_variables : dict V
}.

Definition get_data (self : rule) : rule_data :=
  let parameters_data := collect getattr py_None self (dict_keys (parameters self)) in
  let variables_data := collect getattr py_None self (dict_keys (variables self)) in
  mkRuleData (name self) (class_name self) parameters_data variables_data.

(** What [__init__] reads from the class: its [__name__], the class
    attributes [name], [parameters] and [variables] when they are there with
    the expected type, and the [on_init] of the class. *)
Record rule_class := mkRuleClass {
  cls___name__ : string;
  cls_name : option string;
  cls_parameters : option (dict string);
  cls_variables : option (dict string);
  cls_on_init : rule -> rule
}.

Definition init (cls : rule_class) (setting : gmap string V) : rule * option exn :=
  let self := mkRule "" (cls___name__ cls) [] [] {["active" := py_bool true]} in
  let self :=
    match cls_name cls with
    | Some n => mkRule n (class_name self) (parameters self) (variables self) (attrs self)
    | None => self
    end in
  let self :=
    match cls_parameters cls with
    | Some p => mkRule (name self) (class_name self)
                       (dict_update (parameters self) p) (variables self) (attrs self)
    | None => self
    end in
  let self :=
    match cls_variables cls with
    | Some v => mkRule (name self) (class_name self) (parameters self)
                       (dict_update (variables self) v) (attrs self)
    | None => self
    end in
  let self := cls_on_init cls self in
  let parameters := dict_update [("active", "Activate Rule")] (parameters self) in
  let self := mkRule (name self) (class_name self) parameters (variables self) (attrs self) in
  update_setting setting self.

(** The hooks a rule inherits unchanged. *)
Definition check_allowed {S} (req : OrderRequest) (gateway_name : string) : M S bool :=
  ret true.
Definition on_init {S} : M S unit := ret tt.
Definition on_tick {S T} (tick : T) : M S unit := ret tt.
Definition on_order {S} (order : OrderData) : M S unit := ret tt.
Definition on_trade {S} (trade : TradeData) : M S unit := ret tt.
Definition on_timer {S} : M S unit := ret tt.
End Template.

Arguments rule : clear implicits.
Arguments rule_data : clear implicits.
Arguments rule_class : clear implicits.

(** An instance of one of the rule classes written in Cython: the fields
    that the class declares, in [fields], and what else is reached by name,
    in [base_attrs]: the field [active] of the template and the attributes
    of the instance. *)
Record instance (S : Type) := mkInstance {
  fields : S;
  base_attrs : gmap string PyVal
}.
Arguments mkInstance {S} _ _.
Arguments fields {S} _.
Arguments base_attrs {S} _.

(** [setattr(self, attr, value)] for a name that is not a field of the rule's
    class: it never raises on the objects of the model. *)
Definition set_base_attr (attr : string) (value : PyVal)
    (attrs : gmap string PyVal) : gmap string PyVal :=
  <[attr := stored PyBool py_truth attr value]> attrs.

(** The conversions that Cython generates for an assignment to a field
    declared [cdef public int] or [cdef public float]; they raise for the
    objects they refuse. What a field of each kind then holds, read back as a
    Python object. *)
Section Conversions.
Variable as_c_int : PyVal -> exn + Z.
Variable as_c_float : PyVal -> exn + Q.

Definition int_stored (value : PyVal) : exn + PyVal :=
  match as_c_int value with
  | inr z => inr (PyInt z)
  | inl e => inl e
  end.

Definition float_stored (value : PyVal) : exn + PyVal :=
  match as_c_float value with
  | inr q => inr (PyFloat q)
  | inl e => inl e
  end.
End Conversions.

End RuleTemplate.

(** ** OrderValidityRule *)

Module OrderValidityRule.
Section Rule.
(** [RuleTemplate.get_contract]: the engine's reference data. *)
Variable get_contract : string -> option Double.ContractData.
Context {S : Type}.

Definition check_allowed (req : Double.OrderRequest) (gateway_name : string)
    : M S bool :=
  match get_contract (Double.req_vt_symbol req) with
  | None =>
      write_log (ContractNotExist (Double.req_vt_symbol req) req) >>
      ret false
  | Some contract =>
      let check_volume : M S bool :=
        if Double.opt_truth (Double.contract_max_volume contract)
           && Double.gtb (Double.req_volume req)
                (default Double.zero (Double.contract_max_volume contract))
        then
          write_log (VolumeAboveMax (Double.req_volume req)
                       (default Double.zero (Double.contract_max_volume contract))
                       req) >>
          ret false
        else if Double.ltb (Double.req_volume req)
                  (Double.contract_min_volume contract) then
          write_log (VolumeBelowMin (Double.req_volume req)
                       (Double.contract_min_volume contract) req) >>
          ret false
        else ret true in
      if Double.gtb (Double.contract_pricetick contract) Double.zero then
        let pricetick := Double.contract_pricetick contract in
        let remainder := Double.rem (Double.req_price req) pricetick in
        if Double.gtb (Double.abs remainder) Double.tolerance
           && Double.gtb (Double.abs (Double.sub remainder pricetick))
                Double.tolerance
        then
          write_log (PriceNotMultiple (Double.req_price req) pricetick req) >>
          ret false
        else check_volume
      else check_volume
  end.

(** The test of the source on the price: the remainder is further than the
    tolerance from 0, and further than the tolerance from the tick size. Both
    comparisons are false when their left side is NaN. *)
Definition beyond_tolerance (price pricetick : Double.t) : Prop :=
  Double.gtb (Double.abs (Double.rem price pricetick)) Double.tolerance = true
  /\ Double.gtb (Double.abs (Double.sub (Double.rem price pricetick) pricetick))
       Double.tolerance = true.



(** The reasons of a denial, for a given reading [price_off] of the test on
    the price: no contract; a positive tick size and a price off the grid; a
    maximum volume that is set, not zero and exceeded; a volume below the
    minimum. *)
Definition denied_when (price_off : Double.t -> Double.t -> Prop)
    (req : Double.OrderRequest) : Prop :=
  get_contract (Double.req_vt_symbol req) = None
  \/ exists contract, get_contract (Double.req_vt_symbol req) = Some contract /\
     (Double.gtb (Double.contract_pricetick contract) Double.zero = true
      /\ price_off (Double.req_price req) (Double.contract_pricetick contract)
      \/ (exists max_volume,
            Double.contract_max_volume contract = Some max_volume
            /\ Double.truth max_volume = true
            /\ Double.gtb (Double.req_volume req) max_volume = true)
      \/ Double.ltb (Double.req_volume req) (Double.contract_min_volume contract)
         = true).


(** The reasons for which the source denies a request. *)
Definition denied : Double.OrderRequest -> Prop := denied_when beyond_tolerance.

End Rule.
End OrderValidityRule.

(** ** OrderSizeRule *)

Module OrderSizeRule.

(** [order_volume_limit] is a C int; [order_value_limit] and the local
    [order_value] of [check_allowed] are C floats, kept exact here. *)
Record state := mkState {
  order_volume_limit : Z;
  order_value_limit : Q
}.

Definition on_init : state := mkState 500 1000000.

Section Rule.
Variable get_contract : string -> option ContractData.

Definition check_allowed (req : OrderRequest) (gateway_name : string) : M state bool :=
  let* self := get in
  if Qgtb (req_volume req) (inject_Z (order_volume_limit self)) then
    write_log (OrderVolumeExceeded (req_volume req) (order_volume_limit self) req) >>
    ret false
  else
    let contract := get_contract (req_vt_symbol req) in
    match contract with
    | Some contract =>
        if float_truth (req_price req) then
          let order_value := (req_volume req * req_price req * contract_size contract)%Q in
          if Qgtb order_value (order_value_limit self) then
            write_log (OrderValueExceeded order_value (order_value_limit self) req) >>
            ret false
          else ret true
        else ret true
    | None => ret true
    end.
End Rule.

(** *** Settings and snapshot *)

(** The class attributes [name] and [parameters] of the wrapper class, its
    [__name__], and [self.parameters] as [__init__] leaves it. *)
Definition name : string := "Order Size Check".
Definition class_name : string := "OrderSizeRule".

Definition class_parameters : dict string :=
  [("order_volume_limit", "Order Volume Limit");
   ("order_value_limit", "Order Value Limit")].

Definition parameters : dict string :=
  dict_update [("active", "Activate Rule")] (dict_update [] class_parameters).

(** The wrapper class declares no [variables]. *)
Definition variables : dict string := [].

(** An instance of the wrapper class. *)
Definition instance : Type := RuleTemplate.instance state.

(** The instance [__init__] has before it applies the settings. *)
Definition initial : instance :=
  RuleTemplate.mkInstance on_init {["active" := PyBool true]}.

(** [getattr(self, attr)] and [setattr(self, attr, value)]:
    [order_volume_limit] is declared [cdef public int], [order_value_limit]
    [cdef public float]; any other name is looked for in the template and in
    the instance. *)
Definition getattr (self : instance) (attr : string) : option PyVal :=
  if String.eqb attr "order_volume_limit" then
    Some (PyInt (order_volume_limit (RuleTemplate.fields self)))
  else if String.eqb attr "order_value_limit" then
    Some (PyFloat (order_value_limit (RuleTemplate.fields self)))
  else RuleTemplate.base_attrs self !! attr.

Section Settings.
Variable as_c_int : PyVal -> exn + Z.
Variable as_c_float : PyVal -> exn + Q.

Definition setattr (attr : string) (value : PyVal) (self : instance)
    : exn + instance :=
  if String.eqb attr "order_volume_limit" then
    match as_c_int value with
    | inr z =>
        inr (RuleTemplate.mkInstance
               (mkState z (order_value_limit (RuleTemplate.fields self)))
               (RuleTemplate.base_attrs self))
    | inl e => inl e
    end
  else if String.eqb attr "order_value_limit" then
    match as_c_float value with
    | inr q =>
        inr (RuleTemplate.mkInstance
               (mkState (order_volume_limit (RuleTemplate.fields self)) q)
               (RuleTemplate.base_attrs self))
    | inl e => inl e
    end
  else
    inr (RuleTemplate.mkInstance (RuleTemplate.fields self)
           (RuleTemplate.set_base_attr attr value (RuleTemplate.base_attrs self))).

(** What a parameter holds after the assignment of an object, or the
    exception that the assignment raises. *)
Definition stored (attr : string) (value : PyVal) : exn + PyVal :=
  if String.eqb attr "order_volume_limit" then
    RuleTemplate.int_stored as_c_int value
  else if String.eqb attr "order_value_limit" then
    RuleTemplate.float_stored as_c_float value
  else inr (RuleTemplate.stored PyBool py_truth attr value).

(** [RuleTemplate.update_setting] and [RuleTemplate.get_data], inherited. *)
Definition update_setting (rule_setting : gmap string PyVal) (self : instance)
    : instance * option exn :=
  RuleTemplate.update_setting_loop setattr (dict_keys parameters) rule_setting self.

(** [OrderSizeRule(risk_engine, setting)]: the instance the constructor has reached,
    with the exception it raised, if any. *)
Definition init (setting : gmap string PyVal) : instance * option exn :=
  update_setting setting initial.
End Settings.

Definition get_data (self : instance) : RuleTemplate.rule_data PyVal :=
  RuleTemplate.mkRuleData name class_name
    (RuleTemplate.collect getattr PyNone self (dict_keys parameters))
    (RuleTemplate.collect getattr PyNone self (dict_keys variables)).

End OrderSizeRule.

(** ** DuplicateOrderRule *)

Module DuplicateOrderRule.

(** [duplicate_order_limit] is a C int, [duplicate_order_count] a
    [defaultdict(int)] keyed by the fingerprints of the requests. *)
Record state := mkState {
  duplicate_order_limit : Z;
  duplicate_order_count : gmap string Z
}.

Definition on_init : state := mkState 10 ∅.

Definition set_duplicate_order_count (d : gmap string Z) (self : state) : state :=
  mkState (duplicate_order_limit self) d.

(** [self.duplicate_order_count[k]], a read of the [defaultdict]. *)
Definition getitem_duplicate_order_count (k : string) : M state Z :=
  fun self =>
    let '(v, d) := defaultdict_getitem k (duplicate_order_count self) in
    (v, set_duplicate_order_count d self, []).

Section Rule.
(** [str] of a float, as an f-string prints it. *)
Variable float_str : Q -> string.

Definition format_req (req : OrderRequest) : string :=
  req_vt_symbol req +:+ "|" +:+ value (req_type req) +:+ "|"
  +:+ value (req_direction req) +:+ "|" +:+ value (req_offset req) +:+ "|"
  +:+ float_str (req_volume req) +:+ "@" +:+ float_str (req_price req).

Definition check_allowed (req : OrderRequest) (gateway_name : string) : M state bool :=
  let req_str := format_req req in
  modify (fun self =>
    set_duplicate_order_count
      (defaultdict_incr req_str (duplicate_order_count self)) self) >>
  put_event >>
  let* duplicate_order_count := getitem_duplicate_order_count req_str in
  let* self := get in
  if duplicate_order_count >=? duplicate_order_limit self then
    write_log (DuplicateCountReached duplicate_order_count
                 (duplicate_order_limit self) req) >>
    ret false
  else ret true.

(** [check_allowed] called once per request of the list, in order; the
    answers come back in the same order. *)
Fixpoint check_all (reqs : list OrderRequest) (gateway_name : string)
    : M state (list bool) :=
  match reqs with
  | [] => ret []
  | req :: reqs' =>
      let* allowed := check_allowed req gateway_name in
      let* rest := check_all reqs' gateway_name in
      ret (allowed :: rest)
  end.
End Rule.

(** *** Settings and snapshot *)

(** The class attributes [name] and [parameters] of the wrapper class, its
    [__name__], and [self.parameters] as [__init__] leaves it. *)
Definition name : string := "Duplicate Order Check".
Definition class_name : string := "DuplicateOrderRule".

Definition class_parameters : dict string :=
  [("duplicate_order_limit", "Duplicate Order Limit")].

Definition parameters : dict string :=
  dict_update [("active", "Activate Rule")] (dict_update [] class_parameters).

Definition class_variables : dict string :=
  [("duplicate_order_count", "Duplicate Order Count")].

Definition variables : dict string := dict_update [] class_variables.

(** An instance of the wrapper class. *)
Definition instance : Type := RuleTemplate.instance state.

(** The instance [__init__] has before it applies the settings. *)
Definition initial : instance :=
  RuleTemplate.mkInstance on_init {["active" := PyBool true]}.

(** [getattr(self, attr)], and [setattr(self, attr, value)] for the names of
    [parameters]: [duplicate_order_limit] is declared [cdef public int],
    [duplicate_order_count] [cdef public object]; any other name is looked for
    in the template and in the instance. *)
Definition getattr (self : instance) (attr : string) : option PyVal :=
  if String.eqb attr "duplicate_order_limit" then
    Some (PyInt (duplicate_order_limit (RuleTemplate.fields self)))
  else if String.eqb attr "duplicate_order_count" then
    Some (PyCounts (duplicate_order_count (RuleTemplate.fields self)))
  else RuleTemplate.base_attrs self !! attr.

Section Settings.
Variable as_c_int : PyVal -> exn + Z.

Definition setattr (attr : string) (value : PyVal) (self : instance)
    : exn + instance :=
  if String.eqb attr "duplicate_order_limit" then
    match as_c_int value with
    | inr z =>
        inr (RuleTemplate.mkInstance
               (mkState z (duplicate_order_count (RuleTemplate.fields self)))
               (RuleTemplate.base_attrs self))
    | inl e => inl e
    end
  else
    inr (RuleTemplate.mkInstance (RuleTemplate.fields self)
           (RuleTemplate.set_base_attr attr value (RuleTemplate.base_attrs self))).

(** What a parameter holds after the assignment of an object, or the
    exception that the assignment raises. *)
Definition stored (attr : string) (value : PyVal) : exn + PyVal :=
  if String.eqb attr "duplicate_order_limit" then
    RuleTemplate.int_stored as_c_int value
  else inr (RuleTemplate.stored PyBool py_truth attr value).

(** [RuleTemplate.update_setting] and [RuleTemplate.get_data], inherited. *)
Definition update_setting (rule_setting : gmap string PyVal) (self : instance)
    : instance * option exn :=
  RuleTemplate.update_setting_loop setattr (dict_keys parameters) rule_setting self.

(** [DuplicateOrderRule(risk_engine, setting)]: the instance the constructor has reached,
    with the exception it raised, if any. *)
Definition init (setting : gmap string PyVal) : instance * option exn :=
  update_setting setting initial.
End Settings.

Definition get_data (self : instance) : RuleTemplate.rule_data PyVal :=
  RuleTemplate.mkRuleData name class_name
    (RuleTemplate.collect getattr PyNone self (dict_keys parameters))
    (RuleTemplate.collect getattr PyNone self (dict_keys variables)).

End DuplicateOrderRule.

(** ** ActiveOrderRule *)

Module ActiveOrderRule.

(** The limit and the count are C ints, [active_orders] a [dict] from order
    identifiers to the order objects last received. *)
Record state := mkState {
  active_order_limit : Z;
  active_order_count : Z;
  active_orders : gmap string OrderData
}.

Definition on_init : state := mkState 50 0 ∅.

Definition set_active_orders (m : gmap string OrderData) (self : state) : state :=
  mkState (active_order_limit self) (active_order_count self) m.
Definition set_active_order_count (n : Z) (self : state) : state :=
  mkState (active_order_limit self) n (active_orders self).

Definition check_allowed (req : OrderRequest) (gateway_name : string) : M state bool :=
  let* self := get in
  if active_order_count self >=? active_order_limit self then
    write_log (ActiveCountReached (active_order_count self)
                 (active_order_limit self) req) >>
    ret false
  else ret true.

Definition on_order (order : OrderData) : M state unit :=
  let vt_orderid := order_vt_orderid order in
  (let* self := get in
   if is_active order then
     modify (set_active_orders (<[vt_orderid := order]> (active_orders self)))
   else if bool_decide (vt_orderid ∈ dom (active_orders self)) then
     modify (set_active_orders (delete vt_orderid (active_orders self)))
   else ret tt) >>
  modify (fun self =>
    set_active_order_count (Z.of_nat (size (active_orders self))) self) >>
  put_event.

(** The order events of a run, delivered in order. *)
Fixpoint on_orders (orders : list OrderData) : M state unit :=
  match orders with
  | [] => ret tt
  | order :: orders' => on_order order >> on_orders orders'
  end.

(** The mapping an order event leaves. *)
Definition updated (order : OrderData) (orders : gmap string OrderData)
    : gmap string OrderData :=
  if is_active order then <[order_vt_orderid order := order]> orders
  else delete (order_vt_orderid order) orders.

(** The event delivered last for an order identifier. *)
Definition latest (vt_orderid : string) (orders : list OrderData) : option OrderData :=
  last (filter (fun order => order_vt_orderid order = vt_orderid) orders).

(** The orders a run leaves active: for each identifier the event delivered
    last, when that event is active. *)
Definition active_after (vt_orderid : string) (orders : list OrderData)
    : option OrderData :=
  match latest vt_orderid orders with
  | Some order => if is_active order then Some order else None
  | None => None
  end.


(** *** Settings and snapshot *)

(** The class attributes [name] and [parameters] of the wrapper class, its
    [__name__], and [self.parameters] as [__init__] leaves it. *)
Definition name : string := "Active Order Check".
Definition class_name : string := "ActiveOrderRule".

Definition class_parameters : dict string :=
  [("active_order_limit", "Active Order Limit")].

Definition parameters : dict string :=
  dict_update [("active", "Activate Rule")] (dict_update [] class_parameters).

Definition class_variables : dict string :=
  [("active_order_count", "Active Order Count")].

Definition variables : dict string := dict_update [] class_variables.

(** An instance of the wrapper class. *)
Definition instance : Type := RuleTemplate.instance state.

(** The instance [__init__] has before it applies the settings. *)
Definition initial : instance :=
  RuleTemplate.mkInstance on_init {["active" := PyBool true]}.

(** [getattr(self, attr)], and [setattr(self, attr, value)] for the names of
    [parameters]: [active_order_limit] and [active_order_count] are declared
    [cdef public int], [active_orders] is not public; any other name is
    looked for in the template and in the instance. *)
Definition getattr (self : instance) (attr : string) : option PyVal :=
  if String.eqb attr "active_order_limit" then
    Some (PyInt (active_order_limit (RuleTemplate.fields self)))
  else if String.eqb attr "active_order_count" then
    Some (PyInt (active_order_count (RuleTemplate.fields self)))
  else RuleTemplate.base_attrs self !! attr.

Section Settings.
Variable as_c_int : PyVal -> exn + Z.

Definition setattr (attr : string) (value : PyVal) (self : instance)
    : exn + instance :=
  if String.eqb attr "active_order_limit" then
    match as_c_int value with
    | inr z =>
        inr (RuleTemplate.mkInstance
               (mkState z (active_order_count (RuleTemplate.fields self))
                  (active_orders (RuleTemplate.fields self)))
               (RuleTemplate.base_attrs self))
    | inl e => inl e
    end
  else
    inr (RuleTemplate.mkInstance (RuleTemplate.fields self)
           (RuleTemplate.set_base_attr attr value (RuleTemplate.base_attrs self))).

(** What a parameter holds after the assignment of an object, or the
    exception that the assignment raises. *)
Definition stored (attr : string) (value : PyVal) : exn + PyVal :=
  if String.eqb attr "active_order_limit" then
    RuleTemplate.int_stored as_c_int value
  else inr (RuleTemplate.stored PyBool py_truth attr value).

(** [RuleTemplate.update_setting] and [RuleTemplate.get_data], inherited. *)
Definition update_setting (rule_setting : gmap string PyVal) (self : instance)
    : instance * option exn :=
  RuleTemplate.update_setting_loop setattr (dict_keys parameters) rule_setting self.

(** [ActiveOrderRule(risk_engine, setting)]: the instance the constructor has reached,
    with the exception it raised, if any. *)
Definition init (setting : gmap string PyVal) : instance * option exn :=
  update_setting setting initial.
End Settings.

Definition get_data (self : instance) : RuleTemplate.rule_data PyVal :=
  RuleTemplate.mkRuleData name class_name
    (RuleTemplate.collect getattr PyNone self (dict_keys parameters))
    (RuleTemplate.collect getattr PyNone self (dict_keys variables)).

End ActiveOrderRule.

(** ** DailyLimitRule *)

Module DailyLimitRule.

(** The fields of [DailyLimitRuleCy]; [base_attrs] holds the attributes of
    the base class that are reached by name ([active]). *)
Record state := mkState {
  total_order_limit : Z;
  total_cancel_limit : Z;
  total_trade_limit : Z;
  contract_order_limit : Z;
  contract_cancel_limit : Z;
  contract_trade_limit : Z;
  all_orderids : gset string;
  cancel_orderids : gset string;
  all_tradeids : gset string;
  total_order_count : Z;
  total_cancel_count : Z;
  total_trade_count : Z;
  contract_order_count : gmap string Z;
  contract_cancel_count : gmap string Z;
  contract_trade_count : gmap string Z;
  base_attrs : gmap string PyVal
}.

Definition set_total_order_limit (x : Z) (self : state) : state :=
  mkState x (total_cancel_limit self) (total_trade_limit self)
    (contract_order_limit self) (contract_cancel_limit self)
    (contract_trade_limit self) (all_orderids self) (cancel_orderids self)
    (all_tradeids self) (total_order_count self) (total_cancel_count self)
    (total_trade_count self) (contract_order_count self) (contract_cancel_count
    self) (contract_trade_count self) (base_attrs self).
Definition set_total_cancel_limit (x : Z) (self : state) : state :=
  mkState (total_order_limit self) x (total_trade_limit self)
    (contract_order_limit self) (contract_cancel_limit self)
    (contract_trade_limit self) (all_orderids self) (cancel_orderids self)
    (all_tradeids self) (total_order_count self) (total_cancel_count self)
    (total_trade_count self) (contract_order_count self) (contract_cancel_count
    self) (contract_trade_count self) (base_attrs self).
Definition set_total_trade_limit (x : Z) (self : state) : state :=
  mkState (total_order_limit self) (total_cancel_limit self) x
    (contract_order_limit self) (contract_cancel_limit self)
    (contract_trade_limit self) (all_orderids self) (cancel_orderids self)
    (all_tradeids self) (total_order_count self) (total_cancel_count self)
    (total_trade_count self) (contract_order_count self) (contract_cancel_count
    self) (contract_trade_count self) (base_attrs self).
Definition set_contract_order_limit (x : Z) (self : state) : state :=
  mkState (total_order_limit self) (total_cancel_limit self)
    (total_trade_limit self) x (contract_cancel_limit self)
    (contract_trade_limit self) (all_orderids self) (cancel_orderids self)
    (all_tradeids self) (total_order_count self) (total_cancel_count self)
    (total_trade_count self) (contract_order_count self) (contract_cancel_count
    self) (contract_trade_count self) (base_attrs self).
Definition set_contract_cancel_limit (x : Z) (self : state) : state :=
  mkState (total_order_limit self) (total_cancel_limit self)
    (total_trade_limit self) (contract_order_limit self) x (contract_trade_limit
    self) (all_orderids self) (cancel_orderids self) (all_tradeids self)
    (total_order_count self) (total_cancel_count self) (total_trade_count self)
    (contract_order_count self) (contract_cancel_count self)
    (contract_trade_count self) (base_attrs self).
Definition set_contract_trade_limit (x : Z) (self : state) : state :=
  mkState (total_order_limit self) (total_cancel_limit self)
    (total_trade_limit self) (contract_order_limit self) (contract_cancel_limit
    self) x (all_orderids self) (cancel_orderids self) (all_tradeids self)
    (total_order_count self) (total_cancel_count self) (total_trade_count self)
    (contract_order_count self) (contract_cancel_count self)
    (contract_trade_count self) (base_attrs self).
Definition set_all_orderids (x : gset string) (self : state) : state :=
  mkState (total_order_limit self) (total_cancel_limit self)
    (total_trade_limit self) (contract_order_limit self) (contract_cancel_limit
    self) (contract_trade_limit self) x (cancel_orderids self) (all_tradeids
    self) (total_order_count self) (total_cancel_count self) (total_trade_count
    self) (contract_order_count self) (contract_cancel_count self)
    (contract_trade_count self) (base_attrs self).
Definition set_cancel_orderids (x : gset string) (self : state) : state :=
  mkState (total_order_limit self) (total_cancel_limit self)
    (total_trade_limit self) (contract_order_limit self) (contract_cancel_limit
    self) (contract_trade_limit self) (all_orderids self) x (all_tradeids self)
    (total_order_count self) (total_cancel_count self) (total_trade_count self)
    (contract_order_count self) (contract_cancel_count self)
    (contract_trade_count self) (base_attrs self).
Definition set_all_tradeids (x : gset string) (self : state) : state :=
  mkState (total_order_limit self) (total_cancel_limit self)
    (total_trade_limit self) (contract_order_limit self) (contract_cancel_limit
    self) (contract_trade_limit self) (all_orderids self) (cancel_orderids self)
    x (total_order_count self) (total_cancel_count self) (total_trade_count
    self) (contract_order_count self) (contract_cancel_count self)
    (contract_trade_count self) (base_attrs self).
Definition set_total_order_count (x : Z) (self : state) : state :=
  mkState (total_order_limit self) (total_cancel_limit self)
    (total_trade_limit self) (contract_order_limit self) (contract_cancel_limit
    self) (contract_trade_limit self) (all_orderids self) (cancel_orderids self)
    (all_tradeids self) x (total_cancel_count self) (total_trade_count self)
    (contract_order_count self) (contract_cancel_count self)
    (contract_trade_count self) (base_attrs self).
Definition set_total_cancel_count (x : Z) (self : state) : state :=
  mkState (total_order_limit self) (total_cancel_limit self)
    (total_trade_limit self) (contract_order_limit self) (contract_cancel_limit
    self) (contract_trade_limit self) (all_orderids self) (cancel_orderids self)
    (all_tradeids self) (total_order_count self) x (total_trade_count self)
    (contract_order_count self) (contract_cancel_count self)
    (contract_trade_count self) (base_attrs self).
Definition set_total_trade_count (x : Z) (self : state) : state :=
  mkState (total_order_limit self) (total_cancel_limit self)
    (total_trade_limit self) (contract_order_limit self) (contract_cancel_limit
    self) (contract_trade_limit self) (all_orderids self) (cancel_orderids self)
    (all_tradeids self) (total_order_count self) (total_cancel_count self) x
    (contract_order_count self) (contract_cancel_count self)
    (contract_trade_count self) (base_attrs self).
Definition set_contract_order_count (x : gmap string Z) (self : state) : state :=
  mkState (total_order_limit self) (total_cancel_limit self)
    (total_trade_limit self) (contract_order_limit self) (contract_cancel_limit
    self) (contract_trade_limit self) (all_orderids self) (cancel_orderids self)
    (all_tradeids self) (total_order_count self) (total_cancel_count self)
    (total_trade_count self) x (contract_cancel_count self)
    (contract_trade_count self) (base_attrs self).
Definition set_contract_cancel_count (x : gmap string Z) (self : state) : state :=
  mkState (total_order_limit self) (total_cancel_limit self)
    (total_trade_limit self) (contract_order_limit self) (contract_cancel_limit
    self) (contract_trade_limit self) (all_orderids self) (cancel_orderids self)
    (all_tradeids self) (total_order_count self) (total_cancel_count self)
    (total_trade_count self) (contract_order_count self) x (contract_trade_count
    self) (base_attrs self).
Definition set_contract_trade_count (x : gmap string Z) (self : state) : state :=
  mkState (total_order_limit self) (total_cancel_limit self)
    (total_trade_limit self) (contract_order_limit self) (contract_cancel_limit
    self) (contract_trade_limit self) (all_orderids self) (cancel_orderids self)
    (all_tradeids self) (total_order_count self) (total_cancel_count self)
    (total_trade_count self) (contract_order_count self) (contract_cancel_count
    self) x (base_attrs self).
Definition set_base_attrs (x : gmap string PyVal) (self : state) : state :=
  mkState (total_order_limit self) (total_cancel_limit self)
    (total_trade_limit self) (contract_order_limit self) (contract_cancel_limit
    self) (contract_trade_limit self) (all_orderids self) (cancel_orderids self)
    (all_tradeids self) (total_order_count self) (total_cancel_count self)
    (total_trade_count self) (contract_order_count self) (contract_cancel_count
    self) (contract_trade_count self) x.

(** The state [__init__] has built when [on_init] returns. *)
Definition on_init : state :=
  mkState 20000 10000 10000 2000 1000 1000
          ∅ ∅ ∅
          0 0 0
          ∅ ∅ ∅
          {["active" := PyBool true]}.

(** The class attribute [parameters] of the wrapper class. *)
Definition class_parameters : dict string :=
  [("total_order_limit", "Total Order Limit");
   ("total_cancel_limit", "Total Cancel Limit");
   ("total_trade_limit", "Total Trade Limit");
   ("contract_order_limit", "Contract Order Limit");
   ("contract_cancel_limit", "Contract Cancel Limit");
   ("contract_trade_limit", "Contract Trade Limit")].

(** [self.parameters] as [__init__] leaves it. *)
Definition parameters : dict string :=
  dict_update [("active", "Activate Rule")] (dict_update [] class_parameters).

(** The class attribute [variables] of the wrapper class, and
    [self.variables] as [__init__] leaves it. *)
Definition class_variables : dict string :=
  [("total_order_count", "Total Order Count");
   ("total_cancel_count", "Total Cancel Count");
   ("total_trade_count", "Total Trade Count");
   ("contract_order_count", "Contract Order Count");
   ("contract_cancel_count", "Contract Cancel Count");
   ("contract_trade_count", "Contract Trade Count")].

Definition variables : dict string := dict_update [] class_variables.

(** The class attribute [name] and the [__name__] of the wrapper class. *)
Definition name : string := "Daily Limit Check".
Definition class_name : string := "DailyLimitRule".

(** The six limits by name. *)
Definition limit_of (attr : string) (self : state) : option Z :=
  if String.eqb attr "total_order_limit" then Some (total_order_limit self)
  else if String.eqb attr "total_cancel_limit" then Some (total_cancel_limit self)
  else if String.eqb attr "total_trade_limit" then Some (total_trade_limit self)
  else if String.eqb attr "contract_order_limit" then Some (contract_order_limit self)
  else if String.eqb attr "contract_cancel_limit" then Some (contract_cancel_limit self)
  else if String.eqb attr "contract_trade_limit" then Some (contract_trade_limit self)
  else None.

(** [getattr(self, attr)]: the public fields of the class, then the
    attributes of the base class. *)
Definition getattr (self : state) (attr : string) : option PyVal :=
  match limit_of attr self with
  | Some z => Some (PyInt z)
  | None =>
      if String.eqb attr "total_order_count" then
        Some (PyInt (total_order_count self))
      else if String.eqb attr "total_cancel_count" then
        Some (PyInt (total_cancel_count self))
      else if String.eqb attr "total_trade_count" then
        Some (PyInt (total_trade_count self))
      else if String.eqb attr "contract_order_count" then
        Some (PyCounts (contract_order_count self))
      else if String.eqb attr "contract_cancel_count" then
        Some (PyCounts (contract_cancel_count self))
      else if String.eqb attr "contract_trade_count" then
        Some (PyCounts (contract_trade_count self))
      else base_attrs self !! attr
  end.

(** [RuleTemplate.get_data], inherited. *)
Definition get_data (self : state) : RuleTemplate.rule_data PyVal :=
  RuleTemplate.mkRuleData name class_name
    (RuleTemplate.collect getattr PyNone self (dict_keys parameters))
    (RuleTemplate.collect getattr PyNone self (dict_keys variables)).

(** A read [field[k]] of one of the three [defaultdict]s. *)
Definition getitem (field : state -> gmap string Z)
    (set_field : gmap string Z -> state -> state) (k : string) : M state Z :=
  fun self =>
    let '(v, d) := defaultdict_getitem k (field self) in
    (v, set_field d self, []).

Definition check_allowed (req : OrderRequest) (gateway_name : string) : M state bool :=
  let vt_symbol := req_vt_symbol req in
  let* contract_order_count :=
    getitem contract_order_count set_contract_order_count vt_symbol in
  let* self := get in
  if contract_order_count >=? contract_order_limit self then
    write_log (ContractOrderCountReached contract_order_count
                 (contract_order_limit self) req) >>
    ret false
  else
  let* contract_cancel_count :=
    getitem contract_cancel_count set_contract_cancel_count vt_symbol in
  let* self := get in
  if contract_cancel_count >=? contract_cancel_limit self then
    write_log (ContractCancelCountReached contract_cancel_count
                 (contract_cancel_limit self) req) >>
    ret false
  else
  let* contract_trade_count :=
    getitem contract_trade_count set_contract_trade_count vt_symbol in
  let* self := get in
  if contract_trade_count >=? contract_trade_limit self then
    write_log (ContractTradeCountReached contract_trade_count
                 (contract_trade_limit self) req) >>
    ret false
  else if total_order_count self >=? total_order_limit self then
    write_log (TotalOrderCountReached (total_order_count self)
                 (total_order_limit self) req) >>
    ret false
  else if total_cancel_count self >=? total_cancel_limit self then
    write_log (TotalCancelCountReached (total_cancel_count self)
                 (total_cancel_limit self) req) >>
    ret false
  else if total_trade_count self >=? total_trade_limit self then
    write_log (TotalTradeCountReached (total_trade_count self)
                 (total_trade_limit self) req) >>
    ret false
  else ret true.

Definition on_order (order : OrderData) : M state unit :=
  let vt_orderid := order_vt_orderid order in
  let vt_symbol := order_vt_symbol order in
  let* self := get in
  if negb (bool_decide (vt_orderid ∈ all_orderids self)) then
    modify (fun self => set_all_orderids ({[vt_orderid]} ∪ all_orderids self) self) >>
    modify (fun self => set_total_order_count (total_order_count self + 1) self) >>
    modify (fun self =>
      set_contract_order_count
        (defaultdict_incr vt_symbol (contract_order_count self)) self) >>
    put_event
  else if bool_decide (order_status order = CANCELLED)
          && negb (bool_decide (vt_orderid ∈ cancel_orderids self)) then
    modify (fun self => set_cancel_orderids ({[vt_orderid]} ∪ cancel_orderids self) self) >>
    modify (fun self => set_total_cancel_count (total_cancel_count self + 1) self) >>
    modify (fun self =>
      set_contract_cancel_count
        (defaultdict_incr vt_symbol (contract_cancel_count self)) self) >>
    put_event
  else ret tt.

Definition on_trade (trade : TradeData) : M state unit :=
  let vt_tradeid := trade_vt_tradeid trade in
  let* self := get in
  if bool_decide (vt_tradeid ∈ all_tradeids self) then ret tt
  else
    modify (fun self => set_all_tradeids ({[vt_tradeid]} ∪ all_tradeids self) self) >>
    modify (fun self => set_total_trade_count (total_trade_count self + 1) self) >>
    modify (fun self =>
      set_contract_trade_count
        (defaultdict_incr (trade_vt_symbol trade) (contract_trade_count self)) self) >>
    put_event.

(** The order events of a run, delivered in order. *)
Fixpoint on_orders (orders : list OrderData) : M state unit :=
  match orders with
  | [] => ret tt
  | order :: orders' => on_order order >> on_orders orders'
  end.

Section Settings.
(** The conversion of a Python object to a C [int] that Cython generates
    for an assignment to a [cdef public int] field; it raises for the
    objects it refuses. *)
Variable as_c_int : PyVal -> exn + Z.

Definition set_int_field (set_field : Z -> state -> state)
    (value : PyVal) (self : state) : exn + state :=
  match as_c_int value with
  | inr z => inr (set_field z self)
  | inl e => inl e
  end.

(** [setattr(self, attr, value)] for the names of [parameters]: the six
    limits are [cdef public int] fields; [active] is a field of the
    template, which holds the truth value of the object assigned. *)
Definition setattr (attr : string) (value : PyVal) (self : state) : exn + state :=
  if String.eqb attr "total_order_limit" then
    set_int_field set_total_order_limit value self
  else if String.eqb attr "total_cancel_limit" then
    set_int_field set_total_cancel_limit value self
  else if String.eqb attr "total_trade_limit" then
    set_int_field set_total_trade_limit value self
  else if String.eqb attr "contract_order_limit" then
    set_int_field set_contract_order_limit value self
  else if String.eqb attr "contract_cancel_limit" then
    set_int_field set_contract_cancel_limit value self
  else if String.eqb attr "contract_trade_limit" then
    set_int_field set_contract_trade_limit value self
  else
    inr (set_base_attrs (RuleTemplate.set_base_attr attr value (base_attrs self))
           self).

(** What a parameter holds after the assignment of an object, or the
    exception that the assignment raises. *)
Definition stored (attr : string) (value : PyVal) : exn + PyVal :=
  if bool_decide (attr ∈ dict_keys class_parameters) then
    RuleTemplate.int_stored as_c_int value
  else inr (RuleTemplate.stored PyBool py_truth attr value).

(** [RuleTemplate.update_setting], inherited. *)
Definition update_setting (rule_setting : gmap string PyVal) (self : state)
    : state * option exn :=
  RuleTemplate.update_setting_loop setattr (dict_keys parameters) rule_setting self.

(** [DailyLimitRule(risk_engine, setting)]: the state the constructor has
    reached, with the exception it raised, if any. *)
Definition init (setting : gmap string PyVal) : state * option exn :=
  update_setting setting on_init.

(** The calls the engine makes on the rule. *)
Inductive call :=
| OnOrder (order : OrderData)
| OnTrade (trade : TradeData)
| OnTick
| OnTimer
| CheckAllowed (req : OrderRequest) (gateway_name : string)
| UpdateSetting (rule_setting : gmap string PyVal).

Definition step (c : call) (self : state) : state :=
  match c with
  | OnOrder order => state_of (on_order order self)
  | OnTrade trade => state_of (on_trade trade self)
  | OnTick => state_of (RuleTemplate.on_tick tt self)
  | OnTimer => state_of (RuleTemplate.on_timer self)
  | CheckAllowed req gateway_name => state_of (check_allowed req gateway_name self)
  | UpdateSetting rule_setting => (update_setting rule_setting self).1
  end.

Definition run (cs : list call) (self : state) : state :=
  fold_left (fun self c => step c self) cs self.
End Settings.

(** The conversion on the objects of this model: an [int] inside the range
    of the C type converts, and so does a [bool]; a [float] converts to the
    integer it truncates to, towards zero, when that is inside the range; a
    number outside the range raises [OverflowError]; [None], a [str] and a
    [dict] raise [TypeError]. *)
Definition c_int_in_range (z : Z) : exn + Z :=
  if (INT_MIN <=? z) && (z <=? INT_MAX) then inr z else inl OverflowError.

Definition c_int_of_pyval (value : PyVal) : exn + Z :=
  match value with
  | PyInt z => c_int_in_range z
  | PyBool b => inr (if b then 1 else 0)
  | PyFloat q => c_int_in_range (Z.quot (Qnum q) (Z.pos (Qden q)))
  | _ => inl TypeError
  end.

(** The number of events of a run that carry the order identifier and at
    which the counter [field] changes. *)
Fixpoint increments (field : state -> Z) (vt_orderid : string)
    (orders : list OrderData) (self : state) : nat :=
  match orders with
  | [] => 0%nat
  | order :: orders' =>
      let self' := state_of (on_order order self) in
      ((if bool_decide (order_vt_orderid order = vt_orderid
                        /\ field self' <> field self)
        then 1 else 0)
       + increments field vt_orderid orders' self')%nat
  end.

(** A reading of the order counters (the total, or the count of one
    symbol), and a reading of the cancel counters. *)
Definition order_counter (field : state -> Z) : Prop :=
  forall s s',
    total_order_count s = total_order_count s' ->
    contract_order_count s = contract_order_count s' ->
    field s = field s'.

Definition cancel_counter (field : state -> Z) : Prop :=
  forall s s',
    total_cancel_count s = total_cancel_count s' ->
    contract_cancel_count s = contract_cancel_count s' ->
    field s = field s'.

(** The state a call leaves differs from the state it found at most by
    reads of the three per-symbol dictionaries at the request's symbol. *)
Definition touched_only (vt_symbol : string) (self self' : state) : Prop :=
  exists d1 d2 d3,
    self' = set_contract_trade_count d3
              (set_contract_cancel_count d2 (set_contract_order_count d1 self))
    /\ (d1 = contract_order_count self
        \/ d1 = defaultdict_touched vt_symbol (contract_order_count self))
    /\ (d2 = contract_cancel_count self
        \/ d2 = defaultdict_touched vt_symbol (contract_cancel_count self))
    /\ (d3 = contract_trade_count self
        \/ d3 = defaultdict_touched vt_symbol (contract_trade_count self)).
(** Two states with the same limits, identifier sets and counters, the
    count of a symbol being 0 when its dictionary has no entry for it. *)
Definition same_counts (self self' : state) : Prop :=
  total_order_limit self' = total_order_limit self
  /\ total_cancel_limit self' = total_cancel_limit self
  /\ total_trade_limit self' = total_trade_limit self
  /\ contract_order_limit self' = contract_order_limit self
  /\ contract_cancel_limit self' = contract_cancel_limit self
  /\ contract_trade_limit self' = contract_trade_limit self
  /\ all_orderids self' = all_orderids self
  /\ cancel_orderids self' = cancel_orderids self
  /\ all_tradeids self' = all_tradeids self
  /\ total_order_count self' = total_order_count self
  /\ total_cancel_count self' = total_cancel_count self
  /\ total_trade_count self' = total_trade_count self
  /\ base_attrs self' = base_attrs self
  /\ (forall k, count_of k (contract_order_count self')
                = count_of k (contract_order_count self))
  /\ (forall k, count_of k (contract_cancel_count self')
                = count_of k (contract_cancel_count self))
  /\ (forall k, count_of k (contract_trade_count self')
                = count_of k (contract_trade_count self)).

(** What [update_setting] cannot touch: the identifier sets and the
    counters. *)
Definition same_records (self self' : state) : Prop :=
  all_orderids self' = all_orderids self
  /\ cancel_orderids self' = cancel_orderids self
  /\ all_tradeids self' = all_tradeids self
  /\ total_order_count self' = total_order_count self
  /\ total_cancel_count self' = total_cancel_count self
  /\ total_trade_count self' = total_trade_count self
  /\ contract_order_count self' = contract_order_count self
  /\ contract_cancel_count self' = contract_cancel_count self
  /\ contract_trade_count self' = contract_trade_count self.
(** Every counter of the rule lies between 0 and [n]. *)
Definition bounded (n : Z) (self : state) : Prop :=
  0 <= total_order_count self <= n
  /\ 0 <= total_cancel_count self <= n
  /\ 0 <= total_trade_count self <= n
  /\ (forall k, 0 <= count_of k (contract_order_count self) <= n)
  /\ (forall k, 0 <= count_of k (contract_cancel_count self) <= n)
  /\ (forall k, 0 <= count_of k (contract_trade_count self) <= n).

(** The invariant between the counters and the identifier sets. *)
Definition consistent (self : state) : Prop :=
  total_order_count self = Z.of_nat (size (all_orderids self))
  /\ total_cancel_count self = Z.of_nat (size (cancel_orderids self))
  /\ total_trade_count self = Z.of_nat (size (all_tradeids self))
  /\ cancel_orderids self ⊆ all_orderids self.

End DailyLimitRule.

(** ** Auxiliary notions of the statements *)

(** The character occurs in the string. *)
Fixpoint has_char (c : ascii) (s : string) : bool :=
  match s with
  | EmptyString => false
  | String c' s' => if Ascii.eqb c c' then true else has_char c s'
  end.

(** The printed fields of a request keep clear of the separators of
    [format_req]: no bar in the values of the three enumeration members and in
    the printed volume, no at-sign in the printed price. *)
Definition separable (float_str : Q -> string) (req : OrderRequest) : Prop :=
  has_char "|" (value (req_type req)) = false
  /\ has_char "|" (value (req_direction req)) = false
  /\ has_char "|" (value (req_offset req)) = false
  /\ has_char "|" (float_str (req_volume req)) = false
  /\ has_char "@" (float_str (req_price req)) = false.

(** A printer of rationals for the examples: numerator, slash, denominator. *)
Definition fraction_str (q : Q) : string :=
  pretty (Qnum q) +:+ "/" +:+ pretty (Z.pos (Qden q)).

(** The contract table and the requests of the examples. *)
Definition example_contracts (vt_symbol : string) : option ContractData :=
  if String.eqb vt_symbol "rb2410.SHFE"
  then Some (mkContractData "rb2410.SHFE" (1 # 2) 1 (Some 100%Q) 10)
  else None.

Definition example_req (volume price : Q) : OrderRequest :=
  mkOrderRequest "rb2410.SHFE" (mkEnum "LIMIT") (mkEnum "LONG") (mkEnum "OPEN")
                 volume price.

(** The same contract and requests as [OrderValidityRule] reads them, with
    their numbers as doubles. *)
Definition example_tick_contracts (vt_symbol : string)
    : option Double.ContractData :=
  if String.eqb vt_symbol "rb2410.SHFE"
  then Some (Double.mkContractData "rb2410.SHFE" (Double.of_ratio 1 2)
               (Double.of_Z 1) (Some (Double.of_Z 100)) (Double.of_Z 10))
  else None.

Definition example_tick_req (volume price : Double.t) : Double.OrderRequest :=
  Double.mkOrderRequest "rb2410.SHFE" (mkEnum "LIMIT") (mkEnum "LONG")
    (mkEnum "OPEN") volume price.

(** A rule with one declared parameter, as in the spec's examples. *)
Definition example_rule : RuleTemplate.rule PyVal :=
  RuleTemplate.mkRule "Example" "ExampleRule"
    [("active", "Activate Rule"); ("x", "An Example")] []
    {["active" := PyBool true; "x" := PyInt 0]}.

(** The order events of the examples. *)
Definition example_order (status : Status) : OrderData :=
  mkOrderData "CTP.1" "rb2410.SHFE" status.

(** ** Settings and snapshots of a rule class *)

Section SettingsStatements.
Context {S V : Type}.
(** The assignment and the read of an attribute by name, on the instances
    of the class. *)
Variable setattr : string -> V -> S -> exn + S.
Variable getattr : S -> string -> option V.
(** [self.update_setting(rule_setting)], and the [parameters] entry of
    [self.get_data()]. *)
Variable update_setting : gmap string V -> S -> S * option exn.
Variable snapshot : S -> dict V.
(** The keys of [self.parameters], in order. *)
Variable names : list string.
(** What a parameter holds after the assignment of an object, or the
    exception that the assignment raises. *)
Variable stored : string -> V -> exn + V.

(** The assignment of a parameter leaves what [stored] says to be read, or
    raises as [stored] says; it leaves every other attribute as it was. *)
Definition assignment_laws : Prop :=
  (forall k v s,
     k ∈ names ->
     match stored k v with
     | inr v' => exists s', setattr k v s = inr s' /\ getattr s' k = Some v'
     | inl e => setattr k v s = inl e
     end)
  /\ (forall k k' v s s',
        k <> k' -> setattr k v s = inr s' -> getattr s' k' = getattr s k').

(** Setting then snapshotting. When the settings bind the parameter [x] to
    [v]: if the assignment of [v] to [x] stores [v'] and [update_setting]
    does not raise, the snapshot has [v'] at [x]; if the assignment raises,
    [update_setting] raises and the snapshot has at [x] what it had before
    the call. *)
Definition settings_round_trip : Prop :=
  forall (self : S) (rule_setting : gmap string V) (x : string) (v : V),
    x ∈ names -> rule_setting !! x = Some v ->
    let after := update_setting rule_setting self in
    let entry := fun self => dict_get x (snapshot self) in
    (forall v', stored x v = inr v' -> after.2 = None -> entry after.1 = Some v')
    /\ (forall e, stored x v = inl e ->
                  after.2 <> None /\ entry after.1 = entry self).

End SettingsStatements.

(** The rule declares none of the template's own fields as a parameter or
    as a variable. *)
Definition declares_no_template_field {V} (self : RuleTemplate.rule V) : Prop :=
  forall k,
    k ∈ dict_keys (RuleTemplate.parameters self)
        ++ dict_keys (RuleTemplate.variables self) ->
    k ∉ RuleTemplate.reserved.

(** [OrderValidityRule], whose wrapper class declares a [name] and nothing
    else, as the template's constructor reads it. *)
Definition order_validity_class : RuleTemplate.rule_class PyVal :=
  RuleTemplate.mkRuleClass "OrderValidityRule" (Some "Order Validity Check")
    None None (fun self => self).


(** ** Runs of calls, and what they are measured against *)

(** The requests of a list whose fingerprint is [k]. *)
Definition requests_with (float_str : Q -> string) (k : string)
    (reqs : list OrderRequest) : nat :=
  length (filter (fun req => DuplicateOrderRule.format_req float_str req = k) reqs).

(** The identifiers whose last event in a run is an active order. *)
Definition active_ids (orders : list OrderData) : gset string :=
  list_to_set
    (filter (fun i => is_Some (ActiveOrderRule.active_after i orders))
            (order_vt_orderid <$> orders)).

(** The sum of the counts of a per-symbol dictionary. *)
Definition sum_counts (d : gmap string Z) : Z :=
  map_fold (fun _ count total => count + total) 0 d.

(** The order events and the trade events among the calls of a run, in the
    order of the run. *)
Definition order_events (cs : list DailyLimitRule.call) : list OrderData :=
  omap (fun c => match c with DailyLimitRule.OnOrder order => Some order | _ => None end) cs.

Definition trade_events (cs : list DailyLimitRule.call) : list TradeData :=
  omap (fun c => match c with DailyLimitRule.OnTrade trade => Some trade | _ => None end) cs.

Definition is_update_setting (c : DailyLimitRule.call) : bool :=
  match c with
  | DailyLimitRule.UpdateSetting _ => true
  | _ => false
  end.

(** The identifiers a run of order events counts as cancelled: those with a
    CANCELLED event that is not the first event of the identifier. *)
Definition cancelled_after_seen (i : string) (orders : list OrderData) : Prop :=
  exists before order after,
    orders = before ++ order :: after
    /\ order_vt_orderid order = i
    /\ order_status order = CANCELLED
    /\ i ∈ order_vt_orderid <$> before.

(** Each total is the sum of the counts of its per-symbol dictionary. *)
Definition totals_are_sums (self : DailyLimitRule.state) : Prop :=
  DailyLimitRule.total_order_count self
  = sum_counts (DailyLimitRule.contract_order_count self)
  /\ DailyLimitRule.total_cancel_count self
     = sum_counts (DailyLimitRule.contract_cancel_count self)
  /\ DailyLimitRule.total_trade_count self
     = sum_counts (DailyLimitRule.contract_trade_count self).

(** No counter of [self'] is below the counter of [self], and no identifier
    that [self] has recorded is missing from [self']. *)
Definition counts_grown (self self' : DailyLimitRule.state) : Prop :=
  DailyLimitRule.total_order_count self <= DailyLimitRule.total_order_count self'
  /\ DailyLimitRule.total_cancel_count self <= DailyLimitRule.total_cancel_count self'
  /\ DailyLimitRule.total_trade_count self <= DailyLimitRule.total_trade_count self'
  /\ (forall k, count_of k (DailyLimitRule.contract_order_count self)
                <= count_of k (DailyLimitRule.contract_order_count self'))
  /\ (forall k, count_of k (DailyLimitRule.contract_cancel_count self)
                <= count_of k (DailyLimitRule.contract_cancel_count self'))
  /\ (forall k, count_of k (DailyLimitRule.contract_trade_count self)
                <= count_of k (DailyLimitRule.contract_trade_count self'))
  /\ DailyLimitRule.all_orderids self ⊆ DailyLimitRule.all_orderids self'
  /\ DailyLimitRule.cancel_orderids self ⊆ DailyLimitRule.cancel_orderids self'
  /\ DailyLimitRule.all_tradeids self ⊆ DailyLimitRule.all_tradeids self'.

(** The six limits of two states are the same. *)
Definition same_limits (self self' : DailyLimitRule.state) : Prop :=
  DailyLimitRule.total_order_limit self' = DailyLimitRule.total_order_limit self
  /\ DailyLimitRule.total_cancel_limit self' = DailyLimitRule.total_cancel_limit self
  /\ DailyLimitRule.total_trade_limit self' = DailyLimitRule.total_trade_limit self
  /\ DailyLimitRule.contract_order_limit self' = DailyLimitRule.contract_order_limit self
  /\ DailyLimitRule.contract_cancel_limit self' = DailyLimitRule.contract_cancel_limit self
  /\ DailyLimitRule.contract_trade_limit self' = DailyLimitRule.contract_trade_limit self.

(** The first event of a run that carries the identifier [i], and the
    identifiers whose first event names the symbol [k]. *)
Definition first_event {A} (key : A -> string) (i : string) (events : list A)
    : option A :=
  head (filter (fun event => key event = i) events).

Definition first_with_symbol {A} (key symbol : A -> string) (k : string)
    (events : list A) : gset string :=
  list_to_set
    (filter (fun i => (symbol <$> first_event key i events) = Some k) (key <$> events)).

(** * Properties *)

(** ** Numbers *)

Lemma Qgtb_true (x y : Q) : Qgtb x y = true <-> (y < x)%Q.
Proof.
  unfold Qgtb. rewrite negb_true_iff, <- not_true_iff_false, Qle_bool_iff.
  split; [apply Qnot_le_lt | apply Qlt_not_le].
Qed.

Lemma Qgtb_false (x y : Q) : Qgtb x y = false <-> (x <= y)%Q.
Proof. unfold Qgtb. rewrite negb_false_iff. apply Qle_bool_iff. Qed.

Lemma float_truth_true (x : Q) : float_truth x = true <-> ~ (x == 0)%Q.
Proof.
  unfold float_truth.
  rewrite negb_true_iff, <- not_true_iff_false, Qeq_bool_iff. reflexivity.
Qed.

Lemma float_truth_false (x : Q) : float_truth x = false <-> (x == 0)%Q.
Proof. unfold float_truth. rewrite negb_false_iff. apply Qeq_bool_iff. Qed.


(** ** The monad *)

Lemma bind_state {S A B} (m : M S A) (f : A -> M S B) (s : S) :
  state_of (bind m f s) = state_of (f (result (m s)) (state_of (m s))).
Proof.
  unfold bind, state_of, result.
  destruct (m s) as [[a s1] c1]. cbn. by destruct (f a s1) as [[b s2] c2].
Qed.

Lemma bind_calls {S A B} (m : M S A) (f : A -> M S B) (s : S) :
  calls (bind m f s) = calls (m s) ++ calls (f (result (m s)) (state_of (m s))).
Proof.
  unfold bind, state_of, result, calls.
  destruct (m s) as [[a s1] c1]. cbn. by destruct (f a s1) as [[b s2] c2].
Qed.

(** ** Doubles *)






(** A positive double is not negative. *)
Lemma gtb_zero_not_ltb (x : Double.t) :
  Double.gtb x Double.zero = true -> Double.ltb x Double.zero = false.
Proof. by destruct x as [[] | [] | | [] ? ?]. Qed.

Lemma gtb_zero_sign (x : Double.t) :
  Double.gtb x Double.zero = true -> Double.sign x = false.
Proof. by destruct x as [[] | [] | | [] ? ?]. Qed.

(** The literal of the tolerance is the double next to 1/1000000. *)
Lemma tolerance_literal : Double.tolerance = Double.of_ratio 1 1000000.
Proof. vm_compute. reflexivity. Qed.

(** The numbers of the examples are doubles proper. *)
Lemma example_doubles_valid :
  Forall (fun x => Double.valid x = true)
    [Double.tolerance; Double.of_Z 1; Double.of_Z 100; Double.of_Z 4000;
     Double.of_ratio 1 2; Double.of_ratio 103 10; Double.of_ratio 105 10;
     Double.of_ratio 1 10; Double.of_ratio 3 10; Double.of_ratio 16001 4;
     Double.of_ratio (-1) 1000000; Double.of_ratio 999999 1000000].
Proof. repeat constructor. Qed.

(** ** Properties of OrderValidityRule *)

Section OrderValidityProperties.
Import OrderValidityRule.
Variable get_contract : string -> option Double.ContractData.
Context {S : Type}.




Lemma above_max_iff (volume : Double.t) (max_volume : option Double.t) :
  Double.opt_truth max_volume
  && Double.gtb volume (default Double.zero max_volume) = true
  <-> exists m, max_volume = Some m /\ Double.truth m = true
                /\ Double.gtb volume m = true.
Proof.
  rewrite andb_true_iff.
  destruct max_volume as [m|]; cbn.
  - split.
    + intros [H1 H2]. by exists m.
    + intros (m' & [= <-] & H1 & H2). done.
  - split; [intros [[=] _] | intros (m & [=] & _)].
Qed.





(** A price that is NaN or infinite has a remainder that is NaN. *)
Lemma rem_not_finite (price pricetick : Double.t) :
  Double.gtb pricetick Double.zero = true ->
  Double.is_finite price = false ->
  Double.rem price pricetick = Double.nan.
Proof.
  intros Hpos Hprice. unfold Double.rem.
  assert (Double.fmod price pricetick = Double.nan) as ->.
  { destruct price as [? | ? | | ? ? ?]; try done; by destruct pricetick. }
  cbn. by rewrite (gtb_zero_not_ltb _ Hpos).
Qed.
End OrderValidityProperties.



(** The spec's examples: tick size 0.5, price 10.3 is denied, price 10.5 is
    allowed (volume 1 within the bounds 1 and 100). *)
Example order_validity_off_tick :
  OrderValidityRule.check_allowed example_tick_contracts
    (example_tick_req (Double.of_Z 1) (Double.of_ratio 103 10)) "CTP" tt
  = (false, tt,
     [WriteLog (PriceNotMultiple (Double.of_ratio 103 10) (Double.of_ratio 1 2)
                  (example_tick_req (Double.of_Z 1) (Double.of_ratio 103 10)))]).
Proof. vm_compute. reflexivity. Qed.

Example order_validity_on_tick :
  OrderValidityRule.check_allowed example_tick_contracts
    (example_tick_req (Double.of_Z 1) (Double.of_ratio 105 10)) "CTP" tt
  = (true, tt, []).
Proof. vm_compute. reflexivity. Qed.

(** The remainder of Python, not that of the reals: the price -1e-6 at tick
    size 1 has the remainder 0.999999, whose distance from the tick size is
    computed as 1.0000000000287557e-06, above the tolerance. *)
Example order_validity_rounded_remainder :
  Double.rem (Double.of_ratio (-1) 1000000) (Double.of_Z 1)
  = Double.of_ratio 999999 1000000
  /\ result (OrderValidityRule.check_allowed
               (fun _ => Some (Double.mkContractData "rb2410.SHFE" (Double.of_Z 1)
                                 (Double.of_Z 1) None (Double.of_Z 10)))
               (example_tick_req (Double.of_Z 1) (Double.of_ratio (-1) 1000000))
               "CTP" tt)
     = false.
Proof. vm_compute. split; reflexivity. Qed.

(** ** Properties of OrderSizeRule *)

(** C6. For a request with zero price, and likewise for a symbol without
    contract, [OrderSizeRule.check_allowed] skips the value check: it denies
    exactly when the request volume exceeds [order_volume_limit], whatever
    the notional value would be, and it leaves the rule's state alone. *)
Theorem order_size_market_order
    (get_contract : string -> option ContractData)
    (self : OrderSizeRule.state) (req : OrderRequest) (gateway_name : string) :
  (req_price req == 0)%Q \/ get_contract (req_vt_symbol req) = None ->
  (result (OrderSizeRule.check_allowed get_contract req gateway_name self) = false
   <-> (inject_Z (OrderSizeRule.order_volume_limit self) < req_volume req)%Q)
  /\ state_of (OrderSizeRule.check_allowed get_contract req gateway_name self) = self.
Proof.
  intros Hskip. unfold OrderSizeRule.check_allowed. cbn.
  pose proof (Qgtb_true (req_volume req)
                (inject_Z (OrderSizeRule.order_volume_limit self))) as Hvol.
  destruct (Qgtb (req_volume req) _); cbn.
  - split; [| done]. split; [intros _; by apply Hvol | done].
  - assert (Hno : ~ (inject_Z (OrderSizeRule.order_volume_limit self)
                     < req_volume req)%Q)
      by (intros H; apply Hvol in H; discriminate).
    destruct (get_contract (req_vt_symbol req)) as [contract|] eqn:Hc; cbn.
    + destruct Hskip as [Hzero | [=]].
      apply float_truth_false in Hzero. rewrite Hzero. cbn. by split.
    + by split.
Qed.

Lemma order_size_market_order_witness :
  (result (OrderSizeRule.check_allowed example_contracts
             (example_req 501 0) "CTP" OrderSizeRule.on_init) = false
   <-> (inject_Z (OrderSizeRule.order_volume_limit OrderSizeRule.on_init) < 501)%Q)
  /\ state_of (OrderSizeRule.check_allowed example_contracts
                 (example_req 501 0) "CTP" OrderSizeRule.on_init)
     = OrderSizeRule.on_init.
Proof.
  apply (order_size_market_order example_contracts OrderSizeRule.on_init
           (example_req 501 0) "CTP").
  left. reflexivity.
Defined.

(** A market order above the volume limit is denied; one at the limit is
    allowed although 500 lots of a contract of size 10 would be worth far
    more than the value limit at any real price; the same volume as a limit
    order at price 4000 is denied by the value check. *)
Example order_size_market_denied :
  OrderSizeRule.check_allowed example_contracts (example_req 501 0) "CTP"
    OrderSizeRule.on_init
  = (false, OrderSizeRule.on_init,
     [WriteLog (OrderVolumeExceeded 501 500 (example_req 501 0))]).
Proof. vm_compute. reflexivity. Qed.

Example order_size_market_allowed :
  OrderSizeRule.check_allowed example_contracts (example_req 500 0) "CTP"
    OrderSizeRule.on_init
  = (true, OrderSizeRule.on_init, []).
Proof. vm_compute. reflexivity. Qed.

Example order_size_limit_denied :
  result (OrderSizeRule.check_allowed example_contracts (example_req 500 4000) "CTP"
            OrderSizeRule.on_init) = false.
Proof. vm_compute. reflexivity. Qed.

(** ** Properties of DuplicateOrderRule *)

Section DuplicateOrderProperties.
Import DuplicateOrderRule.
Variable float_str : Q -> string.

Lemma defaultdict_incr_insert (k : string) (d : gmap string Z) :
  defaultdict_incr k d = <[k := count_of k d + 1]> d.
Proof.
  unfold defaultdict_incr, defaultdict_getitem, count_of.
  destruct (d !! k) as [v|]; cbn; [done |].
  apply insert_insert_eq.
Qed.

Lemma count_of_insert (k : string) (v : Z) (d : gmap string Z) :
  count_of k (<[k := v]> d) = v.
Proof. unfold count_of. by rewrite lookup_insert_eq. Qed.

Lemma count_of_insert_ne (k k' : string) (v : Z) (d : gmap string Z) :
  k <> k' -> count_of k' (<[k := v]> d) = count_of k' d.
Proof. intros H. unfold count_of. by rewrite lookup_insert_ne. Qed.

Lemma defaultdict_getitem_present (k : string) (v : Z) (d : gmap string Z) :
  d !! k = Some v -> defaultdict_getitem k d = (v, d).
Proof. intros H. unfold defaultdict_getitem. by rewrite H. Qed.

(** One call, in closed form. *)
Lemma check_allowed_unfold (req : OrderRequest) (gateway_name : string) (self : state) :
  let count := count_of (format_req float_str req) (duplicate_order_count self) + 1 in
  check_allowed float_str req gateway_name self
  = (negb (count >=? duplicate_order_limit self),
     mkState (duplicate_order_limit self)
             (<[format_req float_str req := count]> (duplicate_order_count self)),
     PutRuleEvent ::
       if count >=? duplicate_order_limit self
       then [WriteLog (DuplicateCountReached count (duplicate_order_limit self) req)]
       else []).
Proof.
  unfold check_allowed, bind, modify, put_event, get,
    getitem_duplicate_order_count, set_duplicate_order_count.
  cbn. rewrite defaultdict_incr_insert.
  rewrite (defaultdict_getitem_present _ _ _ (lookup_insert_eq _ _ _)).
  cbn. by destruct (_ >=? _).
Qed.

(** [n] calls with one request, from a state that has counted it [c]
    times: call number [k] (from 0) is allowed iff [c + k + 1] is below the
    limit. *)
Lemma check_all_replicate (req : OrderRequest) (gateway_name : string) (n : nat) :
  forall self,
    result (check_all float_str (replicate n req) gateway_name self)
    = (fun k : nat =>
         negb (count_of (format_req float_str req) (duplicate_order_count self)
               + Z.of_nat k + 1 >=? duplicate_order_limit self))
      <$> seq 0 n.
Proof.
  induction n as [|n IH]; intros self; [done |].
  cbn [replicate check_all]. unfold bind at 1.
  pose proof (check_allowed_unfold req gateway_name self) as Hone.
  cbn zeta in Hone. rewrite Hone. clear Hone.
  unfold bind at 1.
  specialize (IH (mkState (duplicate_order_limit self)
    (<[format_req float_str req :=
         count_of (format_req float_str req) (duplicate_order_count self) + 1]>
       (duplicate_order_count self)))).
  unfold result in IH.
  destruct (check_all _ _ _ _) as [[rest self'] calls']. cbn in IH. subst rest.
  cbn. f_equal.
  - by rewrite Z.add_0_r.
  - rewrite <- fmap_S_seq, <- list_fmap_compose. apply list_fmap_ext.
    intros i k _. cbn. rewrite count_of_insert. do 2 f_equal. lia.
Qed.
End DuplicateOrderProperties.

(** C2. Each call of [DuplicateOrderRule.check_allowed] adds one to the
    counter of the request's fingerprint, whatever happens to the request
    afterwards, notifies the engine, and denies exactly when the counter so
    reached is at least [duplicate_order_limit]. From the initial state, with
    the limit at 10, [n] calls with one request are answered true for the
    first 9 and false from the 10th on. *)
Theorem duplicate_order_throttle
    (float_str : Q -> string) (req : OrderRequest) (gateway_name : string) :
  (forall self : DuplicateOrderRule.state,
     let after := DuplicateOrderRule.check_allowed float_str req gateway_name self in
     let fingerprint := DuplicateOrderRule.format_req float_str req in
     count_of fingerprint (DuplicateOrderRule.duplicate_order_count (state_of after))
     = count_of fingerprint (DuplicateOrderRule.duplicate_order_count self) + 1
     /\ (result after = false
         <-> count_of fingerprint
               (DuplicateOrderRule.duplicate_order_count (state_of after))
             >= DuplicateOrderRule.duplicate_order_limit self)
     /\ DuplicateOrderRule.duplicate_order_limit (state_of after)
        = DuplicateOrderRule.duplicate_order_limit self
     /\ head (calls after) = Some PutRuleEvent)
  /\ DuplicateOrderRule.duplicate_order_limit DuplicateOrderRule.on_init = 10
  /\ (forall n : nat,
        result (DuplicateOrderRule.check_all float_str (replicate n req) gateway_name
                  DuplicateOrderRule.on_init)
        = (fun k : nat => bool_decide (k < 9)%nat) <$> seq 0 n).
Proof.
  split; [| split; [done |]].
  - intros self. cbn zeta. rewrite check_allowed_unfold. cbn.
    rewrite !count_of_insert.
    repeat split; try done; rewrite negb_false_iff, Z.geb_le; lia.
  - intros n. rewrite check_all_replicate. apply list_fmap_ext.
    intros i k _. cbn. unfold count_of. rewrite lookup_empty. cbn.
    case_bool_decide as Hk.
    + apply negb_true_iff. rewrite <- not_true_iff_false, Z.geb_le. lia.
    + apply negb_false_iff. rewrite Z.geb_le. lia.
Qed.

(** Ten identical requests, none of them ever submitted: the tenth is
    denied. *)
Example duplicate_order_ten_calls :
  result (DuplicateOrderRule.check_all fraction_str
            (replicate 10 (example_req 1 4000)) "CTP" DuplicateOrderRule.on_init)
  = [true; true; true; true; true; true; true; true; true; false].
Proof. vm_compute. reflexivity. Qed.

(** ** The fingerprint of a request *)

Section Fingerprint.
Import DuplicateOrderRule.

Lemma string_app_nil (b : string) : "" +:+ b = b.
Proof. reflexivity. Qed.

Lemma string_app_cons (x : ascii) (a b : string) :
  String x a +:+ b = String x (a +:+ b).
Proof. reflexivity. Qed.

Lemma string_app_assoc (a b c : string) : (a +:+ b) +:+ c = a +:+ (b +:+ c).
Proof.
  induction a as [|x a IH]; rewrite ?string_app_nil, ?string_app_cons;
    [done | by f_equal].
Qed.

Lemma has_char_app (c : ascii) (a b : string) :
  has_char c (a +:+ String c b) = true.
Proof.
  induction a as [|x a IH]; rewrite ?string_app_nil, ?string_app_cons; simpl.
  - by rewrite Ascii.eqb_refl.
  - rewrite IH. by destruct (Ascii.eqb c x).
Qed.

(** A string splits in one way at the last occurrence of a character. *)
Lemma split_at_last (c : ascii) (a1 a2 b1 b2 : string) :
  has_char c b1 = false -> has_char c b2 = false ->
  a1 +:+ String c b1 = a2 +:+ String c b2 ->
  a1 = a2 /\ b1 = b2.
Proof.
  intros Hb1 Hb2. revert a2.
  induction a1 as [|x a1 IH]; intros [|y a2];
    rewrite ?string_app_nil, ?string_app_cons; intros Heq.
  - by injection Heq.
  - injection Heq as -> ->. by rewrite has_char_app in Hb1.
  - injection Heq as -> <-. by rewrite has_char_app in Hb2.
  - injection Heq as -> Heq. destruct (IH _ Heq) as [-> ->]. done.
Qed.

Variable float_str : Q -> string.

(** The fingerprint, bracketed from the left. *)
Lemma format_req_left (req : OrderRequest) :
  format_req float_str req
  = ((((req_vt_symbol req +:+ String "|" (value (req_type req)))
         +:+ String "|" (value (req_direction req)))
        +:+ String "|" (value (req_offset req)))
       +:+ String "|" (float_str (req_volume req)))
      +:+ String "@" (float_str (req_price req)).
Proof. unfold format_req. rewrite !string_app_assoc. reflexivity. Qed.

Lemma Enum_eq (e1 e2 : Enum) : value e1 = value e2 -> e1 = e2.
Proof. destruct e1, e2. cbn. by intros ->. Qed.
End Fingerprint.

(** C7. Two requests whose printed fields keep clear of the separators have
    the same fingerprint exactly when their six fields agree: the symbol and
    the three enumeration members are equal, and volume and price print to the
    same strings. *)
Theorem format_req_equal_iff
    (float_str : Q -> string) (req1 req2 : OrderRequest) :
  separable float_str req1 -> separable float_str req2 ->
  DuplicateOrderRule.format_req float_str req1
  = DuplicateOrderRule.format_req float_str req2
  <-> req_vt_symbol req1 = req_vt_symbol req2
      /\ req_type req1 = req_type req2
      /\ req_direction req1 = req_direction req2
      /\ req_offset req1 = req_offset req2
      /\ float_str (req_volume req1) = float_str (req_volume req2)
      /\ float_str (req_price req1) = float_str (req_price req2).
Proof.
  intros (Ht1 & Hd1 & Ho1 & Hv1 & Hp1) (Ht2 & Hd2 & Ho2 & Hv2 & Hp2). split.
  - rewrite !format_req_left. intros H.
    apply split_at_last in H as [H Hp]; [| done..].
    apply split_at_last in H as [H Hv]; [| done..].
    apply split_at_last in H as [H Ho]; [| done..].
    apply split_at_last in H as [H Hd]; [| done..].
    apply split_at_last in H as [Hs Ht]; [| done..].
    repeat split; auto using Enum_eq.
  - intros (Hs & Ht & Hd & Ho & Hv & Hp).
    unfold DuplicateOrderRule.format_req. congruence.
Qed.

Lemma format_req_equal_iff_witness :
  DuplicateOrderRule.format_req fraction_str (example_req 1 4000)
  = DuplicateOrderRule.format_req fraction_str (example_req 1 (8000 # 2))
  <-> req_vt_symbol (example_req 1 4000) = req_vt_symbol (example_req 1 (8000 # 2))
      /\ req_type (example_req 1 4000) = req_type (example_req 1 (8000 # 2))
      /\ req_direction (example_req 1 4000) = req_direction (example_req 1 (8000 # 2))
      /\ req_offset (example_req 1 4000) = req_offset (example_req 1 (8000 # 2))
      /\ fraction_str (req_volume (example_req 1 4000))
         = fraction_str (req_volume (example_req 1 (8000 # 2)))
      /\ fraction_str (req_price (example_req 1 4000))
         = fraction_str (req_price (example_req 1 (8000 # 2))).
Proof.
  apply (format_req_equal_iff fraction_str (example_req 1 4000)
           (example_req 1 (8000 # 2)));
    repeat split; vm_compute; reflexivity.
Defined.

(** The fingerprint of a request, and two requests of equal price that a
    printer tells apart: the rule counts them separately. *)
Example format_req_example :
  DuplicateOrderRule.format_req fraction_str (example_req 1 4000)
  = "rb2410.SHFE|LIMIT|LONG|OPEN|1/1@4000/1".
Proof. vm_compute. reflexivity. Qed.

Example format_req_by_serialization :
  (req_price (example_req 1 4000) == req_price (example_req 1 (8000 # 2)))%Q
  /\ DuplicateOrderRule.format_req fraction_str (example_req 1 4000)
     <> DuplicateOrderRule.format_req fraction_str (example_req 1 (8000 # 2)).
Proof. split; [reflexivity | vm_compute; discriminate]. Qed.

(** ** Properties of RuleTemplate *)

Section DictProperties.
Context {A : Type}.

Lemma dict_get_set (k : string) (v : A) (d : dict A) :
  dict_get k (dict_set k v d) = Some v.
Proof.
  induction d as [|[k' v'] d IH]; cbn.
  - by rewrite String.eqb_refl.
  - destruct (String.eqb k k') eqn:Hk; cbn; rewrite Hk; [done | exact IH].
Qed.

Lemma dict_get_set_ne (k k' : string) (v : A) (d : dict A) :
  k <> k' -> dict_get k' (dict_set k v d) = dict_get k' d.
Proof.
  intros Hne. induction d as [|[k0 v0] d IH]; cbn.
  - by apply String.eqb_neq in Hne; rewrite String.eqb_sym, Hne.
  - destruct (String.eqb k k0) eqn:Hk; cbn; [| by rewrite IH].
    apply String.eqb_eq in Hk as <-.
    by apply String.eqb_neq in Hne; rewrite String.eqb_sym, Hne.
Qed.
End DictProperties.

Section ReflectionProperties.
Import RuleTemplate.
Context {S V : Type}.
Variable setattr : string -> V -> S -> exn + S.
Variable getattr : S -> string -> option V.
Variable py_None : V.

(** The loop of [get_data] over an accumulator: a name of the list reads the
    attribute, any other name keeps what the accumulator has. *)
Lemma collect_from (self : S) (names : list string) (acc : dict V) (x : string) :
  dict_get x
    (fold_left
       (fun data attr => dict_set attr (default py_None (getattr self attr)) data)
       names acc)
  = if decide (x ∈ names) then Some (default py_None (getattr self x))
    else dict_get x acc.
Proof.
  revert acc. induction names as [|n names IH]; intros acc; cbn.
  - rewrite decide_False; [done | apply not_elem_of_nil].
  - rewrite IH. destruct (decide (x ∈ names)) as [Hin | Hout].
    + rewrite decide_True; [done | by right].
    + destruct (decide (n = x)) as [-> | Hne].
      * rewrite decide_True by left. apply dict_get_set.
      * rewrite decide_False by (intros [? | ?]%elem_of_cons; congruence).
        by apply dict_get_set_ne.
Qed.

Lemma collect_lookup (self : S) (names : list string) (x : string) :
  x ∈ names ->
  dict_get x (collect getattr py_None self names)
  = Some (default py_None (getattr self x)).
Proof. intros Hin. unfold collect. rewrite collect_from. by rewrite decide_True. Qed.

(** The snapshot of an attribute depends on the attribute alone. *)
Lemma collect_lookup_ext (self self' : S) (names : list string) (x : string) :
  getattr self' x = getattr self x ->
  dict_get x (collect getattr py_None self' names)
  = dict_get x (collect getattr py_None self names).
Proof. intros Hx. unfold collect. by rewrite !collect_from, Hx. Qed.

Variable rule_setting : gmap string V.


(** What every assignment of the loop keeps, the loop keeps. *)
Lemma update_setting_loop_keeps (R : S -> S -> Prop) (names : list string) :
  (forall s, R s s) ->
  (forall s1 s2 s3, R s1 s2 -> R s2 s3 -> R s1 s3) ->
  (forall attr value s s',
     attr ∈ names -> rule_setting !! attr = Some value ->
     setattr attr value s = inr s' -> R s s') ->
  forall self, R self (update_setting_loop setattr names rule_setting self).1.
Proof.
  intros Hrefl Htrans. induction names as [|n names IH]; intros Hset self; cbn;
    [apply Hrefl |].
  assert (forall self, R self (update_setting_loop setattr names rule_setting self).1)
    as IH' by (apply IH; intros attr value s s' Hin; apply Hset; by right).
  destruct (rule_setting !! n) as [v|] eqn:Hn; [| apply IH'].
  destruct (setattr n v self) as [e | self'] eqn:Hsetn; cbn; [apply Hrefl |].
  eapply Htrans; [| apply IH']. eapply Hset; [by left | done..].
Qed.

(** A property that the assignment of [x] establishes and the other
    assignments keep holds after a loop that reaches [x] and does not
    raise. *)
Lemma update_setting_loop_assigns (P : S -> Prop) (x : string) (v : V)
    (names : list string) :
  rule_setting !! x = Some v ->
  (forall s s', setattr x v s = inr s' -> P s') ->
  (forall attr value s s',
     attr <> x -> setattr attr value s = inr s' -> P s -> P s') ->
  x ∈ names ->
  forall self,
    (update_setting_loop setattr names rule_setting self).2 = None ->
    P (update_setting_loop setattr names rule_setting self).1.
Proof.
  intros Hx Hsets Hkeeps.
  assert (forall names self,
            P self -> P (update_setting_loop setattr names rule_setting self).1)
    as Hkept.
  { clear names. intros names. induction names as [|n names IH]; intros self HP; cbn;
      [done |].
    destruct (rule_setting !! n) as [w|] eqn:Hn; [| by apply IH].
    destruct (setattr n w self) as [e | self'] eqn:Hsetn; cbn; [done |].
    apply IH. destruct (decide (n = x)) as [-> | Hne].
    - eapply Hsets. by replace v with w by congruence.
    - by eapply Hkeeps. }
  induction names as [|n names IH]; intros Hin self Hdone; [by inversion Hin |].
  cbn in *. destruct (decide (n = x)) as [-> | Hne].
  - rewrite Hx in *. destruct (setattr x v self) as [e | self'] eqn:Hsetx;
      [done |]. apply Hkept. by eapply Hsets.
  - apply elem_of_cons in Hin as [-> | Hin]; [done |].
    destruct (rule_setting !! n) as [w|]; [| by apply IH].
    destruct (setattr n w self) as [e | self'] eqn:Hsetn; [done |]. by apply IH.
Qed.

(** When the assignment of [x] raises, a loop that has [x] among its names
    raises, and it keeps what the other assignments keep. *)
Lemma update_setting_loop_refused (P : S -> Prop) (x : string) (v : V)
    (names : list string) :
  rule_setting !! x = Some v ->
  (forall s, exists e, setattr x v s = inl e) ->
  (forall attr value s s',
     attr <> x -> setattr attr value s = inr s' -> P s -> P s') ->
  forall self,
    (x ∈ names -> (update_setting_loop setattr names rule_setting self).2 <> None)
    /\ (P self -> P (update_setting_loop setattr names rule_setting self).1).
Proof.
  intros Hx Hraises Hkeeps.
  induction names as [|n names IH]; intros self; cbn.
  - split; [by intros Hin; inversion Hin | done].
  - destruct (decide (n = x)) as [-> | Hne].
    + rewrite Hx. destruct (Hraises self) as [e ->]. by split.
    + destruct (rule_setting !! n) as [w|].
      * destruct (setattr n w self) as [e | self'] eqn:Hsetn; [by split |].
        destruct (IH self') as [IH1 IH2]. split.
        -- intros [-> | Hin]%elem_of_cons; [done | by apply IH1].
        -- intros HP. apply IH2. by eapply Hkeeps.
      * destruct (IH self) as [IH1 IH2]. split; [| done].
        intros [-> | Hin]%elem_of_cons; [done | by apply IH1].
Qed.
End ReflectionProperties.

Section RaisesIff.
Import RuleTemplate.
Context {S V : Type}.
Variable setattr : string -> V -> S -> exn + S.
Variable accepted : string -> V -> Prop.

(** When the state has no say in whether an assignment raises, the loop of
    [update_setting] raises exactly when the settings bind one of its names
    to a value that is not accepted. *)
Lemma update_setting_loop_raises_iff
    (names : list string) (rule_setting : gmap string V) :
  (forall x v s, x ∈ names ->
                 ((exists s', setattr x v s = inr s') <-> accepted x v)) ->
  forall self,
    (update_setting_loop setattr names rule_setting self).2 = None
    <-> forall x v, x ∈ names -> rule_setting !! x = Some v -> accepted x v.
Proof.
  induction names as [|n names IH]; intros Haccepted self; cbn.
  - split; [| done]. intros _ x v Hin. by apply elem_of_nil in Hin.
  - assert (forall x v s, x ∈ names ->
                          ((exists s', setattr x v s = inr s') <-> accepted x v))
      as Htail by (intros x v s Hin; apply Haccepted; by right).
    specialize (IH Htail).
    destruct (rule_setting !! n) as [w|] eqn:Hn.
    + destruct (setattr n w self) as [e | self'] eqn:Hset.
      * split; [done |]. intros Hall.
        destruct (proj2 (Haccepted n w self ltac:(left))) as [s' Hs']; [| congruence].
        apply Hall; [left | done].
      * rewrite IH. split.
        -- intros Hall x v [-> | Hin]%elem_of_cons Hx; [| by apply Hall].
           replace v with w by congruence.
           apply (Haccepted n w self); [left | by exists self'].
        -- intros Hall x v Hin. apply Hall. by right.
    + rewrite IH. split.
      * intros Hall x v [-> | Hin]%elem_of_cons Hx; [congruence | by apply Hall].
      * intros Hall x v Hin. apply Hall. by right.
Qed.
End RaisesIff.

(** ** From the laws of assignment to the statements on settings *)

Section AssignmentLaws.
Import RuleTemplate.
Context {S V : Type}.
Variable setattr : string -> V -> S -> exn + S.
Variable getattr : S -> string -> option V.
Variable py_None : V.
Variable names : list string.
Variable stored : string -> V -> exn + V.
Hypothesis Hlaws : assignment_laws setattr getattr names stored.

Lemma setattr_stores (k : string) (v v' : V) (s s' : S) :
  k ∈ names -> stored k v = inr v' -> setattr k v s = inr s' ->
  getattr s' k = Some v'.
Proof.
  intros Hk Hv Hset. destruct Hlaws as [Hstore _].
  specialize (Hstore k v s Hk). rewrite Hv in Hstore.
  destruct Hstore as (s'' & Hset' & Hget). congruence.
Qed.

Lemma setattr_raises (k : string) (v : V) (e : exn) (s : S) :
  k ∈ names -> stored k v = inl e -> setattr k v s = inl e.
Proof.
  intros Hk Hv. destruct Hlaws as [Hstore _].
  specialize (Hstore k v s Hk). by rewrite Hv in Hstore.
Qed.


Lemma settings_round_trip_of_laws :
  settings_round_trip
    (update_setting_loop setattr names)
    (fun self => collect getattr py_None self names) names stored.
Proof.
  intros self rule_setting x v Hx Hv. cbn zeta.
  destruct Hlaws as [_ Hframe]. split.
  - intros v' Hstored Hdone. rewrite collect_lookup by done.
    rewrite (update_setting_loop_assigns setattr rule_setting
               (fun s => getattr s x = Some v') x v); try done.
    + intros s s' Hset. by eapply setattr_stores.
    + intros attr value s s' Hne Hset <-. by eapply Hframe.
  - intros e Hstored.
    destruct (update_setting_loop_refused setattr rule_setting
                (fun s => getattr s x = getattr self x) x v names Hv)
      with (self := self) as [Hraised Hkept].
    + intros s. exists e. by apply setattr_raises.
    + intros attr value s s' Hne Hset <-. by eapply Hframe.
    + split; [by apply Hraised |]. apply collect_lookup_ext. by apply Hkept.
Qed.

End AssignmentLaws.

(** ** Properties of DailyLimitRule *)

Section DailyLimitProperties.
Import DailyLimitRule.

(** [on_order] in closed form, branch by branch. *)
Lemma on_order_new (order : OrderData) (self : state) :
  order_vt_orderid order ∉ all_orderids self ->
  on_order order self
  = (tt,
     set_contract_order_count
       (defaultdict_incr (order_vt_symbol order) (contract_order_count self))
       (set_total_order_count (total_order_count self + 1)
          (set_all_orderids ({[order_vt_orderid order]} ∪ all_orderids self) self)),
     [PutRuleEvent]).
Proof.
  intros Hnew. unfold on_order, bind, get. cbn.
  rewrite bool_decide_eq_false_2 by done. reflexivity.
Qed.

Lemma on_order_cancel (order : OrderData) (self : state) :
  order_vt_orderid order ∈ all_orderids self ->
  order_status order = CANCELLED ->
  order_vt_orderid order ∉ cancel_orderids self ->
  on_order order self
  = (tt,
     set_contract_cancel_count
       (defaultdict_incr (order_vt_symbol order) (contract_cancel_count self))
       (set_total_cancel_count (total_cancel_count self + 1)
          (set_cancel_orderids ({[order_vt_orderid order]} ∪ cancel_orderids self) self)),
     [PutRuleEvent]).
Proof.
  intros Hseen Hstatus Hnew. unfold on_order, bind, get. cbn.
  rewrite bool_decide_eq_true_2 by done. cbn.
  rewrite bool_decide_eq_true_2 by done.
  rewrite bool_decide_eq_false_2 by done. reflexivity.
Qed.

Lemma on_order_ignored (order : OrderData) (self : state) :
  order_vt_orderid order ∈ all_orderids self ->
  order_status order <> CANCELLED \/ order_vt_orderid order ∈ cancel_orderids self ->
  on_order order self = (tt, self, []).
Proof.
  intros Hseen Hrest. unfold on_order, bind, get. cbn.
  rewrite bool_decide_eq_true_2 by done. cbn.
  destruct Hrest as [Hstatus | Hcancelled].
  - by rewrite bool_decide_eq_false_2 by done.
  - rewrite (bool_decide_eq_true_2 (_ ∈ cancel_orderids _)) by done.
    by rewrite andb_false_r.
Qed.

(** The three cases of an order event. *)
Lemma on_order_cases (order : OrderData) (self : state) :
  (order_vt_orderid order ∉ all_orderids self)
  \/ (order_vt_orderid order ∈ all_orderids self
      /\ order_status order = CANCELLED
      /\ order_vt_orderid order ∉ cancel_orderids self)
  \/ (order_vt_orderid order ∈ all_orderids self
      /\ (order_status order <> CANCELLED
          \/ order_vt_orderid order ∈ cancel_orderids self)).
Proof.
  destruct (decide (order_vt_orderid order ∈ all_orderids self)); [| by left].
  destruct (decide (order_status order = CANCELLED)); [| by right; right; auto].
  destruct (decide (order_vt_orderid order ∈ cancel_orderids self));
    [by right; right; auto | by right; left].
Qed.

Lemma on_trade_new (trade : TradeData) (self : state) :
  trade_vt_tradeid trade ∉ all_tradeids self ->
  on_trade trade self
  = (tt,
     set_contract_trade_count
       (defaultdict_incr (trade_vt_symbol trade) (contract_trade_count self))
       (set_total_trade_count (total_trade_count self + 1)
          (set_all_tradeids ({[trade_vt_tradeid trade]} ∪ all_tradeids self) self)),
     [PutRuleEvent]).
Proof.
  intros Hnew. unfold on_trade, bind, get. cbn.
  rewrite bool_decide_eq_false_2 by done. reflexivity.
Qed.

Lemma on_trade_seen (trade : TradeData) (self : state) :
  trade_vt_tradeid trade ∈ all_tradeids self ->
  on_trade trade self = (tt, self, []).
Proof.
  intros Hseen. unfold on_trade, bind, get. cbn.
  by rewrite bool_decide_eq_true_2 by done.
Qed.

(** Once an identifier is recorded, later events never count it again. *)
Lemma on_order_keeps_orderids (order : OrderData) (self : state) (i : string) :
  i ∈ all_orderids self -> i ∈ all_orderids (state_of (on_order order self)).
Proof.
  intros Hi. destruct (on_order_cases order self) as [H | [(H1 & H2 & H3) | (H1 & H2)]].
  - rewrite on_order_new by done. cbn. set_solver.
  - rewrite on_order_cancel by done. done.
  - rewrite on_order_ignored by done. done.
Qed.

Lemma on_order_keeps_cancelids (order : OrderData) (self : state) (i : string) :
  i ∈ cancel_orderids self -> i ∈ cancel_orderids (state_of (on_order order self)).
Proof.
  intros Hi. destruct (on_order_cases order self) as [H | [(H1 & H2 & H3) | (H1 & H2)]].
  - rewrite on_order_new by done. done.
  - rewrite on_order_cancel by done. cbn. set_solver.
  - rewrite on_order_ignored by done. done.
Qed.

Lemma increments_order_seen (field : state -> Z) (i : string) (orders : list OrderData) :
  order_counter field ->
  forall self, i ∈ all_orderids self -> increments field i orders self = 0%nat.
Proof.
  intros Hfield.
  induction orders as [|order orders IH]; intros self Hi; [done |].
  cbn [increments]. rewrite IH by by apply on_order_keeps_orderids.
  rewrite bool_decide_eq_false_2; [done |].
  intros [<- Hchange]. apply Hchange.
  destruct (on_order_cases order self) as [H | [(H1 & H2 & H3) | (H1 & H2)]].
  - done.
  - rewrite on_order_cancel by done. by apply Hfield.
  - by rewrite on_order_ignored by done.
Qed.

Lemma increments_cancel_seen (field : state -> Z) (i : string) (orders : list OrderData) :
  cancel_counter field ->
  forall self, i ∈ cancel_orderids self -> increments field i orders self = 0%nat.
Proof.
  intros Hfield.
  induction orders as [|order orders IH]; intros self Hi; [done |].
  cbn [increments]. rewrite IH by by apply on_order_keeps_cancelids.
  rewrite bool_decide_eq_false_2; [done |].
  intros [<- Hchange]. apply Hchange.
  destruct (on_order_cases order self) as [H | [(H1 & H2 & H3) | (H1 & H2)]].
  - rewrite on_order_new by done. by apply Hfield.
  - done.
  - by rewrite on_order_ignored by done.
Qed.

Lemma increments_order_once (field : state -> Z) (i : string) (orders : list OrderData) :
  order_counter field ->
  forall self, (increments field i orders self <= 1)%nat.
Proof.
  intros Hfield.
  induction orders as [|order orders IH]; intros self; [cbn; lia |].
  cbn [increments]. case_bool_decide as Hstep; [| apply IH].
  destruct Hstep as [<- Hchange].
  rewrite increments_order_seen; [lia | done |].
  destruct (on_order_cases order self) as [H | [(H1 & H2 & H3) | (H1 & H2)]].
  - rewrite on_order_new by done. cbn. set_solver.
  - by apply on_order_keeps_orderids.
  - by apply on_order_keeps_orderids.
Qed.

Lemma increments_cancel_once (field : state -> Z) (i : string) (orders : list OrderData) :
  cancel_counter field ->
  forall self, (increments field i orders self <= 1)%nat.
Proof.
  intros Hfield.
  induction orders as [|order orders IH]; intros self; [cbn; lia |].
  cbn [increments]. case_bool_decide as Hstep; [| apply IH].
  destruct Hstep as [<- Hchange].
  rewrite increments_cancel_seen; [lia | done |].
  destruct (on_order_cases order self) as [H | [(H1 & H2 & H3) | (H1 & H2)]].
  - exfalso. apply Hchange. rewrite on_order_new by done. by apply Hfield.
  - rewrite on_order_cancel by done. cbn. set_solver.
  - exfalso. apply Hchange. by rewrite on_order_ignored by done.
Qed.

Lemma total_order_count_counter : order_counter total_order_count.
Proof. by intros s s' H _. Qed.

Lemma contract_order_count_counter (vt_symbol : string) :
  order_counter (fun self => count_of vt_symbol (contract_order_count self)).
Proof. by intros s s' _ ->. Qed.

Lemma total_cancel_count_counter : cancel_counter total_cancel_count.
Proof. by intros s s' H _. Qed.

Lemma contract_cancel_count_counter (vt_symbol : string) :
  cancel_counter (fun self => count_of vt_symbol (contract_cancel_count self)).
Proof. by intros s s' _ ->. Qed.
End DailyLimitProperties.

(** C3. Order events are counted once per identifier. (1) The first event of
    an identifier adds one to [total_order_count] and to the order count of
    its symbol, and a second event of the same identifier leaves the order
    counts as they are. (2) An event of an identifier not seen before,
    CANCELLED or not, leaves the cancel counts and [cancel_orderids] as they
    are. (3) The cancel counts change only at a CANCELLED event of an
    identifier already in [all_orderids]. (4) Over any run of events from any
    state, an identifier is behind at most one change of an order counter and
    at most one change of a cancel counter. *)
Theorem daily_limit_counts_each_order_once :
  (forall (self : DailyLimitRule.state) (first second : OrderData),
     order_vt_orderid first = order_vt_orderid second ->
     order_vt_orderid first ∉ DailyLimitRule.all_orderids self ->
     let s1 := state_of (DailyLimitRule.on_order first self) in
     let s2 := state_of (DailyLimitRule.on_order second s1) in
     DailyLimitRule.total_order_count s1 = DailyLimitRule.total_order_count self + 1
     /\ count_of (order_vt_symbol first) (DailyLimitRule.contract_order_count s1)
        = count_of (order_vt_symbol first) (DailyLimitRule.contract_order_count self) + 1
     /\ DailyLimitRule.total_order_count s2 = DailyLimitRule.total_order_count s1
     /\ DailyLimitRule.contract_order_count s2 = DailyLimitRule.contract_order_count s1)
  /\ (forall (self : DailyLimitRule.state) (order : OrderData),
        order_vt_orderid order ∉ DailyLimitRule.all_orderids self ->
        let s1 := state_of (DailyLimitRule.on_order order self) in
        DailyLimitRule.total_cancel_count s1 = DailyLimitRule.total_cancel_count self
        /\ DailyLimitRule.contract_cancel_count s1
           = DailyLimitRule.contract_cancel_count self
        /\ DailyLimitRule.cancel_orderids s1 = DailyLimitRule.cancel_orderids self)
  /\ (forall (self : DailyLimitRule.state) (order : OrderData),
        let s1 := state_of (DailyLimitRule.on_order order self) in
        DailyLimitRule.total_cancel_count s1 <> DailyLimitRule.total_cancel_count self
        \/ DailyLimitRule.contract_cancel_count s1
           <> DailyLimitRule.contract_cancel_count self ->
        order_vt_orderid order ∈ DailyLimitRule.all_orderids self
        /\ order_status order = CANCELLED)
  /\ (forall (field : DailyLimitRule.state -> Z) (self : DailyLimitRule.state)
             (orders : list OrderData) (vt_orderid : string),
        (DailyLimitRule.order_counter field ->
         (DailyLimitRule.increments field vt_orderid orders self <= 1)%nat)
        /\ (DailyLimitRule.cancel_counter field ->
            (DailyLimitRule.increments field vt_orderid orders self <= 1)%nat)).
Proof.
  split; [| split; [| split]].
  - intros self first second Hid Hnew. cbn zeta.
    rewrite (on_order_new first self Hnew). unfold state_of. cbn [fst snd].
    set (s1 := DailyLimitRule.set_contract_order_count _ _).
    assert (order_vt_orderid second ∈ DailyLimitRule.all_orderids s1) as Hseen
      by (subst s1; cbn; set_solver).
    split; [done |]. split.
    { subst s1. cbn. by rewrite defaultdict_incr_insert, count_of_insert. }
    destruct (on_order_cases second s1) as [H | [(H1 & H2 & H3) | (H1 & H2)]].
    + done.
    + by rewrite on_order_cancel by done.
    + by rewrite on_order_ignored by done.
  - intros self order Hnew. cbn zeta. by rewrite on_order_new by done.
  - intros self order. cbn zeta.
    destruct (on_order_cases order self) as [H | [(H1 & H2 & H3) | (H1 & H2)]].
    + rewrite on_order_new by done. cbn. by intros [? | ?].
    + done.
    + rewrite on_order_ignored by done. cbn. by intros [? | ?].
  - intros field self orders vt_orderid. split; intros Hfield.
    + by apply increments_order_once.
    + by apply increments_cancel_once.
Qed.

Lemma daily_limit_counts_each_order_once_witness :
  let s1 :=
    state_of (DailyLimitRule.on_order (example_order NOTTRADED) DailyLimitRule.on_init) in
  let s2 := state_of (DailyLimitRule.on_order (example_order CANCELLED) s1) in
  DailyLimitRule.total_order_count s1
  = DailyLimitRule.total_order_count DailyLimitRule.on_init + 1
  /\ count_of (order_vt_symbol (example_order NOTTRADED))
       (DailyLimitRule.contract_order_count s1)
     = count_of (order_vt_symbol (example_order NOTTRADED))
         (DailyLimitRule.contract_order_count DailyLimitRule.on_init) + 1
  /\ DailyLimitRule.total_order_count s2 = DailyLimitRule.total_order_count s1
  /\ DailyLimitRule.contract_order_count s2 = DailyLimitRule.contract_order_count s1.
Proof.
  apply (proj1 daily_limit_counts_each_order_once DailyLimitRule.on_init
           (example_order NOTTRADED) (example_order CANCELLED)).
  - reflexivity.
  - cbn. apply not_elem_of_empty.
Defined.

(** The spec's scenarios: the same new order delivered twice, a cancellation
    that is the first event of its identifier (counted as an order, not as a
    cancel), and an order that is cancelled twice. *)
Example daily_limit_duplicate_event :
  let order := example_order NOTTRADED in
  let self := state_of (DailyLimitRule.on_orders [order; order] DailyLimitRule.on_init) in
  DailyLimitRule.total_order_count self = 1
  /\ DailyLimitRule.contract_order_count self = {["rb2410.SHFE" := 1]}.
Proof. vm_compute. done. Qed.

Example daily_limit_cancel_first :
  let order := example_order CANCELLED in
  let self := state_of (DailyLimitRule.on_orders [order] DailyLimitRule.on_init) in
  DailyLimitRule.total_order_count self = 1
  /\ DailyLimitRule.total_cancel_count self = 0
  /\ DailyLimitRule.cancel_orderids self = ∅.
Proof. vm_compute. done. Qed.

Example daily_limit_cancel_twice :
  let order := example_order NOTTRADED in
  let cancel := example_order CANCELLED in
  let self :=
    state_of (DailyLimitRule.on_orders [order; cancel; cancel] DailyLimitRule.on_init) in
  DailyLimitRule.total_order_count self = 1
  /\ DailyLimitRule.total_cancel_count self = 1
  /\ DailyLimitRule.contract_cancel_count self = {["rb2410.SHFE" := 1]}.
Proof. vm_compute. done. Qed.

(** ** DailyLimitRule.check_allowed *)

Section DailyLimitCheck.
Import DailyLimitRule.

Lemma defaultdict_getitem_eq (k : string) (d : gmap string Z) :
  defaultdict_getitem k d = (count_of k d, defaultdict_touched k d).
Proof.
  unfold defaultdict_touched, defaultdict_getitem, count_of.
  by destruct (d !! k).
Qed.

Lemma count_of_touched (k k' : string) (d : gmap string Z) :
  count_of k' (defaultdict_touched k d) = count_of k' d.
Proof.
  unfold defaultdict_touched, defaultdict_getitem, count_of.
  destruct (d !! k) as [v|] eqn:Hk; cbn; [done |].
  destruct (decide (k = k')) as [<- | Hne].
  - by rewrite lookup_insert_eq, Hk.
  - by rewrite lookup_insert_ne.
Qed.

(** A read inserts at most the key it reads, with the count 0. *)
Lemma defaultdict_touched_cases (k : string) (d : gmap string Z) :
  defaultdict_touched k d = d
  \/ d !! k = None /\ defaultdict_touched k d = <[k := 0]> d.
Proof.
  unfold defaultdict_touched, defaultdict_getitem.
  destruct (d !! k); cbn; [by left | by right].
Qed.


Ltac check_allowed_steps :=
  repeat first
    [ rewrite defaultdict_getitem_eq
    | progress cbn -[defaultdict_touched count_of]
    | match goal with
      | |- context [if ?a >=? ?b then _ else _] => destruct (Z.geb_spec a b)
      end ].

(** The footprint of a call. *)
Lemma check_allowed_touched (req : OrderRequest) (gateway_name : string) (self : state) :
  touched_only (req_vt_symbol req) self
    (state_of (check_allowed req gateway_name self)).
Proof.
  destruct self. unfold touched_only, state_of, check_allowed, bind, getitem, get.
  check_allowed_steps;
    unfold set_contract_order_count, set_contract_cancel_count,
      set_contract_trade_count; cbn -[defaultdict_touched];
    eexists _, _, _; (split; [reflexivity |]); auto.
Qed.

Lemma touched_only_same_counts (vt_symbol : string) (self self' : state) :
  touched_only vt_symbol self self' -> same_counts self self'.
Proof.
  intros (d1 & d2 & d3 & -> & H1 & H2 & H3). destruct self. cbn in *.
  unfold same_counts. cbn.
  repeat split; try done; intros k;
    [destruct H1 as [-> | ->] | destruct H2 as [-> | ->] | destruct H3 as [-> | ->]];
    try done; apply count_of_touched.
Qed.

(** [check_allowed] in closed form: the reads it has made when it answers,
    the answer and the log. *)
Lemma check_allowed_closed (req : OrderRequest) (gateway_name : string) (self : state) :
  let k := req_vt_symbol req in
  let s1 := set_contract_order_count (defaultdict_touched k (contract_order_count self))
              self in
  let s2 := set_contract_cancel_count (defaultdict_touched k (contract_cancel_count self))
              s1 in
  let s3 := set_contract_trade_count (defaultdict_touched k (contract_trade_count self))
              s2 in
  check_allowed req gateway_name self
  = if count_of k (contract_order_count self) >=? contract_order_limit self then
      (false, s1,
       [WriteLog (ContractOrderCountReached (count_of k (contract_order_count self))
                    (contract_order_limit self) req)])
    else if count_of k (contract_cancel_count self) >=? contract_cancel_limit self then
      (false, s2,
       [WriteLog (ContractCancelCountReached (count_of k (contract_cancel_count self))
                    (contract_cancel_limit self) req)])
    else if count_of k (contract_trade_count self) >=? contract_trade_limit self then
      (false, s3,
       [WriteLog (ContractTradeCountReached (count_of k (contract_trade_count self))
                    (contract_trade_limit self) req)])
    else if total_order_count self >=? total_order_limit self then
      (false, s3,
       [WriteLog (TotalOrderCountReached (total_order_count self)
                    (total_order_limit self) req)])
    else if total_cancel_count self >=? total_cancel_limit self then
      (false, s3,
       [WriteLog (TotalCancelCountReached (total_cancel_count self)
                    (total_cancel_limit self) req)])
    else if total_trade_count self >=? total_trade_limit self then
      (false, s3,
       [WriteLog (TotalTradeCountReached (total_trade_count self)
                    (total_trade_limit self) req)])
    else (true, s3, []).
Proof.
  cbn zeta. destruct self. unfold check_allowed, bind, getitem, get.
  repeat first
    [ rewrite defaultdict_getitem_eq
    | progress cbn -[defaultdict_touched count_of]
    | match goal with
      | |- context [if ?a >=? ?b then _ else _] => destruct (a >=? b)
      end ];
    reflexivity.
Qed.

(** The dictionary a read leaves behind holds the count it has read. *)
Lemma defaultdict_touched_insert (k : string) (d : gmap string Z) :
  defaultdict_touched k d = <[k := count_of k d]> d.
Proof.
  unfold defaultdict_touched, defaultdict_getitem, count_of.
  destruct (d !! k) as [v|] eqn:Hk; cbn; [| done].
  by rewrite insert_id.
Qed.


(** C4, as amended. [DailyLimitRule.check_allowed] changes no limit, no
    identifier set, no total and no count, the count of a symbol being 0 when
    its dictionary has no entry; but it does write: each per-symbol dictionary
    it reads is left with an entry for the request's symbol that holds the
    count read, so that a symbol that was missing is inserted with count 0.
    The order dictionary is always read, the cancel dictionary when the order
    count is below its limit, the trade dictionary when the cancel count is
    below its limit too; nothing else of the state differs. The six limits are
    tried in the order per-symbol order, cancel, trade, then total order,
    cancel, trade: the call returns false, and logs that limit, at the first
    counter that has reached its limit, and it returns true, logging nothing,
    exactly when all six counters are below their limits. *)
Theorem daily_limit_check_allowed_reads
    (req : OrderRequest) (gateway_name : string) (self : state) :
  let vt_symbol := req_vt_symbol req in
  let order_count := count_of vt_symbol (contract_order_count self) in
  let cancel_count := count_of vt_symbol (contract_cancel_count self) in
  let trade_count := count_of vt_symbol (contract_trade_count self) in
  let answer := check_allowed req gateway_name self in
  same_counts self (state_of answer)
  /\ touched_only vt_symbol self (state_of answer)
  /\ state_of answer
     = set_contract_trade_count
         (if (order_count >=? contract_order_limit self)
             || (cancel_count >=? contract_cancel_limit self)
          then contract_trade_count self
          else <[vt_symbol := trade_count]> (contract_trade_count self))
         (set_contract_cancel_count
            (if order_count >=? contract_order_limit self
             then contract_cancel_count self
             else <[vt_symbol := cancel_count]> (contract_cancel_count self))
            (set_contract_order_count
               (<[vt_symbol := order_count]> (contract_order_count self)) self))
  /\ contract_order_count (state_of answer) !! vt_symbol = Some order_count
  /\ (order_count >= contract_order_limit self ->
   result answer = false
   /\ calls answer
      = [WriteLog (ContractOrderCountReached order_count (contract_order_limit self) req)])
  /\ (order_count < contract_order_limit self ->
      cancel_count >= contract_cancel_limit self ->
      result answer = false
      /\ calls answer
         = [WriteLog (ContractCancelCountReached cancel_count
                        (contract_cancel_limit self) req)])
  /\ (order_count < contract_order_limit self ->
      cancel_count < contract_cancel_limit self ->
      trade_count >= contract_trade_limit self ->
      result answer = false
      /\ calls answer
         = [WriteLog (ContractTradeCountReached trade_count
                        (contract_trade_limit self) req)])
  /\ (order_count < contract_order_limit self ->
      cancel_count < contract_cancel_limit self ->
      trade_count < contract_trade_limit self ->
      total_order_count self >= total_order_limit self ->
      result answer = false
      /\ calls answer
         = [WriteLog (TotalOrderCountReached (total_order_count self)
                        (total_order_limit self) req)])
  /\ (order_count < contract_order_limit self ->
      cancel_count < contract_cancel_limit self ->
      trade_count < contract_trade_limit self ->
      total_order_count self < total_order_limit self ->
      total_cancel_count self >= total_cancel_limit self ->
      result answer = false
      /\ calls answer
         = [WriteLog (TotalCancelCountReached (total_cancel_count self)
                        (total_cancel_limit self) req)])
  /\ (order_count < contract_order_limit self ->
      cancel_count < contract_cancel_limit self ->
      trade_count < contract_trade_limit self ->
      total_order_count self < total_order_limit self ->
      total_cancel_count self < total_cancel_limit self ->
      total_trade_count self >= total_trade_limit self ->
      result answer = false
      /\ calls answer
         = [WriteLog (TotalTradeCountReached (total_trade_count self)
                        (total_trade_limit self) req)])
  /\ (result answer = true
      <-> order_count < contract_order_limit self
          /\ cancel_count < contract_cancel_limit self
          /\ trade_count < contract_trade_limit self
          /\ total_order_count self < total_order_limit self
          /\ total_cancel_count self < total_cancel_limit self
          /\ total_trade_count self < total_trade_limit self)
  /\ (result answer = true -> calls answer = []).
Proof.
  cbn zeta. split; [| split; [| split; [| split]]].
  - eapply touched_only_same_counts, check_allowed_touched.
  - apply check_allowed_touched.
  - rewrite check_allowed_closed. cbn zeta. rewrite !defaultdict_touched_insert.
    destruct self. unfold state_of.
    repeat match goal with
           | |- context [?a >=? ?b] => destruct (a >=? b)
           end; reflexivity.
  - rewrite check_allowed_closed. cbn zeta. rewrite !defaultdict_touched_insert.
    destruct self. unfold state_of.
    repeat match goal with
           | |- context [if ?a >=? ?b then _ else _] => destruct (a >=? b)
           end; cbn; apply lookup_insert_eq.
  - destruct self. unfold result, calls, check_allowed, bind, getitem, get.
    check_allowed_steps; repeat split; intros; try done; try lia.
Qed.

Lemma daily_limit_check_allowed_reads_witness :
  result (check_allowed (example_req 1 4000) "CTP" on_init) = true.
Proof.
  apply (daily_limit_check_allowed_reads (example_req 1 4000) "CTP" on_init).
  vm_compute. repeat split.
Defined.

(** The claim as stated fails: a first call for a symbol leaves a state that
    is not the state it found. *)
Lemma daily_limit_check_allowed_mutates :
  state_of (check_allowed (example_req 1 4000) "CTP" on_init) <> on_init.
Proof.
  intros H. apply (f_equal contract_order_count) in H.
  apply (f_equal (lookup "rb2410.SHFE")) in H.
  vm_compute in H. discriminate H.
Qed.

(** The entry the first call has inserted, and the answer it gave. *)
Example daily_limit_check_allowed_first_call :
  check_allowed (example_req 1 4000) "CTP" on_init
  = (true,
     set_contract_trade_count {["rb2410.SHFE" := 0]}
       (set_contract_cancel_count {["rb2410.SHFE" := 0]}
          (set_contract_order_count {["rb2410.SHFE" := 0]} on_init)),
     []).
Proof. vm_compute. reflexivity. Qed.
End DailyLimitCheck.

(** ** The invariant of DailyLimitRule *)

Section DailyLimitInvariant.
Import DailyLimitRule.
Variable as_c_int : PyVal -> exn + Z.


Lemma same_records_refl (self : state) : same_records self self.
Proof. by repeat split. Qed.

Lemma same_records_trans (s1 s2 s3 : state) :
  same_records s1 s2 -> same_records s2 s3 -> same_records s1 s3.
Proof. unfold same_records. intros H12 H23. intuition congruence. Qed.

Lemma same_records_consistent (self self' : state) :
  same_records self self' -> consistent self -> consistent self'.
Proof.
  unfold same_records, consistent.
  intros (-> & -> & -> & -> & -> & -> & _). done.
Qed.

Lemma set_int_field_records (set_field : Z -> state -> state)
    (value : PyVal) (self self' : state) :
  (forall z s, same_records s (set_field z s)) ->
  set_int_field as_c_int set_field value self = inr self' ->
  same_records self self'.
Proof.
  intros Hset. unfold set_int_field.
  destruct (as_c_int value) as [e | z]; [done |]. intros [= <-]. apply Hset.
Qed.

Lemma setattr_records (attr : string) (value : PyVal) (self self' : state) :
  setattr as_c_int attr value self = inr self' -> same_records self self'.
Proof.
  unfold setattr.
  repeat match goal with
         | |- context [if String.eqb ?a ?b then _ else _] => destruct (String.eqb a b)
         end;
    try (apply set_int_field_records; intros z s; by repeat split).
  intros [= <-]. by repeat split.
Qed.

Lemma update_setting_records (rule_setting : gmap string PyVal) (self : state) :
  same_records self (update_setting as_c_int rule_setting self).1.
Proof.
  unfold update_setting.
  apply (update_setting_loop_keeps (setattr as_c_int) rule_setting same_records);
    eauto using same_records_refl, same_records_trans, setattr_records.
Qed.

Lemma size_add_new (i : string) (ids : gset string) :
  i ∉ ids -> Z.of_nat (size ({[i]} ∪ ids)) = Z.of_nat (size ids) + 1.
Proof.
  intros Hnew. rewrite size_union by set_solver. rewrite size_singleton. lia.
Qed.

Lemma consistent_on_init : consistent on_init.
Proof. unfold consistent. cbn. rewrite size_empty. done. Qed.

Lemma on_order_consistent (order : OrderData) (self : state) :
  consistent self -> consistent (state_of (on_order order self)).
Proof.
  intros (Ho & Hc & Ht & Hsub).
  destruct (on_order_cases order self) as [H | [(H1 & H2 & H3) | (H1 & H2)]].
  - rewrite on_order_new by done. unfold consistent. cbn.
    rewrite size_add_new by done. repeat split; try done; [lia |].
    etrans; [exact Hsub | apply union_subseteq_r].
  - rewrite on_order_cancel by done. unfold consistent. cbn.
    rewrite size_add_new by done. repeat split; try done; [lia |].
    apply union_least; [by apply singleton_subseteq_l | done].
  - by rewrite on_order_ignored by done.
Qed.

Lemma on_trade_consistent (trade : TradeData) (self : state) :
  consistent self -> consistent (state_of (on_trade trade self)).
Proof.
  intros (Ho & Hc & Ht & Hsub).
  destruct (decide (trade_vt_tradeid trade ∈ all_tradeids self)) as [Hseen | Hnew].
  - by rewrite on_trade_seen by done.
  - rewrite on_trade_new by done. unfold consistent. cbn.
    rewrite size_add_new by done. repeat split; try done. lia.
Qed.

Lemma check_allowed_consistent (req : OrderRequest) (gateway_name : string) (self : state) :
  consistent self -> consistent (state_of (check_allowed req gateway_name self)).
Proof.
  pose proof (touched_only_same_counts _ _ _
                (check_allowed_touched req gateway_name self)) as Hsame.
  unfold same_counts in Hsame. unfold consistent.
  destruct Hsame as (_ & _ & _ & _ & _ & _ & -> & -> & -> & -> & -> & -> & _).
  done.
Qed.

Lemma step_consistent (c : call) (self : state) :
  consistent self -> consistent (step as_c_int c self).
Proof.
  destruct c; cbn [step].
  - apply on_order_consistent.
  - apply on_trade_consistent.
  - done.
  - done.
  - apply check_allowed_consistent.
  - apply same_records_consistent, update_setting_records.
Qed.

Lemma run_consistent (cs : list call) :
  forall self, consistent self -> consistent (run as_c_int cs self).
Proof.
  induction cs as [|c cs IH]; intros self Hself; [done |].
  cbn. apply IH. by apply step_consistent.
Qed.
End DailyLimitInvariant.

(** C10. After the constructor, whatever the settings and whether or not
    applying them raised, and after any sequence of [on_order], [on_trade],
    [on_tick], [on_timer], [check_allowed] and [update_setting] calls, the three totals
    are the sizes of the three identifier sets and every identifier counted
    as cancelled has been counted as an order. *)
Theorem daily_limit_invariant
    (as_c_int : PyVal -> exn + Z) (setting : gmap string PyVal)
    (cs : list DailyLimitRule.call) :
  DailyLimitRule.consistent
    (DailyLimitRule.run as_c_int cs (DailyLimitRule.init as_c_int setting).1).
Proof.
  apply run_consistent. unfold DailyLimitRule.init.
  eapply same_records_consistent; [apply update_setting_records |].
  apply consistent_on_init.
Qed.

(** A run through every kind of call, with a setting that converts and one
    that does not. *)
Example daily_limit_run :
  let order := example_order NOTTRADED in
  let cancel := example_order CANCELLED in
  let trade := mkTradeData "CTP.7" "rb2410.SHFE" in
  let self :=
    DailyLimitRule.run DailyLimitRule.c_int_of_pyval
      [DailyLimitRule.OnOrder order;
       DailyLimitRule.CheckAllowed (example_req 1 4000) "CTP";
       DailyLimitRule.OnTrade trade;
       DailyLimitRule.UpdateSetting
         {["total_order_limit" := PyInt 5; "contract_order_limit" := PyStr "many"]};
       DailyLimitRule.OnTick;
       DailyLimitRule.OnTimer;
       DailyLimitRule.OnOrder cancel;
       DailyLimitRule.OnTrade trade]
      (DailyLimitRule.init DailyLimitRule.c_int_of_pyval
         {["active" := PyBool false]}).1 in
  DailyLimitRule.total_order_count self = 1
  /\ DailyLimitRule.total_cancel_count self = 1
  /\ DailyLimitRule.total_trade_count self = 1
  /\ DailyLimitRule.total_order_limit self = 5
  /\ DailyLimitRule.contract_order_limit self = 2000
  /\ DailyLimitRule.base_attrs self !! "active" = Some (PyBool false).
Proof. vm_compute. done. Qed.

(** ** Properties of ActiveOrderRule *)

Section ActiveOrderProperties.
Import ActiveOrderRule.

(** [on_order] in closed form. *)
Lemma on_order_unfold (order : OrderData) (self : state) :
  on_order order self
  = (tt,
     mkState (active_order_limit self)
             (Z.of_nat (size (updated order (active_orders self))))
             (updated order (active_orders self)),
     [PutRuleEvent]).
Proof.
  unfold on_order, updated, bind, get, modify, put_event, ret. cbn.
  destruct (is_active order); cbn; [done |].
  case_bool_decide as Hin; cbn; [done |].
  rewrite delete_id by by apply not_elem_of_dom. by destruct self.
Qed.

Lemma updated_lookup (order : OrderData) (orders : gmap string OrderData) (i : string) :
  updated order orders !! i
  = if decide (order_vt_orderid order = i)
    then (if is_active order then Some order else None)
    else orders !! i.
Proof.
  unfold updated. destruct (is_active order).
  - rewrite lookup_insert. by repeat case_decide.
  - rewrite lookup_delete. by repeat case_decide.
Qed.

Lemma latest_cons (i : string) (order : OrderData) (orders : list OrderData) :
  latest i (order :: orders)
  = match latest i orders with
    | Some o => Some o
    | None => if decide (order_vt_orderid order = i) then Some order else None
    end.
Proof.
  unfold latest. rewrite filter_cons. case_decide.
  - by rewrite last_cons.
  - by destruct (last _).
Qed.

(** The mapping after a run, from any state. *)
Lemma on_orders_lookup (i : string) (orders : list OrderData) :
  forall self,
    active_orders (state_of (on_orders orders self)) !! i
    = match latest i orders with
      | Some order => if is_active order then Some order else None
      | None => active_orders self !! i
      end.
Proof.
  induction orders as [|order orders IH]; intros self; [done |].
  cbn [on_orders]. rewrite bind_state, IH, latest_cons.
  destruct (latest i orders) as [o|]; [done |].
  rewrite on_order_unfold. unfold state_of. cbn. rewrite updated_lookup.
  by case_decide.
Qed.

Lemma on_orders_calls (orders : list OrderData) :
  forall self, calls (on_orders orders self) = replicate (length orders) PutRuleEvent.
Proof.
  induction orders as [|order orders IH]; intros self; [done |].
  cbn [on_orders]. rewrite bind_calls, IH, on_order_unfold. done.
Qed.

Lemma on_orders_count (orders : list OrderData) :
  forall self,
    active_order_count self = Z.of_nat (size (active_orders self)) ->
    active_order_count (state_of (on_orders orders self))
    = Z.of_nat (size (active_orders (state_of (on_orders orders self)))).
Proof.
  induction orders as [|order orders IH]; intros self Hself; [done |].
  cbn [on_orders]. rewrite bind_state. apply IH.
  by rewrite on_order_unfold.
Qed.
End ActiveOrderProperties.

(** C5. After every order event [active_order_count] is the number of
    identifiers in the active-orders mapping, and the rule has notified the
    engine exactly once, whether or not the count changed. The event puts an
    active order into the mapping under its identifier and takes an inactive
    one out, so that from a state whose count is right the count goes up by
    one for an active order that was not in the mapping, down by one for an
    inactive order that was, and stays otherwise. After any run from the
    initial state the mapping holds, for each identifier, the event delivered
    last when that event is active, and nothing else. *)
Theorem active_order_count_tracks_mapping :
  (forall (self : ActiveOrderRule.state) (order : OrderData),
     let after := ActiveOrderRule.on_order order self in
     ActiveOrderRule.active_order_count (state_of after)
     = Z.of_nat (size (ActiveOrderRule.active_orders (state_of after)))
     /\ calls after = [PutRuleEvent]
     /\ ActiveOrderRule.active_order_limit (state_of after)
        = ActiveOrderRule.active_order_limit self
     /\ forall i,
          ActiveOrderRule.active_orders (state_of after) !! i
          = if decide (order_vt_orderid order = i)
            then (if is_active order then Some order else None)
            else ActiveOrderRule.active_orders self !! i)
  /\ (forall (self : ActiveOrderRule.state) (order : OrderData),
        ActiveOrderRule.active_order_count self
        = Z.of_nat (size (ActiveOrderRule.active_orders self)) ->
        let held := ActiveOrderRule.active_orders self !! order_vt_orderid order in
        let before := ActiveOrderRule.active_order_count self in
        let after :=
          ActiveOrderRule.active_order_count
            (state_of (ActiveOrderRule.on_order order self)) in
        (is_active order = true -> held = None -> after = before + 1)
        /\ (is_active order = true -> is_Some held -> after = before)
        /\ (is_active order = false -> is_Some held -> after = before - 1)
        /\ (is_active order = false -> held = None -> after = before))
  /\ (forall orders : list OrderData,
        let run := ActiveOrderRule.on_orders orders ActiveOrderRule.on_init in
        ActiveOrderRule.active_order_count (state_of run)
        = Z.of_nat (size (ActiveOrderRule.active_orders (state_of run)))
        /\ (forall i,
              ActiveOrderRule.active_orders (state_of run) !! i
              = ActiveOrderRule.active_after i orders)
        /\ calls run = replicate (length orders) PutRuleEvent).
Proof.
  split; [| split].
  - intros self order. cbn zeta. rewrite on_order_unfold.
    unfold state_of, calls. cbn. repeat split. apply updated_lookup.
  - intros self order Hcount. cbn zeta. rewrite on_order_unfold.
    unfold state_of. cbn. rewrite Hcount. unfold ActiveOrderRule.updated.
    repeat split; intros Hactive Hheld; rewrite Hactive.
    + rewrite map_size_insert_None by done. lia.
    + by rewrite map_size_insert_Some by done.
    + rewrite map_size_delete_Some by done.
      apply map_size_ne_0_lookup_2 in Hheld. lia.
    + by rewrite map_size_delete_None by done.
  - intros orders. cbn zeta. repeat split.
    + by apply on_orders_count.
    + intros i. rewrite on_orders_lookup. unfold ActiveOrderRule.active_after.
      by destruct (ActiveOrderRule.latest i orders).
    + apply on_orders_calls.
Qed.

Lemma active_order_count_tracks_mapping_witness :
  ActiveOrderRule.active_order_count
    (state_of (ActiveOrderRule.on_order (example_order NOTTRADED)
                 ActiveOrderRule.on_init))
  = ActiveOrderRule.active_order_count ActiveOrderRule.on_init + 1.
Proof.
  apply (proj1 (proj2 active_order_count_tracks_mapping) ActiveOrderRule.on_init
           (example_order NOTTRADED));
    reflexivity.
Defined.

(** An order that goes active, inactive and active again, among others. *)
Example active_order_back_and_forth :
  let a := example_order NOTTRADED in
  let a' := example_order CANCELLED in
  let b := mkOrderData "CTP.2" "rb2410.SHFE" SUBMITTING in
  ActiveOrderRule.active_order_count
    <$> [state_of (ActiveOrderRule.on_orders [a] ActiveOrderRule.on_init);
         state_of (ActiveOrderRule.on_orders [a; a] ActiveOrderRule.on_init);
         state_of (ActiveOrderRule.on_orders [a; a; a'] ActiveOrderRule.on_init);
         state_of (ActiveOrderRule.on_orders [a; a; a'; a'] ActiveOrderRule.on_init);
         state_of (ActiveOrderRule.on_orders [a; a; a'; a'; a] ActiveOrderRule.on_init);
         state_of (ActiveOrderRule.on_orders [a; a; a'; a'; a; b] ActiveOrderRule.on_init)]
  = [1; 1; 0; 0; 1; 2].
Proof. vm_compute. reflexivity. Qed.

(** ** The counters stay in the range of a C int *)

Section CounterRange.

Lemma count_of_incr (k k' : string) (d : gmap string Z) :
  count_of k (defaultdict_incr k' d)
  = if decide (k' = k) then count_of k d + 1 else count_of k d.
Proof.
  rewrite defaultdict_incr_insert. case_decide as Hk.
  - subst k'. apply count_of_insert.
  - by apply count_of_insert_ne.
Qed.

Lemma count_of_empty (k : string) : count_of k ∅ = 0.
Proof. unfold count_of. by rewrite lookup_empty. Qed.

Lemma daily_on_order_bounded (n : Z) (order : OrderData) (self : DailyLimitRule.state) :
  DailyLimitRule.bounded n self ->
  DailyLimitRule.bounded (n + 1) (state_of (DailyLimitRule.on_order order self)).
Proof.
  intros (Ho & Hc & Ht & Hco & Hcc & Hct).
  destruct (on_order_cases order self) as [H | [(H1 & H2 & H3) | (H1 & H2)]].
  - rewrite on_order_new by done. unfold DailyLimitRule.bounded. cbn.
    split_and!; try lia; intros k; rewrite ?count_of_incr; try case_decide;
      specialize (Hco k); specialize (Hcc k); specialize (Hct k); lia.
  - rewrite on_order_cancel by done. unfold DailyLimitRule.bounded. cbn.
    split_and!; try lia; intros k; rewrite ?count_of_incr; try case_decide;
      specialize (Hco k); specialize (Hcc k); specialize (Hct k); lia.
  - rewrite on_order_ignored by done. unfold DailyLimitRule.bounded. cbn.
    split_and!; try lia; intros k;
      specialize (Hco k); specialize (Hcc k); specialize (Hct k); lia.
Qed.

Lemma daily_on_trade_bounded (n : Z) (trade : TradeData) (self : DailyLimitRule.state) :
  DailyLimitRule.bounded n self ->
  DailyLimitRule.bounded (n + 1) (state_of (DailyLimitRule.on_trade trade self)).
Proof.
  intros (Ho & Hc & Ht & Hco & Hcc & Hct).
  destruct (decide (trade_vt_tradeid trade ∈ DailyLimitRule.all_tradeids self)).
  - rewrite on_trade_seen by done. unfold DailyLimitRule.bounded. cbn.
    split_and!; try lia; intros k;
      specialize (Hco k); specialize (Hcc k); specialize (Hct k); lia.
  - rewrite on_trade_new by done. unfold DailyLimitRule.bounded. cbn.
    split_and!; try lia; intros k; rewrite ?count_of_incr; try case_decide;
      specialize (Hco k); specialize (Hcc k); specialize (Hct k); lia.
Qed.

Lemma daily_same_counts_bounded (n : Z) (self self' : DailyLimitRule.state) :
  DailyLimitRule.same_counts self self' ->
  DailyLimitRule.bounded n self -> DailyLimitRule.bounded (n + 1) self'.
Proof.
  unfold DailyLimitRule.same_counts, DailyLimitRule.bounded.
  intros (_ & _ & _ & _ & _ & _ & _ & _ & _ & -> & -> & -> & _ & Hco' & Hcc' & Hct')
         (Ho & Hc & Ht & Hco & Hcc & Hct).
  split_and!; try lia; intros k; rewrite ?Hco', ?Hcc', ?Hct';
    specialize (Hco k); specialize (Hcc k); specialize (Hct k); lia.
Qed.

Lemma daily_same_records_bounded (n : Z) (self self' : DailyLimitRule.state) :
  DailyLimitRule.same_records self self' ->
  DailyLimitRule.bounded n self -> DailyLimitRule.bounded (n + 1) self'.
Proof.
  unfold DailyLimitRule.same_records, DailyLimitRule.bounded.
  intros (_ & _ & _ & -> & -> & -> & -> & -> & ->)
         (Ho & Hc & Ht & Hco & Hcc & Hct).
  split_and!; try lia; intros k;
    specialize (Hco k); specialize (Hcc k); specialize (Hct k); lia.
Qed.

Variable as_c_int : PyVal -> exn + Z.

Lemma daily_run_bounded (cs : list DailyLimitRule.call) :
  forall (n : Z) (self : DailyLimitRule.state),
    DailyLimitRule.bounded n self ->
    DailyLimitRule.bounded (n + Z.of_nat (length cs))
      (DailyLimitRule.run as_c_int cs self).
Proof.
  induction cs as [|c cs IH]; intros n self Hself.
  - cbn. by rewrite Z.add_0_r.
  - cbn [DailyLimitRule.run fold_left length].
    replace (n + Z.of_nat (S (length cs))) with (n + 1 + Z.of_nat (length cs)) by lia.
    apply IH. destruct c; cbn [DailyLimitRule.step].
    + by apply daily_on_order_bounded.
    + by apply daily_on_trade_bounded.
    + eapply daily_same_records_bounded; [apply same_records_refl | done].
    + eapply daily_same_records_bounded; [apply same_records_refl | done].
    + eapply daily_same_counts_bounded; [| done].
      eapply touched_only_same_counts, check_allowed_touched.
    + eapply daily_same_records_bounded; [apply update_setting_records | done].
Qed.

(** Fewer than 2^31 calls on a [DailyLimitRule] leave every counter a value
    of a C int: on such runs the unbounded integers of the model are the
    integers of the code. *)
Lemma daily_limit_counters_in_range
    (setting : gmap string PyVal) (cs : list DailyLimitRule.call) :
  Z.of_nat (length cs) <= INT_MAX ->
  let self := DailyLimitRule.run as_c_int cs (DailyLimitRule.init as_c_int setting).1 in
  c_int (DailyLimitRule.total_order_count self)
  /\ c_int (DailyLimitRule.total_cancel_count self)
  /\ c_int (DailyLimitRule.total_trade_count self)
  /\ (forall k, c_int (count_of k (DailyLimitRule.contract_order_count self)))
  /\ (forall k, c_int (count_of k (DailyLimitRule.contract_cancel_count self)))
  /\ (forall k, c_int (count_of k (DailyLimitRule.contract_trade_count self))).
Proof.
  intros Hlen. cbn zeta.
  assert (DailyLimitRule.bounded 0 (DailyLimitRule.init as_c_int setting).1) as Hinit.
  { pose proof (update_setting_records as_c_int setting DailyLimitRule.on_init) as Hsame.
    unfold DailyLimitRule.init, DailyLimitRule.same_records, DailyLimitRule.bounded.
    destruct Hsame as (_ & _ & _ & -> & -> & -> & -> & -> & ->). cbn.
    split_and!; try lia; intros k; rewrite count_of_empty; lia. }
  apply (daily_run_bounded cs) in Hinit. rewrite Z.add_0_l in Hinit.
  destruct Hinit as (Ho & Hc & Ht & Hco & Hcc & Hct).
  unfold c_int, INT_MIN, INT_MAX in *.
  split_and!; try lia; intros k;
    specialize (Hco k); specialize (Hcc k); specialize (Hct k); lia.
Qed.
End CounterRange.

Section CounterRangeOthers.

Lemma duplicate_counts_grow (float_str : Q -> string) (gateway_name : string)
    (reqs : list OrderRequest) :
  forall (self : DuplicateOrderRule.state) (k : string),
    let self' := state_of (DuplicateOrderRule.check_all float_str reqs gateway_name self) in
    count_of k (DuplicateOrderRule.duplicate_order_count self)
    <= count_of k (DuplicateOrderRule.duplicate_order_count self')
    <= count_of k (DuplicateOrderRule.duplicate_order_count self)
       + Z.of_nat (length reqs).
Proof.
  induction reqs as [|req reqs IH]; intros self k; cbn zeta.
  - cbn. lia.
  - cbn [DuplicateOrderRule.check_all length]. rewrite bind_state, bind_state.
    rewrite check_allowed_unfold. unfold state_of at 2 3, result at 1. cbn [fst snd].
    set (s1 := DuplicateOrderRule.mkState _ _).
    specialize (IH s1 k). cbn zeta in IH.
    assert (count_of k (DuplicateOrderRule.duplicate_order_count self)
            <= count_of k (DuplicateOrderRule.duplicate_order_count s1)
            <= count_of k (DuplicateOrderRule.duplicate_order_count self) + 1) as Hstep.
    { subst s1. cbn.
      destruct (decide (DuplicateOrderRule.format_req float_str req = k)) as [<- | Hne].
      - rewrite count_of_insert. lia.
      - rewrite count_of_insert_ne by done. lia. }
    unfold state_of in *. cbn in *. lia.
Qed.

(** Fewer than 2^31 calls of [DuplicateOrderRule.check_allowed] leave every
    count a value of a C int. *)
Lemma duplicate_order_counts_in_range (float_str : Q -> string)
    (gateway_name : string) (reqs : list OrderRequest) (k : string) :
  Z.of_nat (length reqs) <= INT_MAX ->
  c_int (count_of k
           (DuplicateOrderRule.duplicate_order_count
              (state_of (DuplicateOrderRule.check_all float_str reqs gateway_name
                           DuplicateOrderRule.on_init)))).
Proof.
  intros Hlen.
  pose proof (duplicate_counts_grow float_str gateway_name reqs
                DuplicateOrderRule.on_init k) as Hgrow.
  cbn zeta in Hgrow. cbn [DuplicateOrderRule.on_init
                          DuplicateOrderRule.duplicate_order_count] in Hgrow.
  rewrite count_of_empty in Hgrow.
  unfold c_int, INT_MIN, INT_MAX in *. lia.
Qed.

Lemma active_orders_grow (orders : list OrderData) :
  forall self : ActiveOrderRule.state,
    (size (ActiveOrderRule.active_orders
             (state_of (ActiveOrderRule.on_orders orders self)))
     <= size (ActiveOrderRule.active_orders self) + length orders)%nat.
Proof.
  induction orders as [|order orders IH]; intros self; [cbn; lia |].
  cbn [ActiveOrderRule.on_orders length]. rewrite bind_state, on_order_unfold.
  unfold state_of at 2. cbn [fst snd].
  etrans; [apply IH |]. cbn [ActiveOrderRule.active_orders].
  unfold ActiveOrderRule.updated. destruct (is_active order).
  - rewrite map_size_insert. destruct (_ !! _); cbn; lia.
  - rewrite map_size_delete. destruct (_ !! _); cbn; lia.
Qed.

(** Fewer than 2^31 order events leave [active_order_count] a value of a C
    int. *)
Lemma active_order_count_in_range (orders : list OrderData) :
  Z.of_nat (length orders) <= INT_MAX ->
  c_int (ActiveOrderRule.active_order_count
           (state_of (ActiveOrderRule.on_orders orders ActiveOrderRule.on_init))).
Proof.
  intros Hlen. rewrite on_orders_count by done.
  pose proof (active_orders_grow orders ActiveOrderRule.on_init) as Hgrow.
  cbn [ActiveOrderRule.on_init ActiveOrderRule.active_orders] in Hgrow.
  rewrite map_size_empty in Hgrow.
  unfold c_int, INT_MIN, INT_MAX in *. lia.
Qed.
End CounterRangeOthers.

(** ** Settings and snapshots *)

Section PlainAttributes.
Import RuleTemplate.
Context {V : Type}.
Variable py_bool : bool -> V.
Variable py_truth : V -> bool.

(** [update_setting] on a rule whose parameters are attributes of the
    instance: it never raises, keeps the template's own fields, and leaves in
    each attribute what the assignment of the object that the settings bind
    to it stores, when its name is one of the list, and the old value
    otherwise. *)
Lemma update_setting_loop_plain
    (names : list string) (rule_setting : gmap string V) (self : rule V) :
  exists attrs',
    update_setting_loop
      (fun attr value self => inr (setattr py_bool py_truth attr value self))
      names rule_setting self
    = (mkRule (name self) (class_name self) (parameters self) (variables self) attrs',
       None)
    /\ forall k,
         attrs' !! k
         = match rule_setting !! k with
           | Some v =>
               if decide (k ∈ names) then Some (stored py_bool py_truth k v)
               else attrs self !! k
           | None => attrs self !! k
           end.
Proof.
  revert self. induction names as [|n names IH]; intros self; cbn.
  - exists (attrs self). split; [by destruct self |].
    intros k. destruct (rule_setting !! k); [| done].
    rewrite decide_False; [done | apply not_elem_of_nil].
  - destruct (rule_setting !! n) as [v|] eqn:Hn.
    + destruct (IH (setattr py_bool py_truth n v self)) as (attrs' & -> & Hattrs).
      exists attrs'. split; [done |].
      intros k. rewrite Hattrs. cbn.
      destruct (rule_setting !! k) as [w|] eqn:Hk.
      * destruct (decide (k ∈ names)) as [Hin | Hout].
        -- rewrite decide_True; [done | by right].
        -- destruct (decide (n = k)) as [-> | Hne].
           ++ rewrite decide_True by left. rewrite lookup_insert_eq. congruence.
           ++ rewrite decide_False by (intros [? | ?]%elem_of_cons; congruence).
              by rewrite lookup_insert_ne.
      * destruct (decide (n = k)) as [-> | Hne]; [congruence |].
        by rewrite lookup_insert_ne.
    + destruct (IH self) as (attrs' & -> & Hattrs).
      exists attrs'. split; [done |].
      intros k. rewrite Hattrs.
      destruct (rule_setting !! k) as [w|] eqn:Hk; [| done].
      destruct (decide (k ∈ names)) as [Hin | Hout].
      * rewrite decide_True; [done | by right].
      * rewrite decide_False; [done |].
        intros [-> | ?]%elem_of_cons; [congruence | done].
Qed.

Lemma stored_other (k : string) (v : V) :
  k <> "active" -> stored py_bool py_truth k v = v.
Proof. intros Hk. unfold stored. by destruct (String.eqb_spec k "active"). Qed.

Lemma stored_active (v : V) :
  stored py_bool py_truth "active" v = py_bool (py_truth v).
Proof. reflexivity. Qed.
End PlainAttributes.

Ltac by_name :=
  repeat match goal with
         | |- context [String.eqb ?a ?b] =>
             destruct (String.eqb_spec a b); subst; try congruence
         | H : context [String.eqb ?a ?b] |- _ =>
             destruct (String.eqb_spec a b); subst; try congruence
         end.

Section TypedAttributes.
Import DailyLimitRule.
Variable as_c_int : PyVal -> exn + Z.

(** An assignment changes the attribute it names and no other. *)
Lemma setattr_getattr_ne (attr x : string) (value : PyVal) (self self' : state) :
  attr <> x ->
  setattr as_c_int attr value self = inr self' ->
  getattr self' x = getattr self x.
Proof.
  intros Hne. unfold setattr, set_int_field.
  destruct (as_c_int value) as [e | z];
    by_name; intros [= <-]; unfold getattr, limit_of; cbn; by_name;
    try done; unfold RuleTemplate.set_base_attr; by rewrite lookup_insert_ne.
Qed.

(** An assignment to one of the six limits stores the converted value, and
    raises when the conversion does. *)
Lemma setattr_limit (x : string) (value : PyVal) (self : state) :
  x ∈ dict_keys class_parameters ->
  match as_c_int value with
  | inr z =>
      exists self', setattr as_c_int x value self = inr self'
                    /\ getattr self' x = Some (PyInt z)
  | inl e => setattr as_c_int x value self = inl e
  end.
Proof.
  cbn. rewrite !elem_of_cons.
  intros [-> | [-> | [-> | [-> | [-> | [-> | Hin]]]]]]; [.. | by inversion Hin];
    unfold setattr, set_int_field; cbn; destruct (as_c_int value); eauto.
Qed.

(** An assignment to [active] stores the truth value of the object. *)
Lemma setattr_active (value : PyVal) (self : state) :
  exists self', setattr as_c_int "active" value self = inr self'
                /\ getattr self' "active" = Some (PyBool (py_truth value)).
Proof.
  eexists. split; [reflexivity |].
  unfold getattr. cbn. apply lookup_insert_eq.
Qed.

Lemma class_parameters_declared (x : string) :
  x ∈ dict_keys class_parameters -> x ∈ dict_keys parameters.
Proof. cbn. rewrite !elem_of_cons. tauto. Qed.

Lemma parameters_cases (x : string) :
  x ∈ dict_keys parameters -> x = "active" \/ x ∈ dict_keys class_parameters.
Proof. cbn. rewrite !elem_of_cons. tauto. Qed.

Lemma daily_limit_assignment_laws :
  assignment_laws (setattr as_c_int) getattr (dict_keys parameters)
    (stored as_c_int).
Proof.
  split.
  - intros k v s [-> | Hk]%parameters_cases.
    + apply setattr_active.
    + unfold stored. rewrite bool_decide_eq_true_2 by done.
      unfold RuleTemplate.int_stored.
      pose proof (setattr_limit k v s Hk) as Hlimit.
      by destruct (as_c_int v).
  - intros k k' v s s' Hne. by apply setattr_getattr_ne.
Qed.
End TypedAttributes.

Section OrderSizeAttributes.
Import OrderSizeRule.
Variable as_c_int : PyVal -> exn + Z.
Variable as_c_float : PyVal -> exn + Q.

Lemma order_size_assignment_laws :
  assignment_laws (setattr as_c_int as_c_float) getattr (dict_keys parameters)
    (stored as_c_int as_c_float).
Proof.
  split.
  - intros k v s. cbn. rewrite !elem_of_cons.
    intros [-> | [-> | [-> | Hin]]]; [.. | by inversion Hin];
      unfold setattr, stored, getattr, RuleTemplate.int_stored,
        RuleTemplate.float_stored; cbn.
    + eexists. split; [reflexivity |]. cbn. apply lookup_insert_eq.
    + destruct (as_c_int v); eauto.
    + destruct (as_c_float v); eauto.
  - intros k k' v s s' Hne. unfold setattr.
    destruct (as_c_int v), (as_c_float v);
      by_name; intros [= <-]; unfold getattr; cbn; by_name;
      try done; unfold RuleTemplate.set_base_attr; by rewrite lookup_insert_ne.
Qed.
End OrderSizeAttributes.

Section DuplicateOrderAttributes.
Import DuplicateOrderRule.
Variable as_c_int : PyVal -> exn + Z.

Lemma duplicate_order_assignment_laws :
  assignment_laws (setattr as_c_int) getattr (dict_keys parameters)
    (stored as_c_int).
Proof.
  split.
  - intros k v s. cbn. rewrite !elem_of_cons.
    intros [-> | [-> | Hin]]; [.. | by inversion Hin];
      unfold setattr, stored, getattr, RuleTemplate.int_stored; cbn.
    + eexists. split; [reflexivity |]. cbn. apply lookup_insert_eq.
    + destruct (as_c_int v); eauto.
  - intros k k' v s s' Hne. unfold setattr.
    destruct (as_c_int v);
      by_name; intros [= <-]; unfold getattr; cbn; by_name;
      try done; unfold RuleTemplate.set_base_attr; by rewrite lookup_insert_ne.
Qed.
End DuplicateOrderAttributes.

Section ActiveOrderAttributes.
Import ActiveOrderRule.
Variable as_c_int : PyVal -> exn + Z.

Lemma active_order_assignment_laws :
  assignment_laws (setattr as_c_int) getattr (dict_keys parameters)
    (stored as_c_int).
Proof.
  split.
  - intros k v s. cbn. rewrite !elem_of_cons.
    intros [-> | [-> | Hin]]; [.. | by inversion Hin];
      unfold setattr, stored, getattr, RuleTemplate.int_stored; cbn.
    + eexists. split; [reflexivity |]. cbn. apply lookup_insert_eq.
    + destruct (as_c_int v); eauto.
  - intros k k' v s s' Hne. unfold setattr.
    destruct (as_c_int v);
      by_name; intros [= <-]; unfold getattr; cbn; by_name;
      try done; unfold RuleTemplate.set_base_attr; by rewrite lookup_insert_ne.
Qed.

End ActiveOrderAttributes.

(** [OrderValidityRule], as its constructor leaves it, is a rule of the first
    kind: its only parameter is [active], and it declares no variable. *)
Lemma order_validity_instance (setting : gmap string PyVal) :
  let self := (RuleTemplate.init PyBool py_truth order_validity_class setting).1 in
  declares_no_template_field self
  /\ dict_keys (RuleTemplate.parameters self) = ["active"]
  /\ RuleTemplate.variables self = []
  /\ RuleTemplate.name self = "Order Validity Check".
Proof.
  cbn zeta. unfold RuleTemplate.init, RuleTemplate.update_setting. cbn.
  destruct (setting !! "active"); cbn; (split; [| done]);
    intros k Hk; cbn in Hk; apply list_elem_of_singleton in Hk as ->;
    apply (bool_decide_unpack _); vm_compute; reflexivity.
Qed.

(** C8, as amended. Setting then snapshotting, when the settings bind the
    parameter [x] to the object [v]. What the snapshot then has at [x] is
    what the assignment of [v] to [x] stores, which depends on the
    declaration of [x]. For a rule whose parameters are attributes of the
    instance, [update_setting] does not raise and the snapshot has [v] at
    [x]; at [active], which is a typed field of the template, it has the
    truth value of [v]. [OrderValidityRule] is such a rule, with [active] for
    only parameter. For the other rules of the repository, whose parameters
    are typed fields ([cdef public int], [cdef public float]): when the
    assignment of [v] stores the converted value [v'] and [update_setting]
    does not raise, the snapshot has [v'] at [x]; when the assignment of [v]
    raises, [update_setting] raises and the snapshot has at [x] what it had
    before the call. *)
Theorem update_setting_get_data_roundtrip :
  (forall (V : Type) (py_None : V) (py_bool : bool -> V) (py_truth : V -> bool)
          (self : RuleTemplate.rule V)
          (rule_setting : gmap string V) (x : string) (v : V),
     declares_no_template_field self ->
     x ∈ dict_keys (RuleTemplate.parameters self) ->
     rule_setting !! x = Some v ->
     let after := RuleTemplate.update_setting py_bool py_truth rule_setting self in
     let entry :=
       dict_get x (RuleTemplate.data_parameters (RuleTemplate.get_data py_None after.1)) in
     after.2 = None
     /\ (x <> "active" -> entry = Some v)
     /\ (x = "active" -> entry = Some (py_bool (py_truth v))))
  /\ (forall (as_c_int : PyVal -> exn + Z) (self : DailyLimitRule.state)
             (rule_setting : gmap string PyVal) (x : string) (v : PyVal),
        x ∈ dict_keys DailyLimitRule.class_parameters ->
        rule_setting !! x = Some v ->
        let after := DailyLimitRule.update_setting as_c_int rule_setting self in
        let entry := fun self =>
          dict_get x (RuleTemplate.data_parameters (DailyLimitRule.get_data self)) in
        (forall z, as_c_int v = inr z -> after.2 = None ->
                   entry after.1 = Some (PyInt z))
        /\ (forall e, as_c_int v = inl e ->
                      after.2 <> None /\ entry after.1 = entry self))
  /\ (forall as_c_int : PyVal -> exn + Z,
        settings_round_trip
          (DailyLimitRule.update_setting as_c_int)
          (fun self => RuleTemplate.data_parameters (DailyLimitRule.get_data self))
          (dict_keys DailyLimitRule.parameters)
          (DailyLimitRule.stored as_c_int))
  /\ (forall (as_c_int : PyVal -> exn + Z) (as_c_float : PyVal -> exn + Q),
        settings_round_trip
          (OrderSizeRule.update_setting as_c_int as_c_float)
          (fun self => RuleTemplate.data_parameters (OrderSizeRule.get_data self))
          (dict_keys OrderSizeRule.parameters)
          (OrderSizeRule.stored as_c_int as_c_float))
  /\ (forall as_c_int : PyVal -> exn + Z,
        settings_round_trip
          (DuplicateOrderRule.update_setting as_c_int)
          (fun self => RuleTemplate.data_parameters (DuplicateOrderRule.get_data self))
          (dict_keys DuplicateOrderRule.parameters)
          (DuplicateOrderRule.stored as_c_int))
  /\ (forall as_c_int : PyVal -> exn + Z,
        settings_round_trip
          (ActiveOrderRule.update_setting as_c_int)
          (fun self => RuleTemplate.data_parameters (ActiveOrderRule.get_data self))
          (dict_keys ActiveOrderRule.parameters)
          (ActiveOrderRule.stored as_c_int)).
Proof.
  split_and!.
  - intros V py_None py_bool py_truth self rule_setting x v _ Hx Hv.
    unfold RuleTemplate.update_setting.
    destruct (update_setting_loop_plain py_bool py_truth
                (dict_keys (RuleTemplate.parameters self))
                rule_setting self) as (attrs' & -> & Hattrs).
    cbn zeta. split; [done |].
    unfold RuleTemplate.get_data.
    cbn [fst snd RuleTemplate.data_parameters RuleTemplate.parameters].
    rewrite collect_lookup by done.
    unfold RuleTemplate.getattr. cbn. rewrite Hattrs, Hv.
    rewrite decide_True by done. cbn. split.
    + intros Hne. by rewrite stored_other.
    + by intros ->.
  - intros as_c_int self rule_setting x v Hx Hv. cbn zeta.
    pose proof (class_parameters_declared x Hx) as Hdeclared.
    destruct (settings_round_trip_of_laws _ _ PyNone _ _
                (daily_limit_assignment_laws as_c_int) self rule_setting x v
                Hdeclared Hv) as [Hstored Hraised].
    unfold DailyLimitRule.stored, RuleTemplate.int_stored in Hstored, Hraised.
    rewrite bool_decide_eq_true_2 in Hstored, Hraised by done.
    split.
    + intros z Hz. apply Hstored. by rewrite Hz.
    + intros e He. apply (Hraised e). by rewrite He.
  - intros as_c_int.
    apply (settings_round_trip_of_laws _ _ PyNone _ _
             (daily_limit_assignment_laws as_c_int)).
  - intros as_c_int as_c_float.
    apply (settings_round_trip_of_laws _ _ PyNone _ _
             (order_size_assignment_laws as_c_int as_c_float)).
  - intros as_c_int.
    apply (settings_round_trip_of_laws _ _ PyNone _ _
             (duplicate_order_assignment_laws as_c_int)).
  - intros as_c_int.
    apply (settings_round_trip_of_laws _ _ PyNone _ _
             (active_order_assignment_laws as_c_int)).
Qed.

Lemma update_setting_get_data_roundtrip_witness :
  dict_get "total_order_limit"
    (RuleTemplate.data_parameters
       (DailyLimitRule.get_data
          (DailyLimitRule.update_setting DailyLimitRule.c_int_of_pyval
             {["total_order_limit" := PyInt 5]} DailyLimitRule.on_init).1))
  = Some (PyInt 5).
Proof.
  apply (proj1 (proj2 update_setting_get_data_roundtrip)
           DailyLimitRule.c_int_of_pyval
           DailyLimitRule.on_init {["total_order_limit" := PyInt 5]}
           "total_order_limit" (PyInt 5));
    try reflexivity.
  cbn. rewrite !elem_of_cons. auto.
Defined.

(** The claim as stated fails on a typed field: [total_order_limit] is a
    declared parameter and the settings bind it to the integer 2^31, which
    a C int does not hold; the assignment raises and the snapshot has the
    old limit. *)
Lemma update_setting_refuses_large_int :
  "total_order_limit" ∈ dict_keys DailyLimitRule.parameters
  /\ ({["total_order_limit" := PyInt (2 ^ 31)]} : gmap string PyVal)
       !! "total_order_limit" = Some (PyInt (2 ^ 31))
  /\ DailyLimitRule.update_setting DailyLimitRule.c_int_of_pyval
       {["total_order_limit" := PyInt (2 ^ 31)]} DailyLimitRule.on_init
     = (DailyLimitRule.on_init, Some OverflowError)
  /\ dict_get "total_order_limit"
       (RuleTemplate.data_parameters
          (DailyLimitRule.get_data
             (DailyLimitRule.update_setting DailyLimitRule.c_int_of_pyval
                {["total_order_limit" := PyInt (2 ^ 31)]} DailyLimitRule.on_init).1))
     <> Some (PyInt (2 ^ 31)).
Proof.
  split; [cbn; rewrite !elem_of_cons; auto |].
  split; [reflexivity |]. split; [vm_compute; reflexivity |].
  vm_compute. discriminate.
Qed.

(** The spec's example on a rule whose parameter is an attribute of the
    instance; the same rule when the settings bind [active] to 5, which
    reads back as [True]; and the snapshot of a [DailyLimitRule] after a
    setting that converts. *)
Example update_setting_declared_key :
  RuleTemplate.get_data PyNone
    (RuleTemplate.update_setting PyBool py_truth
       {["x" := PyInt 5; "not_a_param" := PyInt 1]} example_rule).1
  = RuleTemplate.mkRuleData "Example" "ExampleRule"
      [("active", PyBool true); ("x", PyInt 5)] [].
Proof. vm_compute. reflexivity. Qed.

Example update_setting_active_is_bool :
  RuleTemplate.get_data PyNone
    (RuleTemplate.update_setting PyBool py_truth {["active" := PyInt 5]}
       example_rule).1
  = RuleTemplate.mkRuleData "Example" "ExampleRule"
      [("active", PyBool true); ("x", PyInt 0)] []
  /\ RuleTemplate.get_data PyNone
       (RuleTemplate.update_setting PyBool py_truth {["active" := PyInt 0]}
          example_rule).1
     = RuleTemplate.mkRuleData "Example" "ExampleRule"
         [("active", PyBool false); ("x", PyInt 0)] [].
Proof. vm_compute. split; reflexivity. Qed.

(** [OrderValidityRule], whose only parameter is [active]. *)
Example order_validity_snapshot :
  RuleTemplate.get_data PyNone
    (RuleTemplate.init PyBool py_truth order_validity_class
       {["active" := PyInt 0]}).1
  = RuleTemplate.mkRuleData "Order Validity Check" "OrderValidityRule"
      [("active", PyBool false)] [].
Proof. vm_compute. reflexivity. Qed.

Example daily_limit_snapshot :
  DailyLimitRule.get_data
    (DailyLimitRule.update_setting DailyLimitRule.c_int_of_pyval
       {["total_trade_limit" := PyInt 7; "active" := PyBool false]}
       DailyLimitRule.on_init).1
  = RuleTemplate.mkRuleData "Daily Limit Check" "DailyLimitRule"
      [("active", PyBool false);
       ("total_order_limit", PyInt 20000);
       ("total_cancel_limit", PyInt 10000);
       ("total_trade_limit", PyInt 7);
       ("contract_order_limit", PyInt 2000);
       ("contract_cancel_limit", PyInt 1000);
       ("contract_trade_limit", PyInt 1000)]
      [("total_order_count", PyInt 0);
       ("total_cancel_count", PyInt 0);
       ("total_trade_count", PyInt 0);
       ("contract_order_count", PyCounts ∅);
       ("contract_cancel_count", PyCounts ∅);
       ("contract_trade_count", PyCounts ∅)].
Proof. vm_compute. reflexivity. Qed.

(** The snapshots of the other rules of the repository after settings that
    convert: a bool and a float for a C int, and the truth value of a string
    for [active]. *)
Example typed_rules_snapshot (as_c_float : PyVal -> exn + Q) :
  ActiveOrderRule.get_data
    (ActiveOrderRule.init DailyLimitRule.c_int_of_pyval
       {["active_order_limit" := PyInt 7; "active" := PyStr "no"]}).1
  = RuleTemplate.mkRuleData "Active Order Check" "ActiveOrderRule"
      [("active", PyBool true); ("active_order_limit", PyInt 7)]
      [("active_order_count", PyInt 0)]
  /\ DuplicateOrderRule.get_data
       (DuplicateOrderRule.init DailyLimitRule.c_int_of_pyval
          {["duplicate_order_limit" := PyBool true]}).1
     = RuleTemplate.mkRuleData "Duplicate Order Check" "DuplicateOrderRule"
         [("active", PyBool true); ("duplicate_order_limit", PyInt 1)]
         [("duplicate_order_count", PyCounts ∅)]
  /\ OrderSizeRule.get_data
       (OrderSizeRule.init DailyLimitRule.c_int_of_pyval as_c_float
          {["order_volume_limit" := PyFloat (5 # 2)]}).1
     = RuleTemplate.mkRuleData "Order Size Check" "OrderSizeRule"
         [("active", PyBool true); ("order_volume_limit", PyInt 2);
          ("order_value_limit", PyFloat 1000000)] [].
Proof. vm_compute. split_and!; reflexivity. Qed.




(** The spec's example: an unknown key changes nothing, on attributes of the
    instance and on typed fields. *)
Example update_setting_unknown_key :
  RuleTemplate.update_setting PyBool py_truth {["not_a_param" := PyInt 1]}
    example_rule
  = (example_rule, None).
Proof. vm_compute. reflexivity. Qed.

Example daily_limit_unknown_key :
  DailyLimitRule.update_setting DailyLimitRule.c_int_of_pyval
    {["not_a_param" := PyInt 1]} DailyLimitRule.on_init
  = (DailyLimitRule.on_init, None).
Proof. vm_compute. reflexivity. Qed.

(** * Further properties of the rules *)

(** ** What the stateless checks log *)

(** X1. [OrderValidityRule.check_allowed] leaves the rule's state alone and
    never notifies the engine; it logs nothing when it allows and exactly one
    message when it denies, the message of the first check that fails in the
    order of the source: missing contract; price whose remainder is further
    than 1e-6 from 0 and from the tick size, when the tick size is positive;
    volume above the maximum; volume below the minimum. The comparisons are
    those of doubles, false on NaN. *)
Theorem order_validity_logs_first_failure
    (get_contract : string -> option Double.ContractData) (S : Type)
    (req : Double.OrderRequest) (gateway_name : string) (s : S) :
  let answer := OrderValidityRule.check_allowed get_contract req gateway_name s in
  state_of answer = s
  /\ (result answer = true <-> calls answer = [])
  /\ (get_contract (Double.req_vt_symbol req) = None ->
      calls answer = [WriteLog (ContractNotExist (Double.req_vt_symbol req) req)])
  /\ (forall contract,
        get_contract (Double.req_vt_symbol req) = Some contract ->
        let price_off :=
          Double.gtb (Double.contract_pricetick contract) Double.zero = true
          /\ OrderValidityRule.beyond_tolerance (Double.req_price req)
               (Double.contract_pricetick contract) in
        let above_max :=
          exists m, Double.contract_max_volume contract = Some m
                    /\ Double.truth m = true
                    /\ Double.gtb (Double.req_volume req) m = true in
        (price_off <->
         calls answer
         = [WriteLog (PriceNotMultiple (Double.req_price req)
                        (Double.contract_pricetick contract) req)])
        /\ (forall m,
              ~ price_off ->
              Double.contract_max_volume contract = Some m ->
              Double.truth m = true ->
              Double.gtb (Double.req_volume req) m = true ->
              calls answer = [WriteLog (VolumeAboveMax (Double.req_volume req) m req)])
        /\ (~ price_off -> ~ above_max ->
            Double.ltb (Double.req_volume req) (Double.contract_min_volume contract)
            = true ->
            calls answer
            = [WriteLog (VolumeBelowMin (Double.req_volume req)
                           (Double.contract_min_volume contract) req)])).
Proof.
  cbn zeta. unfold OrderValidityRule.check_allowed, OrderValidityRule.beyond_tolerance.
  destruct (get_contract (Double.req_vt_symbol req)) as [contract|] eqn:Hc.
  - pose proof (above_max_iff (Double.req_volume req)
                  (Double.contract_max_volume contract)) as Hmax.
    assert (forall m, Double.contract_max_volume contract = Some m ->
                      default Double.zero (Double.contract_max_volume contract) = m)
      as Hdefault by (by intros m ->).
    split; [| split; [| split; [done |]]].
    + destruct (Double.gtb (Double.contract_pricetick contract) Double.zero);
        cbn zeta;
        repeat match goal with
               | |- context [if ?b then _ else _] => destruct b; cbn
               end; done.
    + destruct (Double.gtb (Double.contract_pricetick contract) Double.zero);
        cbn zeta;
        repeat match goal with
               | |- context [if ?b then _ else _] => destruct b; cbn
               end; done.
    + intros c [= <-].
      pose proof (andb_true_iff
                    (Double.gtb (Double.abs (Double.rem (Double.req_price req)
                       (Double.contract_pricetick contract))) Double.tolerance)
                    (Double.gtb (Double.abs (Double.sub (Double.rem (Double.req_price req)
                       (Double.contract_pricetick contract))
                       (Double.contract_pricetick contract))) Double.tolerance))
        as Hprice.
      destruct (Double.gtb (Double.contract_pricetick contract) Double.zero);
        cbn zeta;
        repeat match goal with
               | H : ?b = true <-> _ |- context [if ?b then _ else _] =>
                   destruct b; cbn
               end;
        destruct (Double.ltb (Double.req_volume req)
                    (Double.contract_min_volume contract)); cbn;
        split_and!;
        try (intros m ? Hm ? ?;
             assert (false = true) by (apply Hmax; eauto); discriminate);
        try (intros m ? Hm ? ?; by rewrite (Hdefault m Hm) in * );
        try (intuition (eauto; congruence)).
  - cbn. split_and!; try done.
Qed.

(** X2. [OrderSizeRule.check_allowed] leaves the rule's state alone and never
    notifies the engine; it logs nothing when it allows and one message when
    it denies. The volume is checked first: the volume message is logged
    exactly when the volume exceeds [order_volume_limit], whatever the price
    and the contract; a denial of a volume within the limit is a denial by
    value, which needs a contract and a price that is not zero. *)
Theorem order_size_checks_volume_first
    (get_contract : string -> option ContractData)
    (self : OrderSizeRule.state) (req : OrderRequest) (gateway_name : string) :
  let answer := OrderSizeRule.check_allowed get_contract req gateway_name self in
  let limit := OrderSizeRule.order_volume_limit self in
  state_of answer = self
  /\ (result answer = true <-> calls answer = [])
  /\ ((inject_Z limit < req_volume req)%Q
      <-> calls answer = [WriteLog (OrderVolumeExceeded (req_volume req) limit req)])
  /\ (result answer = false ->
      (req_volume req <= inject_Z limit)%Q ->
      (exists contract, get_contract (req_vt_symbol req) = Some contract)
      /\ ~ (req_price req == 0)%Q
      /\ exists order_value,
           calls answer
           = [WriteLog (OrderValueExceeded order_value
                          (OrderSizeRule.order_value_limit self) req)]).
Proof.
  cbn zeta. unfold OrderSizeRule.check_allowed. cbn.
  pose proof (Qgtb_true (req_volume req)
                (inject_Z (OrderSizeRule.order_volume_limit self))) as Hvol.
  pose proof (Qgtb_false (req_volume req)
                (inject_Z (OrderSizeRule.order_volume_limit self))) as Hvol'.
  destruct (Qgtb (req_volume req) _); cbn.
  - split_and!; try done.
    + split; [intros _; done | intros _; by apply Hvol].
    + intros _ Hle. apply Qle_not_lt in Hle. destruct Hle. by apply Hvol.
  - assert (~ (inject_Z (OrderSizeRule.order_volume_limit self) < req_volume req)%Q)
      as Hno by (apply Qle_not_lt; by apply Hvol').
    destruct (get_contract (req_vt_symbol req)) as [contract|]; cbn.
    + pose proof (float_truth_true (req_price req)) as Hprice.
      destruct (float_truth (req_price req)); cbn.
      * destruct (Qgtb _ (OrderSizeRule.order_value_limit self)); cbn;
          split_and!; try done; try (split; [done | intros [=]]).
        intros _ _. split_and!; [by eexists | by apply Hprice | by eexists].
      * by split_and!.
    + by split_and!.
Qed.

(** ** DuplicateOrderRule over arbitrary requests *)

Section DuplicateOrderRuns.
Import DuplicateOrderRule.
Variable float_str : Q -> string.

Lemma requests_with_cons (k : string) (req : OrderRequest) (reqs : list OrderRequest) :
  requests_with float_str k (req :: reqs)
  = ((if decide (format_req float_str req = k) then 1 else 0)
     + requests_with float_str k reqs)%nat.
Proof. unfold requests_with. rewrite filter_cons. by case_decide. Qed.

(** One more request at the head of a run. *)
Lemma check_all_cons (gateway_name : string) (req : OrderRequest)
    (reqs : list OrderRequest) (self : state) :
  let limit := duplicate_order_limit self in
  let count := count_of (format_req float_str req) (duplicate_order_count self) + 1 in
  let rest :=
    check_all float_str reqs gateway_name
      (mkState limit (<[format_req float_str req := count]> (duplicate_order_count self))) in
  check_all float_str (req :: reqs) gateway_name self
  = (negb (count >=? limit) :: result rest,
     state_of rest,
     (PutRuleEvent ::
        if count >=? limit
        then [WriteLog (DuplicateCountReached count limit req)] else [])
     ++ calls rest).
Proof.
  cbn zeta. cbn [check_all]. unfold bind at 1.
  pose proof (check_allowed_unfold float_str req gateway_name self) as Hone.
  cbn zeta in Hone. rewrite Hone. clear Hone.
  unfold bind, ret, result, state_of, calls.
  destruct (check_all _ _ _ _) as [[rest self'] calls']. cbn [fst snd].
  by rewrite app_nil_r.
Qed.

(** A run of calls in closed form. *)
Lemma check_all_unfold (gateway_name : string) (reqs : list OrderRequest) :
  forall self,
    let limit := duplicate_order_limit self in
    let count := fun (i : nat) (req : OrderRequest) =>
      count_of (format_req float_str req) (duplicate_order_count self)
      + Z.of_nat (requests_with float_str (format_req float_str req)
                    (take (S i) reqs)) in
    let run := check_all float_str reqs gateway_name self in
    result run = imap (fun i req => negb (count i req >=? limit)) reqs
    /\ calls run
       = mjoin (imap (fun i req =>
                  PutRuleEvent ::
                    if count i req >=? limit
                    then [WriteLog (DuplicateCountReached (count i req) limit req)]
                    else [])
                reqs)
    /\ duplicate_order_limit (state_of run) = limit
    /\ forall k,
         count_of k (duplicate_order_count (state_of run))
         = count_of k (duplicate_order_count self)
           + Z.of_nat (requests_with float_str k reqs).
Proof.
  induction reqs as [|req reqs IH]; intros self; cbn zeta.
  - cbn. split_and!; try done. intros k. lia.
  - pose proof (check_all_cons gateway_name req reqs self) as Hcons.
    cbn zeta in Hcons. rewrite Hcons. clear Hcons.
    set (s1 := mkState _ _).
    specialize (IH s1). cbn zeta in IH.
    unfold result, calls, state_of in *. cbn [fst snd].
    destruct IH as (Hresult & Hcalls & Hlimit & Hcounts).
    rewrite Hresult, Hcalls.
    assert (forall k,
              count_of k (duplicate_order_count s1)
              = count_of k (duplicate_order_count self)
                + Z.of_nat (if decide (format_req float_str req = k) then 1 else 0))
      as Hs1.
    { intros k. subst s1. cbn. case_decide as Hk.
      - subst k. rewrite count_of_insert. lia.
      - rewrite count_of_insert_ne by done. lia. }
    assert (forall (i : nat) (r : OrderRequest),
              count_of (format_req float_str r) (duplicate_order_count s1)
              + Z.of_nat (requests_with float_str (format_req float_str r)
                            (take (S i) reqs))
              = count_of (format_req float_str r) (duplicate_order_count self)
                + Z.of_nat (requests_with float_str (format_req float_str r)
                              (take (S (S i)) (req :: reqs)))) as Hshift.
    { intros i r. rewrite Hs1. cbn [take]. rewrite requests_with_cons. lia. }
    assert (requests_with float_str (format_req float_str req) (take 1 (req :: reqs))
            = 1%nat) as Hfirst.
    { cbn [take]. rewrite requests_with_cons. by rewrite decide_True. }
    split_and!.
    + cbn [imap]. rewrite Hfirst. f_equal.
      apply imap_ext. intros i r _. cbn. by rewrite Hshift.
    + cbn [imap mjoin list_join]. rewrite Hfirst. do 2 f_equal.
      apply imap_ext. intros i r _. cbn. by rewrite Hshift.
    + done.
    + intros k. rewrite Hcounts, Hs1, requests_with_cons. lia.
Qed.
End DuplicateOrderRuns.

(** X3. [DuplicateOrderRule] throttles each fingerprint on its own, whatever
    the requests are interleaved with. Over any list of requests and from
    any state, the call for a request is answered by the number of requests
    with its fingerprint made so far, this one included, added to the count
    the state had: true iff that number is below [duplicate_order_limit].
    Every call notifies the engine once and then logs once iff it denies;
    the run leaves the limit as it was and each count raised by the number
    of requests with that fingerprint. *)
Theorem duplicate_order_counts_per_fingerprint
    (float_str : Q -> string) (gateway_name : string)
    (reqs : list OrderRequest) (self : DuplicateOrderRule.state) :
  let limit := DuplicateOrderRule.duplicate_order_limit self in
  let count := fun (i : nat) (req : OrderRequest) =>
    count_of (DuplicateOrderRule.format_req float_str req)
      (DuplicateOrderRule.duplicate_order_count self)
    + Z.of_nat (requests_with float_str (DuplicateOrderRule.format_req float_str req)
                  (take (S i) reqs)) in
  let run := DuplicateOrderRule.check_all float_str reqs gateway_name self in
  result run = imap (fun i req => bool_decide (count i req < limit)) reqs
  /\ calls run
     = mjoin (imap (fun i req =>
                PutRuleEvent ::
                  if bool_decide (count i req < limit) then []
                  else [WriteLog (DuplicateCountReached (count i req) limit req)])
              reqs)
  /\ DuplicateOrderRule.duplicate_order_limit (state_of run) = limit
  /\ forall k,
       count_of k (DuplicateOrderRule.duplicate_order_count (state_of run))
       = count_of k (DuplicateOrderRule.duplicate_order_count self)
         + Z.of_nat (requests_with float_str k reqs).
Proof.
  cbn zeta.
  destruct (check_all_unfold float_str gateway_name reqs self) as (-> & -> & Hrest).
  split_and!; [| | apply Hrest..].
  - apply imap_ext. intros i req _. cbn.
    case_bool_decide;
      match goal with
      | |- context [?a >=? ?b] => destruct (Z.geb_spec a b)
      end; (done || lia).
  - f_equal. apply imap_ext. intros i req _. cbn.
    case_bool_decide;
      match goal with
      | |- context [?a >=? ?b] => destruct (Z.geb_spec a b)
      end; (done || lia).
Qed.

(** X4. [DuplicateOrderRule] never lowers a count: once a request has been
    denied, every later request with the same fingerprint is denied too,
    whatever requests are checked in between. *)
Theorem duplicate_order_denial_is_permanent
    (float_str : Q -> string) (gateway_name gateway_name' : string)
    (req req' : OrderRequest) (between : list OrderRequest)
    (self : DuplicateOrderRule.state) :
  result (DuplicateOrderRule.check_allowed float_str req gateway_name self) = false ->
  DuplicateOrderRule.format_req float_str req'
  = DuplicateOrderRule.format_req float_str req ->
  result
    (DuplicateOrderRule.check_all float_str (req :: between ++ [req']) gateway_name' self)
  !! S (length between)
  = Some false.
Proof.
  intros Hdenied Hsame.
  pose proof (check_all_unfold float_str gateway_name'
                (req :: between ++ [req']) self) as (-> & _).
  rewrite check_allowed_unfold in Hdenied. unfold result in Hdenied.
  cbn [fst] in Hdenied. apply negb_false_iff, Z.geb_le in Hdenied.
  pose proof (list_lookup_middle (req :: between) [] req' (S (length between)) eq_refl)
    as Hlast.
  change ((req :: between) ++ [req']) with (req :: between ++ [req']) in Hlast.
  rewrite list_lookup_imap, Hlast. cbn [fmap option_fmap option_map].
  f_equal. apply negb_false_iff, Z.geb_le.
  rewrite Hsame. cbn [take]. rewrite requests_with_cons, decide_True by done. lia.
Qed.

Lemma duplicate_order_denial_is_permanent_witness :
  result
    (DuplicateOrderRule.check_all fraction_str
       [example_req 1 4000; example_req 2 4000; example_req 1 4000] "CTP"
       (DuplicateOrderRule.mkState 1 ∅))
  !! 2%nat
  = Some false.
Proof.
  apply (duplicate_order_denial_is_permanent fraction_str "CTP" "CTP"
           (example_req 1 4000) (example_req 1 4000) [example_req 2 4000]
           (DuplicateOrderRule.mkState 1 ∅));
    reflexivity.
Defined.

(** Two fingerprints interleaved, with the limit at 2: each is allowed once. *)
Example duplicate_order_interleaved :
  result
    (DuplicateOrderRule.check_all fraction_str
       [example_req 1 4000; example_req 2 4000; example_req 1 4000;
        example_req 2 4000; example_req 3 4000] "CTP"
       (DuplicateOrderRule.mkState 2 ∅))
  = [true; true; false; false; true].
Proof. vm_compute. reflexivity. Qed.

(** ** ActiveOrderRule: the check, and what a run depends on *)

Section ActiveOrderRuns.
Import ActiveOrderRule.

Lemma latest_elem_of (i : string) (order : OrderData) (orders : list OrderData) :
  latest i orders = Some order -> order ∈ orders /\ order_vt_orderid order = i.
Proof.
  unfold latest. intros Hlast%last_Some_elem_of.
  by apply list_elem_of_filter in Hlast as [? ?].
Qed.

Lemma latest_snoc (order : OrderData) (orders : list OrderData) :
  latest (order_vt_orderid order) (orders ++ [order]) = Some order.
Proof.
  unfold latest. rewrite filter_app, filter_cons, decide_True by done.
  rewrite filter_nil. apply last_snoc.
Qed.

(** The identifiers of the mapping after a run from the initial state. *)
Lemma on_orders_dom (orders : list OrderData) :
  dom (active_orders (state_of (on_orders orders on_init))) = active_ids orders.
Proof.
  apply set_eq. intros i. rewrite elem_of_dom, on_orders_lookup.
  unfold active_ids, active_after.
  rewrite elem_of_list_to_set, list_elem_of_filter. cbn [on_init active_orders].
  rewrite lookup_empty. split.
  - intros Hsome. split; [done |].
    destruct (latest i orders) as [order|] eqn:Hlatest; [| by destruct Hsome].
    apply latest_elem_of in Hlatest as [Hin <-].
    by apply list_elem_of_fmap_2.
  - by intros [Hsome _].
Qed.

Lemma on_orders_limit (orders : list OrderData) :
  forall self,
    active_order_limit (state_of (on_orders orders self)) = active_order_limit self.
Proof.
  induction orders as [|order orders IH]; intros self; [done |].
  cbn [on_orders]. rewrite bind_state, IH. by rewrite on_order_unfold.
Qed.

(** After at least one event the state is the limit, the mapping and its
    size. *)
Lemma on_orders_state (order : OrderData) (orders : list OrderData) (self : state) :
  let self' := state_of (on_orders (order :: orders) self) in
  self' = mkState (active_order_limit self)
                  (Z.of_nat (size (active_orders self')))
                  (active_orders self').
Proof.
  cbn zeta.
  pose proof (on_orders_limit (order :: orders) self) as Hlimit.
  assert (active_order_count (state_of (on_orders (order :: orders) self))
          = Z.of_nat (size (active_orders (state_of (on_orders (order :: orders) self)))))
    as Hcount.
  { cbn [on_orders]. rewrite bind_state. apply on_orders_count.
    by rewrite on_order_unfold. }
  destruct (state_of (on_orders (order :: orders) self)). cbn in *. congruence.
Qed.
End ActiveOrderRuns.

(** X5. [ActiveOrderRule.check_allowed] compares the stored count with the
    limit and changes nothing: it leaves the state as it found it, never
    notifies the engine, and denies, logging one message, exactly when
    [active_order_count] is at least [active_order_limit]. After any run of
    order events from the initial state, whose limit is 50, the identifiers
    of the mapping are those whose last event is an active order, and a
    request is denied exactly when there are at least 50 of them. *)
Theorem active_order_check_counts_active_ids :
  (forall (self : ActiveOrderRule.state) (req : OrderRequest) (gateway_name : string),
     let answer := ActiveOrderRule.check_allowed req gateway_name self in
     let count := ActiveOrderRule.active_order_count self in
     let limit := ActiveOrderRule.active_order_limit self in
     state_of answer = self
     /\ (result answer = false <-> count >= limit)
     /\ calls answer
        = if result answer then []
          else [WriteLog (ActiveCountReached count limit req)])
  /\ (forall (orders : list OrderData) (req : OrderRequest) (gateway_name : string),
        let self := state_of (ActiveOrderRule.on_orders orders ActiveOrderRule.on_init) in
        dom (ActiveOrderRule.active_orders self) = active_ids orders
        /\ ActiveOrderRule.active_order_count self = Z.of_nat (size (active_ids orders))
        /\ (result (ActiveOrderRule.check_allowed req gateway_name self) = false
            <-> (50 <= size (active_ids orders))%nat)).
Proof.
  assert (forall (self : ActiveOrderRule.state) (req : OrderRequest) (gateway_name : string),
            result (ActiveOrderRule.check_allowed req gateway_name self) = false
            <-> ActiveOrderRule.active_order_count self
                >= ActiveOrderRule.active_order_limit self) as Hdenies.
  { intros self req gateway_name.
    unfold ActiveOrderRule.check_allowed, bind, get, result.
    cbn. destruct (Z.geb_spec (ActiveOrderRule.active_order_count self)
                     (ActiveOrderRule.active_order_limit self)); cbn; split; (done || lia). }
  split.
  - intros self req gateway_name. cbn zeta. split_and!.
    + unfold ActiveOrderRule.check_allowed, bind, get, state_of.
      cbn. by destruct (_ >=? _).
    + apply Hdenies.
    + unfold ActiveOrderRule.check_allowed, bind, get, result, calls.
      cbn. by destruct (_ >=? _).
  - intros orders req gateway_name. cbn zeta.
    assert (ActiveOrderRule.active_order_count
              (state_of (ActiveOrderRule.on_orders orders ActiveOrderRule.on_init))
            = Z.of_nat (size (active_ids orders))) as Hcount.
    { rewrite on_orders_count by done.
      by rewrite <- on_orders_dom, size_dom. }
    split_and!; [apply on_orders_dom | done |].
    rewrite Hdenies, Hcount, on_orders_limit. cbn. lia.
Qed.

(** X6. The state [ActiveOrderRule] reaches depends on the last event of
    each identifier only: two runs of order events that agree on the event
    delivered last for every identifier leave, from the same state, the
    same state. So repeating an event, reordering the events of different
    orders, or dropping an event that a later event of the same order
    follows, changes nothing. *)
Theorem active_order_latest_event_wins
    (orders orders' : list OrderData) (self : ActiveOrderRule.state) :
  (forall i, ActiveOrderRule.latest i orders = ActiveOrderRule.latest i orders') ->
  state_of (ActiveOrderRule.on_orders orders self)
  = state_of (ActiveOrderRule.on_orders orders' self).
Proof.
  intros Hlatest.
  assert (forall (l l' : list OrderData),
            (forall i, ActiveOrderRule.latest i l = ActiveOrderRule.latest i l') ->
            l = [] -> l' = []) as Hempty.
  { intros l l' Hl ->. destruct l' as [|order l'] using rev_ind; [done |].
    specialize (Hl (order_vt_orderid order)). by rewrite latest_snoc in Hl. }
  destruct orders as [|order orders].
  - by rewrite (Hempty [] orders' Hlatest eq_refl).
  - destruct orders' as [|order' orders'].
    + by pose proof (Hempty [] (order :: orders) (fun i => eq_sym (Hlatest i)) eq_refl).
    + rewrite (on_orders_state order), (on_orders_state order').
      assert (ActiveOrderRule.active_orders
                (state_of (ActiveOrderRule.on_orders (order :: orders) self))
              = ActiveOrderRule.active_orders
                  (state_of (ActiveOrderRule.on_orders (order' :: orders') self)))
        as ->; [| done].
      apply map_eq. intros i. by rewrite !on_orders_lookup, Hlatest.
Qed.

Lemma active_order_latest_event_wins_witness :
  state_of (ActiveOrderRule.on_orders
              [example_order NOTTRADED; example_order CANCELLED]
              ActiveOrderRule.on_init)
  = state_of (ActiveOrderRule.on_orders [example_order CANCELLED]
                ActiveOrderRule.on_init).
Proof.
  apply (active_order_latest_event_wins
           [example_order NOTTRADED; example_order CANCELLED]
           [example_order CANCELLED] ActiveOrderRule.on_init).
  intros i. rewrite !latest_cons. cbn. by case_decide.
Defined.

(** Events of two orders in either order of arrival. *)
Example active_order_events_commute :
  let a := example_order NOTTRADED in
  let b := mkOrderData "CTP.2" "rb2410.SHFE" SUBMITTING in
  state_of (ActiveOrderRule.on_orders [a; b] ActiveOrderRule.on_init)
  = state_of (ActiveOrderRule.on_orders [b; a] ActiveOrderRule.on_init).
Proof. vm_compute. reflexivity. Qed.

(** ** DailyLimitRule: trades, and when the engine is notified *)

(** X7. Trade events are counted once per identifier. The first event of a
    trade identifier adds one to [total_trade_count] and to the trade count
    of its symbol, leaves the trade counts of the other symbols as they
    are, and notifies the engine once; an event whose identifier is already
    recorded changes nothing and notifies nobody, even when it names another
    symbol. Either way the identifier is recorded afterwards, and the limits,
    the order and cancel counters and their identifier sets are left as they
    were. *)
Theorem daily_limit_counts_each_trade_once
    (self : DailyLimitRule.state) (trade : TradeData) :
  let after := DailyLimitRule.on_trade trade self in
  let self' := state_of after in
  let i := trade_vt_tradeid trade in
  (i ∉ DailyLimitRule.all_tradeids self ->
   DailyLimitRule.total_trade_count self' = DailyLimitRule.total_trade_count self + 1
   /\ (forall k,
         count_of k (DailyLimitRule.contract_trade_count self')
         = count_of k (DailyLimitRule.contract_trade_count self)
           + if decide (trade_vt_symbol trade = k) then 1 else 0)
   /\ calls after = [PutRuleEvent])
  /\ (i ∈ DailyLimitRule.all_tradeids self -> self' = self /\ calls after = [])
  /\ DailyLimitRule.all_tradeids self' = {[i]} ∪ DailyLimitRule.all_tradeids self
  /\ (forall again : TradeData,
        trade_vt_tradeid again = i ->
        DailyLimitRule.on_trade again self' = (tt, self', []))
  /\ same_limits self self'
  /\ DailyLimitRule.all_orderids self' = DailyLimitRule.all_orderids self
  /\ DailyLimitRule.cancel_orderids self' = DailyLimitRule.cancel_orderids self
  /\ DailyLimitRule.total_order_count self' = DailyLimitRule.total_order_count self
  /\ DailyLimitRule.total_cancel_count self' = DailyLimitRule.total_cancel_count self
  /\ DailyLimitRule.contract_order_count self' = DailyLimitRule.contract_order_count self
  /\ DailyLimitRule.contract_cancel_count self' = DailyLimitRule.contract_cancel_count self
  /\ DailyLimitRule.base_attrs self' = DailyLimitRule.base_attrs self.
Proof.
  cbn zeta.
  destruct (decide (trade_vt_tradeid trade ∈ DailyLimitRule.all_tradeids self))
    as [Hseen | Hnew].
  - rewrite on_trade_seen by done. unfold state_of, calls. cbn [fst snd].
    split_and!; try done.
    + symmetry. by apply subseteq_union_1_L, singleton_subseteq_l.
    + intros again Hsame. apply on_trade_seen. by rewrite Hsame.
  - rewrite on_trade_new by done. unfold state_of, calls. cbn [fst snd].
    split_and!; try done.
    + intros _. split_and!; try done. intros k.
      unfold DailyLimitRule.set_contract_trade_count.
      cbn [DailyLimitRule.contract_trade_count]. rewrite count_of_incr.
      case_decide; lia.
    + intros again Hsame. apply on_trade_seen. rewrite Hsame.
      apply elem_of_union_l. by apply elem_of_singleton.
Qed.

Lemma daily_limit_counts_each_trade_once_witness :
  DailyLimitRule.total_trade_count
    (state_of (DailyLimitRule.on_trade (mkTradeData "CTP.7" "rb2410.SHFE")
                 DailyLimitRule.on_init))
  = DailyLimitRule.total_trade_count DailyLimitRule.on_init + 1.
Proof.
  apply (daily_limit_counts_each_trade_once DailyLimitRule.on_init
           (mkTradeData "CTP.7" "rb2410.SHFE")).
  cbn. apply not_elem_of_empty.
Defined.

(** X8. [DailyLimitRule] notifies the engine exactly when an event changes
    it. [on_order] and [on_trade] call [put_rule_event] once when they count
    the event and make no call at all when they leave the state as it was;
    they never write a log. [on_order] leaves the limits, the trade counters
    and the trade identifiers as they were. *)
Theorem daily_limit_notifies_iff_changed :
  (forall (self : DailyLimitRule.state) (order : OrderData),
     let after := DailyLimitRule.on_order order self in
     (calls after = [] <-> state_of after = self)
     /\ (calls after = [PutRuleEvent] <-> state_of after <> self)
     /\ same_limits self (state_of after)
     /\ DailyLimitRule.all_tradeids (state_of after) = DailyLimitRule.all_tradeids self
     /\ DailyLimitRule.total_trade_count (state_of after)
        = DailyLimitRule.total_trade_count self
     /\ DailyLimitRule.contract_trade_count (state_of after)
        = DailyLimitRule.contract_trade_count self
     /\ DailyLimitRule.base_attrs (state_of after) = DailyLimitRule.base_attrs self)
  /\ (forall (self : DailyLimitRule.state) (trade : TradeData),
        let after := DailyLimitRule.on_trade trade self in
        (calls after = [] <-> state_of after = self)
        /\ (calls after = [PutRuleEvent] <-> state_of after <> self)).
Proof.
  split.
  - intros self order. cbn zeta.
    destruct (on_order_cases order self) as [H | [(H1 & H2 & H3) | (H1 & H2)]].
    + rewrite on_order_new by done. unfold state_of, calls. cbn [fst snd].
      assert (DailyLimitRule.set_contract_order_count
                (defaultdict_incr (order_vt_symbol order)
                   (DailyLimitRule.contract_order_count self))
                (DailyLimitRule.set_total_order_count
                   (DailyLimitRule.total_order_count self + 1)
                   (DailyLimitRule.set_all_orderids
                      ({[order_vt_orderid order]} ∪ DailyLimitRule.all_orderids self)
                      self))
              <> self) as Hchanged.
      { intros Heq. apply (f_equal DailyLimitRule.total_order_count) in Heq.
        cbn in Heq. lia. }
      split_and!; try done.
    + rewrite on_order_cancel by done. unfold state_of, calls. cbn [fst snd].
      assert (DailyLimitRule.set_contract_cancel_count
                (defaultdict_incr (order_vt_symbol order)
                   (DailyLimitRule.contract_cancel_count self))
                (DailyLimitRule.set_total_cancel_count
                   (DailyLimitRule.total_cancel_count self + 1)
                   (DailyLimitRule.set_cancel_orderids
                      ({[order_vt_orderid order]} ∪ DailyLimitRule.cancel_orderids self)
                      self))
              <> self) as Hchanged.
      { intros Heq. apply (f_equal DailyLimitRule.total_cancel_count) in Heq.
        cbn in Heq. lia. }
      split_and!; try done.
    + rewrite on_order_ignored by done. unfold state_of, calls. cbn [fst snd].
      split_and!; try done.
  - intros self trade. cbn zeta.
    destruct (decide (trade_vt_tradeid trade ∈ DailyLimitRule.all_tradeids self))
      as [Hseen | Hnew].
    + rewrite on_trade_seen by done. unfold state_of, calls. cbn [fst snd].
      split_and!; try done.
    + rewrite on_trade_new by done. unfold state_of, calls. cbn [fst snd].
      assert (DailyLimitRule.set_contract_trade_count
                (defaultdict_incr (trade_vt_symbol trade)
                   (DailyLimitRule.contract_trade_count self))
                (DailyLimitRule.set_total_trade_count
                   (DailyLimitRule.total_trade_count self + 1)
                   (DailyLimitRule.set_all_tradeids
                      ({[trade_vt_tradeid trade]} ∪ DailyLimitRule.all_tradeids self)
                      self))
              <> self) as Hchanged.
      { intros Heq. apply (f_equal DailyLimitRule.total_trade_count) in Heq.
        cbn in Heq. lia. }
      split_and!; try done.
Qed.

(** ** DailyLimitRule over runs of calls *)

Section SumCounts.

Lemma sum_counts_empty : sum_counts ∅ = 0.
Proof. unfold sum_counts. apply map_fold_empty. Qed.

Lemma sum_counts_insert_new (k : string) (v : Z) (d : gmap string Z) :
  d !! k = None -> sum_counts (<[k := v]> d) = v + sum_counts d.
Proof.
  intros Hk. unfold sum_counts. apply map_fold_insert_L; [intros; lia | done].
Qed.

Lemma sum_counts_insert (k : string) (v : Z) (d : gmap string Z) :
  sum_counts (<[k := v]> d) = sum_counts d - count_of k d + v.
Proof.
  unfold count_of. destruct (d !! k) as [x|] eqn:Hk; cbn.
  - rewrite <- (insert_delete_id d k x Hk) at 2. rewrite <- insert_delete_eq.
    rewrite !sum_counts_insert_new by apply lookup_delete_eq. lia.
  - rewrite sum_counts_insert_new by done. lia.
Qed.

Lemma sum_counts_incr (k : string) (d : gmap string Z) :
  sum_counts (defaultdict_incr k d) = sum_counts d + 1.
Proof. rewrite defaultdict_incr_insert, sum_counts_insert. lia. Qed.

Lemma sum_counts_touched (k : string) (d : gmap string Z) :
  sum_counts (defaultdict_touched k d) = sum_counts d.
Proof.
  destruct (defaultdict_touched_cases k d) as [-> | [Hk ->]]; [done |].
  rewrite sum_counts_insert_new by done. lia.
Qed.

(** Counts that are not negative are each at most their sum. *)
Lemma count_le_sum (d : gmap string Z) :
  (forall k, 0 <= count_of k d) ->
  0 <= sum_counts d /\ forall k, count_of k d <= sum_counts d.
Proof.
  induction d as [|i x m Hi IH] using map_ind; intros Hpos.
  - rewrite sum_counts_empty. split; [done |]. intros k. by rewrite count_of_empty.
  - assert (0 <= x) as Hx.
    { specialize (Hpos i). by rewrite count_of_insert in Hpos. }
    assert (forall k, 0 <= count_of k m) as Hm.
    { intros k. destruct (decide (i = k)) as [<- | Hne].
      - unfold count_of. by rewrite Hi.
      - specialize (Hpos k). by rewrite count_of_insert_ne in Hpos. }
    destruct (IH Hm) as [Hsum Hle]. rewrite sum_counts_insert_new by done.
    split; [lia |]. intros k. destruct (decide (i = k)) as [<- | Hne].
    + rewrite count_of_insert. lia.
    + rewrite count_of_insert_ne by done. specialize (Hle k). lia.
Qed.
End SumCounts.

Section DailyLimitRuns.
Import DailyLimitRule.
Variable as_c_int : PyVal -> exn + Z.

Lemma run_cons (c : call) (cs : list call) (self : state) :
  run as_c_int (c :: cs) self = run as_c_int cs (step as_c_int c self).
Proof. done. Qed.

Lemma order_events_cons (c : call) (cs : list call) :
  order_events (c :: cs)
  = match c with
    | OnOrder order => order :: order_events cs
    | _ => order_events cs
    end.
Proof. by destruct c. Qed.

Lemma trade_events_cons (c : call) (cs : list call) :
  trade_events (c :: cs)
  = match c with
    | OnTrade trade => trade :: trade_events cs
    | _ => trade_events cs
    end.
Proof. by destruct c. Qed.

(** What the calls other than [on_order] and [on_trade] keep. *)
Lemma step_same_records (c : call) (self : state) :
  match c with
  | OnOrder _ | OnTrade _ => True
  | _ =>
      all_orderids (step as_c_int c self) = all_orderids self
      /\ cancel_orderids (step as_c_int c self) = cancel_orderids self
      /\ all_tradeids (step as_c_int c self) = all_tradeids self
      /\ total_order_count (step as_c_int c self) = total_order_count self
      /\ total_cancel_count (step as_c_int c self) = total_cancel_count self
      /\ total_trade_count (step as_c_int c self) = total_trade_count self
      /\ (forall k, count_of k (contract_order_count (step as_c_int c self))
                    = count_of k (contract_order_count self))
      /\ (forall k, count_of k (contract_cancel_count (step as_c_int c self))
                    = count_of k (contract_cancel_count self))
      /\ (forall k, count_of k (contract_trade_count (step as_c_int c self))
                    = count_of k (contract_trade_count self))
  end.
Proof.
  destruct c as [order | trade | | | req gateway_name | rule_setting];
    cbn [step]; try done.
  - pose proof (touched_only_same_counts _ _ _
                  (check_allowed_touched req gateway_name self)) as Hsame.
    unfold same_counts in Hsame. tauto.
  - pose proof (update_setting_records as_c_int rule_setting self) as Hsame.
    unfold same_records in Hsame.
    destruct Hsame as (-> & -> & -> & -> & -> & -> & -> & -> & ->). done.
Qed.

(** The order identifiers a step records. *)
Lemma step_all_orderids (c : call) (self : state) :
  all_orderids (step as_c_int c self)
  = match c with
    | OnOrder order => {[order_vt_orderid order]} ∪ all_orderids self
    | _ => all_orderids self
    end.
Proof.
  pose proof (step_same_records c self) as Hsame.
  destruct c as [order | trade | | | req gateway_name | rule_setting];
    try (by destruct Hsame as (-> & _)); cbn [step].
  - destruct (on_order_cases order self) as [H | [(H1 & H2 & H3) | (H1 & H2)]].
    + by rewrite on_order_new by done.
    + rewrite on_order_cancel by done. cbn.
      symmetry. by apply subseteq_union_1_L, singleton_subseteq_l.
    + rewrite on_order_ignored by done. cbn.
      symmetry. by apply subseteq_union_1_L, singleton_subseteq_l.
  - destruct (decide (trade_vt_tradeid trade ∈ all_tradeids self)).
    + by rewrite on_trade_seen by done.
    + by rewrite on_trade_new by done.
Qed.

(** The trade identifiers a step records. *)
Lemma step_all_tradeids (c : call) (self : state) :
  all_tradeids (step as_c_int c self)
  = match c with
    | OnTrade trade => {[trade_vt_tradeid trade]} ∪ all_tradeids self
    | _ => all_tradeids self
    end.
Proof.
  pose proof (step_same_records c self) as Hsame.
  destruct c as [order | trade | | | req gateway_name | rule_setting];
    try (by destruct Hsame as (_ & _ & -> & _)); cbn [step].
  - destruct (on_order_cases order self) as [H | [(H1 & H2 & H3) | (H1 & H2)]].
    + by rewrite on_order_new by done.
    + by rewrite on_order_cancel by done.
    + by rewrite on_order_ignored by done.
  - destruct (decide (trade_vt_tradeid trade ∈ all_tradeids self)).
    + rewrite on_trade_seen by done. cbn.
      symmetry. by apply subseteq_union_1_L, singleton_subseteq_l.
    + by rewrite on_trade_new by done.
Qed.

(** The identifiers a step counts as cancelled. *)
Lemma step_cancel_orderids (c : call) (self : state) (i : string) :
  i ∈ cancel_orderids (step as_c_int c self)
  <-> i ∈ cancel_orderids self
      \/ match c with
         | OnOrder order =>
             order_vt_orderid order = i
             /\ order_status order = CANCELLED
             /\ i ∈ all_orderids self
         | _ => False
         end.
Proof.
  pose proof (step_same_records c self) as Hsame.
  destruct c as [order | trade | | | req gateway_name | rule_setting];
    try (destruct Hsame as (_ & -> & _); tauto); cbn [step].
  - destruct (on_order_cases order self) as [H | [(H1 & H2 & H3) | (H1 & H2)]].
    + rewrite on_order_new by done. cbn. split; [tauto |].
      intros [? | (<- & _ & ?)]; done.
    + rewrite on_order_cancel by done. cbn.
      rewrite elem_of_union, elem_of_singleton. split.
      * intros [-> | ?]; [by right | by left].
      * intros [? | (<- & _ & ?)]; [by right | by left].
    + rewrite on_order_ignored by done. cbn. split; [tauto |].
      intros [? | (<- & Hstatus & ?)]; [done |]. by destruct H2.
  - destruct (decide (trade_vt_tradeid trade ∈ all_tradeids self)).
    + rewrite on_trade_seen by done. cbn. tauto.
    + rewrite on_trade_new by done. cbn. tauto.
Qed.

Lemma run_all_orderids (cs : list call) :
  forall self,
    all_orderids (run as_c_int cs self)
    = list_to_set (order_vt_orderid <$> order_events cs) ∪ all_orderids self.
Proof.
  induction cs as [|c cs IH]; intros self.
  - cbn. by rewrite union_empty_l_L.
  - rewrite run_cons, IH, step_all_orderids, order_events_cons.
    destruct c; try done.
    rewrite fmap_cons, list_to_set_cons, !(assoc_L (∪)). f_equal.
    apply (comm_L (∪)).
Qed.

Lemma run_all_tradeids (cs : list call) :
  forall self,
    all_tradeids (run as_c_int cs self)
    = list_to_set (trade_vt_tradeid <$> trade_events cs) ∪ all_tradeids self.
Proof.
  induction cs as [|c cs IH]; intros self.
  - cbn. by rewrite union_empty_l_L.
  - rewrite run_cons, IH, step_all_tradeids, trade_events_cons.
    destruct c; try done.
    rewrite fmap_cons, list_to_set_cons, !(assoc_L (∪)). f_equal.
    apply (comm_L (∪)).
Qed.

Lemma run_cancel_orderids (cs : list call) :
  forall (self : state) (i : string),
    i ∈ cancel_orderids (run as_c_int cs self)
    <-> i ∈ cancel_orderids self
        \/ exists before order after,
             order_events cs = before ++ order :: after
             /\ order_vt_orderid order = i
             /\ order_status order = CANCELLED
             /\ (i ∈ order_vt_orderid <$> before \/ i ∈ all_orderids self).
Proof.
  induction cs as [|c cs IH]; intros self i.
  - cbn. split; [tauto |].
    intros [? | (before & order & after & Hsplit & _)]; [done |].
    by destruct before.
  - rewrite run_cons, IH, step_cancel_orderids, step_all_orderids, order_events_cons.
    destruct c as [o | trade | | | req gateway_name | rule_setting]; try tauto.
    split.
    + intros [[Hi | (<- & Hstatus & Hseen)]
             | (before & order & after & Hsplit & Hid & Hstatus & Hseen)].
      * by left.
      * right. exists [], o, (order_events cs). split_and!; try done. by right.
      * right. exists (o :: before), order, after. rewrite Hsplit.
        split_and!; try done. rewrite fmap_cons, elem_of_cons.
        destruct Hseen as [? | [?%elem_of_singleton | ?]%elem_of_union]; auto.
    + intros [Hi | (before & order & after & Hsplit & Hid & Hstatus & Hseen)];
        [by left; left |].
      destruct before as [|o' before]; cbn in Hsplit.
      * injection Hsplit as -> <-. left. right. split_and!; try done.
        destruct Hseen as [Hin | ?]; [| done]. by apply elem_of_nil in Hin.
      * injection Hsplit as -> Hsplit. right.
        exists before, order, after. split_and!; try done.
        rewrite fmap_cons, elem_of_cons in Hseen.
        rewrite elem_of_union, elem_of_singleton. tauto.
Qed.

(** The constructor leaves no identifier and no count. *)
Lemma init_records (setting : gmap string PyVal) :
  same_records on_init (init as_c_int setting).1.
Proof. apply update_setting_records. Qed.

Lemma init_bounded (setting : gmap string PyVal) :
  bounded 0 (init as_c_int setting).1.
Proof.
  pose proof (init_records setting) as Hsame.
  unfold same_records, bounded.
  destruct Hsame as (_ & _ & _ & -> & -> & -> & -> & -> & ->). cbn.
  split_and!; try lia; intros k; rewrite count_of_empty; lia.
Qed.

(** The totals are the sums of the per-symbol counts. *)
Lemma totals_are_sums_on_init : totals_are_sums on_init.
Proof. unfold totals_are_sums. cbn. by rewrite sum_counts_empty. Qed.

Lemma step_totals_are_sums (c : call) (self : state) :
  totals_are_sums self -> totals_are_sums (step as_c_int c self).
Proof.
  intros (Ho & Hc & Ht). unfold totals_are_sums.
  destruct c as [order | trade | | | req gateway_name | rule_setting]; cbn [step].
  - destruct (on_order_cases order self) as [H | [(H1 & H2 & H3) | (H1 & H2)]].
    + rewrite on_order_new by done. cbn. rewrite sum_counts_incr. split_and!; (done || lia).
    + rewrite on_order_cancel by done. cbn. rewrite sum_counts_incr.
      split_and!; (done || lia).
    + by rewrite on_order_ignored by done.
  - destruct (decide (trade_vt_tradeid trade ∈ all_tradeids self)).
    + by rewrite on_trade_seen by done.
    + rewrite on_trade_new by done. cbn. rewrite sum_counts_incr.
      split_and!; (done || lia).
  - done.
  - done.
  - destruct (check_allowed_touched req gateway_name self)
      as (d1 & d2 & d3 & -> & H1 & H2 & H3).
    cbn. rewrite Ho, Hc, Ht.
    destruct H1 as [-> | ->], H2 as [-> | ->], H3 as [-> | ->];
      by rewrite ?sum_counts_touched.
  - pose proof (update_setting_records as_c_int rule_setting self) as Hsame.
    unfold same_records in Hsame.
    by destruct Hsame as (_ & _ & _ & -> & -> & -> & -> & -> & ->).
Qed.

Lemma run_totals_are_sums (cs : list call) :
  forall self, totals_are_sums self -> totals_are_sums (run as_c_int cs self).
Proof.
  induction cs as [|c cs IH]; intros self Hself; [done |].
  rewrite run_cons. by apply IH, step_totals_are_sums.
Qed.

(** No call lowers a counter or forgets an identifier. *)
Lemma counts_grown_refl (self : state) : counts_grown self self.
Proof. unfold counts_grown. split_and!; done. Qed.

Lemma counts_grown_trans (s1 s2 s3 : state) :
  counts_grown s1 s2 -> counts_grown s2 s3 -> counts_grown s1 s3.
Proof.
  unfold counts_grown.
  intros (A1 & A2 & A3 & A4 & A5 & A6 & A7 & A8 & A9)
         (B1 & B2 & B3 & B4 & B5 & B6 & B7 & B8 & B9).
  split_and!; try lia; try (by etrans);
    intros k; [specialize (A4 k); specialize (B4 k)
              | specialize (A5 k); specialize (B5 k)
              | specialize (A6 k); specialize (B6 k)]; lia.
Qed.

Lemma step_counts_grown (c : call) (self : state) :
  counts_grown self (step as_c_int c self).
Proof.
  pose proof (step_same_records c self) as Hsame.
  destruct c as [order | trade | | | req gateway_name | rule_setting];
    try (unfold counts_grown;
         destruct Hsame as (-> & -> & -> & -> & -> & -> & Ho & Hc & Ht);
         split_and!; try done; intros k; rewrite ?Ho, ?Hc, ?Ht; done);
    cbn [step]; unfold counts_grown.
  - destruct (on_order_cases order self) as [H | [(H1 & H2 & H3) | (H1 & H2)]].
    + rewrite on_order_new by done. cbn.
      split_and!; try done; try lia; [| apply union_subseteq_r].
      intros k. rewrite count_of_incr. case_decide; lia.
    + rewrite on_order_cancel by done. cbn.
      split_and!; try done; try lia; [| apply union_subseteq_r].
      intros k. rewrite count_of_incr. case_decide; lia.
    + rewrite on_order_ignored by done. cbn. split_and!; done.
  - destruct (decide (trade_vt_tradeid trade ∈ all_tradeids self)).
    + rewrite on_trade_seen by done. cbn. split_and!; done.
    + rewrite on_trade_new by done. cbn.
      split_and!; try done; try lia; [| apply union_subseteq_r].
      intros k. rewrite count_of_incr. case_decide; lia.
Qed.

Lemma run_counts_grown (cs : list call) :
  forall self, counts_grown self (run as_c_int cs self).
Proof.
  induction cs as [|c cs IH]; intros self; [apply counts_grown_refl |].
  rewrite run_cons. eapply counts_grown_trans; [apply step_counts_grown | apply IH].
Qed.

(** Only [update_setting] changes a limit. *)
Lemma step_same_limits (c : call) (self : state) :
  is_update_setting c = false -> same_limits self (step as_c_int c self).
Proof.
  intros Hc. unfold same_limits.
  destruct c as [order | trade | | | req gateway_name | rule_setting];
    try done; cbn [step].
  - destruct (on_order_cases order self) as [H | [(H1 & H2 & H3) | (H1 & H2)]].
    + by rewrite on_order_new by done.
    + by rewrite on_order_cancel by done.
    + by rewrite on_order_ignored by done.
  - destruct (decide (trade_vt_tradeid trade ∈ all_tradeids self)).
    + by rewrite on_trade_seen by done.
    + by rewrite on_trade_new by done.
  - pose proof (touched_only_same_counts _ _ _
                  (check_allowed_touched req gateway_name self)) as Hsame.
    unfold same_counts in Hsame. tauto.
Qed.

Lemma run_same_limits (cs : list call) :
  forall self,
    forallb (fun c => negb (is_update_setting c)) cs = true ->
    same_limits self (run as_c_int cs self).
Proof.
  induction cs as [|c cs IH]; intros self Hcs; [done |].
  cbn [forallb] in Hcs. apply andb_true_iff in Hcs as [Hc Hcs].
  apply negb_true_iff in Hc. rewrite run_cons.
  pose proof (step_same_limits c self Hc) as H1.
  pose proof (IH (step as_c_int c self) Hcs) as H2.
  unfold same_limits in *. intuition congruence.
Qed.

(** When [check_allowed] answers true. *)
Lemma check_allowed_true_iff (req : OrderRequest) (gateway_name : string) (self : state) :
  result (check_allowed req gateway_name self) = true
  <-> count_of (req_vt_symbol req) (contract_order_count self) < contract_order_limit self
      /\ count_of (req_vt_symbol req) (contract_cancel_count self)
         < contract_cancel_limit self
      /\ count_of (req_vt_symbol req) (contract_trade_count self)
         < contract_trade_limit self
      /\ total_order_count self < total_order_limit self
      /\ total_cancel_count self < total_cancel_limit self
      /\ total_trade_count self < total_trade_limit self.
Proof.
  destruct self. unfold result, check_allowed, bind, getitem, get.
  repeat first
    [ rewrite defaultdict_getitem_eq
    | progress cbn -[defaultdict_touched count_of]
    | match goal with
      | |- context [if ?a >=? ?b then _ else _] => destruct (Z.geb_spec a b)
      end ];
    split; intros; try done; lia.
Qed.
Lemma defaultdict_touched_twice (k : string) (d : gmap string Z) :
  defaultdict_touched k (defaultdict_touched k d) = defaultdict_touched k d.
Proof.
  unfold defaultdict_touched, defaultdict_getitem.
  destruct (d !! k) as [v|] eqn:Hk; cbn; [by rewrite Hk |].
  by rewrite lookup_insert_eq.
Qed.
End DailyLimitRuns.

(** X9. What [DailyLimitRule] has counted after a run, in terms of the
    events delivered. After the constructor and any sequence of calls,
    [all_orderids] is the set of the identifiers of the order events
    delivered and [all_tradeids] that of the trade events; an identifier is
    in [cancel_orderids] exactly when one of its CANCELLED events was not
    its first event. So [total_order_count] and [total_trade_count] are the
    numbers of distinct identifiers delivered, whatever the events carried
    and however often they were repeated, and [total_cancel_count] is at
    most [total_order_count]. *)
Theorem daily_limit_counts_distinct_identifiers
    (as_c_int : PyVal -> exn + Z) (setting : gmap string PyVal)
    (cs : list DailyLimitRule.call) :
  let self := DailyLimitRule.run as_c_int cs (DailyLimitRule.init as_c_int setting).1 in
  let order_ids : gset string := list_to_set (order_vt_orderid <$> order_events cs) in
  let trade_ids : gset string := list_to_set (trade_vt_tradeid <$> trade_events cs) in
  DailyLimitRule.all_orderids self = order_ids
  /\ DailyLimitRule.all_tradeids self = trade_ids
  /\ (forall i, i ∈ DailyLimitRule.cancel_orderids self
                <-> cancelled_after_seen i (order_events cs))
  /\ DailyLimitRule.total_order_count self = Z.of_nat (size order_ids)
  /\ DailyLimitRule.total_trade_count self = Z.of_nat (size trade_ids)
  /\ 0 <= DailyLimitRule.total_cancel_count self <= DailyLimitRule.total_order_count self.
Proof.
  cbn zeta.
  pose proof (init_records as_c_int setting) as Hinit.
  unfold DailyLimitRule.same_records in Hinit.
  destruct Hinit as (Hio & Hic & Hit & _).
  assert (DailyLimitRule.consistent
            (DailyLimitRule.run as_c_int cs (DailyLimitRule.init as_c_int setting).1))
    as (Ho & Hc & Ht & Hsub).
  { apply run_consistent. eapply same_records_consistent;
      [apply update_setting_records | apply consistent_on_init]. }
  assert (DailyLimitRule.all_orderids
            (DailyLimitRule.run as_c_int cs (DailyLimitRule.init as_c_int setting).1)
          = list_to_set (order_vt_orderid <$> order_events cs)) as Horders.
  { rewrite run_all_orderids, Hio. cbn. by rewrite union_empty_r_L. }
  assert (DailyLimitRule.all_tradeids
            (DailyLimitRule.run as_c_int cs (DailyLimitRule.init as_c_int setting).1)
          = list_to_set (trade_vt_tradeid <$> trade_events cs)) as Htrades.
  { rewrite run_all_tradeids, Hit. cbn. by rewrite union_empty_r_L. }
  split_and!.
  - done.
  - done.
  - intros i. rewrite run_cancel_orderids, Hic, Hio. cbn.
    unfold cancelled_after_seen. split.
    + intros [Hi | (before & order & after & Hsplit & Hid & Hstatus & [Hseen | Hseen])].
      * by apply elem_of_empty in Hi.
      * by exists before, order, after.
      * by apply elem_of_empty in Hseen.
    + intros (before & order & after & Hsplit & Hid & Hstatus & Hseen).
      right. exists before, order, after. auto.
  - by rewrite Ho, Horders.
  - by rewrite Ht, Htrades.
  - rewrite Hc. lia.
  - rewrite Hc, Ho. apply subseteq_size in Hsub. lia.
Qed.

(** An order event delivered three times, a cancel of an order never seen
    and a cancel of a known order: three identifiers, one cancel. *)
Example daily_limit_distinct_identifiers :
  let a := example_order NOTTRADED in
  let cancel_a := example_order CANCELLED in
  let cancel_b := mkOrderData "CTP.2" "rb2410.SHFE" CANCELLED in
  let c := mkOrderData "CTP.3" "hc2410.SHFE" SUBMITTING in
  let self :=
    DailyLimitRule.run DailyLimitRule.c_int_of_pyval
      [DailyLimitRule.OnOrder a; DailyLimitRule.OnOrder a; DailyLimitRule.OnOrder cancel_b;
       DailyLimitRule.OnOrder c; DailyLimitRule.OnOrder a; DailyLimitRule.OnOrder cancel_a]
      (DailyLimitRule.init DailyLimitRule.c_int_of_pyval ∅).1 in
  DailyLimitRule.total_order_count self = 3
  /\ DailyLimitRule.total_cancel_count self = 1
  /\ count_of "rb2410.SHFE" (DailyLimitRule.contract_order_count self) = 2
  /\ count_of "hc2410.SHFE" (DailyLimitRule.contract_order_count self) = 1
  /\ count_of "rb2410.SHFE" (DailyLimitRule.contract_cancel_count self) = 1.
Proof. vm_compute. repeat split. Qed.

(** X10. The totals of [DailyLimitRule] are the sums of its per-symbol
    counts. After the constructor and any sequence of calls each of the
    three totals is the sum of the counts of its per-symbol dictionary, the
    entries that a read of [check_allowed] inserted counting 0; so no count
    of a symbol is negative or above its total. *)
Theorem daily_limit_totals_are_sums
    (as_c_int : PyVal -> exn + Z) (setting : gmap string PyVal)
    (cs : list DailyLimitRule.call) :
  let self := DailyLimitRule.run as_c_int cs (DailyLimitRule.init as_c_int setting).1 in
  totals_are_sums self
  /\ (forall k, 0 <= count_of k (DailyLimitRule.contract_order_count self)
                <= DailyLimitRule.total_order_count self)
  /\ (forall k, 0 <= count_of k (DailyLimitRule.contract_cancel_count self)
                <= DailyLimitRule.total_cancel_count self)
  /\ (forall k, 0 <= count_of k (DailyLimitRule.contract_trade_count self)
                <= DailyLimitRule.total_trade_count self).
Proof.
  cbn zeta.
  assert (totals_are_sums
            (DailyLimitRule.run as_c_int cs (DailyLimitRule.init as_c_int setting).1))
    as Hsums.
  { apply run_totals_are_sums.
    pose proof (init_records as_c_int setting) as Hinit.
    pose proof totals_are_sums_on_init as Hzero.
    unfold DailyLimitRule.same_records in Hinit. unfold totals_are_sums in *.
    by destruct Hinit as (_ & _ & _ & -> & -> & -> & -> & -> & ->). }
  pose proof (daily_run_bounded as_c_int cs 0 _ (init_bounded as_c_int setting))
    as (_ & _ & _ & Ho & Hc & Ht).
  split; [done |]. destruct Hsums as (-> & -> & ->).
  split_and!; intros k.
  - split; [apply Ho |]. apply count_le_sum. intros k'. apply Ho.
  - split; [apply Hc |]. apply count_le_sum. intros k'. apply Hc.
  - split; [apply Ht |]. apply count_le_sum. intros k'. apply Ht.
Qed.

(** X11. [DailyLimitRule] never resets. No call lowers a counter or drops an
    identifier: the rule overrides neither [on_timer] nor [on_tick], and
    nothing in it clears what a day has counted. So, as long as
    [update_setting] is not called, the limits stay as they are and a
    request that has been denied is denied again after any sequence of
    order events, trade events, ticks, timer events and checks. *)
Theorem daily_limit_never_resets (as_c_int : PyVal -> exn + Z) :
  (forall (cs : list DailyLimitRule.call) (self : DailyLimitRule.state),
     counts_grown self (DailyLimitRule.run as_c_int cs self))
  /\ (forall (cs : list DailyLimitRule.call) (self : DailyLimitRule.state)
             (req : OrderRequest) (gateway_name gateway_name' : string),
        forallb (fun c => negb (is_update_setting c)) cs = true ->
        same_limits self (DailyLimitRule.run as_c_int cs self)
        /\ (result (DailyLimitRule.check_allowed req gateway_name self) = false ->
            result (DailyLimitRule.check_allowed req gateway_name'
                      (DailyLimitRule.run as_c_int cs self))
            = false)).
Proof.
  split; [apply run_counts_grown |].
  intros cs self req gateway_name gateway_name' Hcs.
  pose proof (run_same_limits as_c_int cs self Hcs) as Hlimits.
  split; [done |].
  pose proof (run_counts_grown as_c_int cs self) as Hgrown.
  rewrite <- !not_true_iff_false, !check_allowed_true_iff.
  unfold same_limits in Hlimits. unfold counts_grown in Hgrown.
  destruct Hlimits as (-> & -> & -> & -> & -> & ->).
  destruct Hgrown as (G1 & G2 & G3 & G4 & G5 & G6 & _).
  specialize (G4 (req_vt_symbol req)). specialize (G5 (req_vt_symbol req)).
  specialize (G6 (req_vt_symbol req)).
  intros Hdenied Hallowed. apply Hdenied. lia.
Qed.

Lemma daily_limit_never_resets_witness :
  let self := DailyLimitRule.set_total_order_limit 0 DailyLimitRule.on_init in
  result
    (DailyLimitRule.check_allowed (example_req 1 4000) "CTP"
       (DailyLimitRule.run DailyLimitRule.c_int_of_pyval
          [DailyLimitRule.OnTimer; DailyLimitRule.OnOrder (example_order NOTTRADED);
           DailyLimitRule.OnTick]
          self))
  = false.
Proof.
  apply (proj2 (daily_limit_never_resets DailyLimitRule.c_int_of_pyval)
           [DailyLimitRule.OnTimer; DailyLimitRule.OnOrder (example_order NOTTRADED);
            DailyLimitRule.OnTick]
           (DailyLimitRule.set_total_order_limit 0 DailyLimitRule.on_init)
           (example_req 1 4000) "CTP" "CTP");
    reflexivity.
Defined.

(** X12. Asking [DailyLimitRule.check_allowed] twice is asking once: a
    second call with the same request gives the answer and the log of the
    first and leaves the state the first call left, so that the entries a
    first read inserts into the per-symbol dictionaries are the only trace
    of any number of checks. *)
Theorem daily_limit_check_allowed_idempotent
    (req : OrderRequest) (gateway_name gateway_name' : string)
    (self : DailyLimitRule.state) :
  let first := DailyLimitRule.check_allowed req gateway_name self in
  let second := DailyLimitRule.check_allowed req gateway_name' (state_of first) in
  result second = result first
  /\ calls second = calls first
  /\ state_of second = state_of first.
Proof.
  cbn zeta. rewrite (check_allowed_closed req gateway_name self).
  destruct self. cbn -[defaultdict_touched count_of].
  repeat match goal with
         | |- context [if ?a >=? ?b then _ else _] => destruct (a >=? b) eqn:?
         end;
    unfold result, calls, state_of; cbn [fst snd];
    rewrite check_allowed_closed; cbn -[defaultdict_touched count_of];
    rewrite ?count_of_touched, ?defaultdict_touched_twice;
    repeat match goal with
           | H : (?a >=? ?b) = _ |- context [?a >=? ?b] => rewrite H
           end;
    done.
Qed.

(** X13. [DailyLimitRule] does not look at its own [active] attribute.
    Whatever the attributes of the base class hold, [check_allowed] gives
    the same answer and the same log, and [on_order] and [on_trade] count
    the same events and notify the engine alike: a rule that has been
    switched off keeps counting and keeps denying, and it is for the caller
    to skip it. *)
Theorem daily_limit_ignores_active
    (attrs : gmap string PyVal) (self : DailyLimitRule.state) :
  let self' := DailyLimitRule.set_base_attrs attrs self in
  (forall (req : OrderRequest) (gateway_name : string),
     let answer := DailyLimitRule.check_allowed req gateway_name self in
     DailyLimitRule.check_allowed req gateway_name self'
     = (result answer, DailyLimitRule.set_base_attrs attrs (state_of answer),
        calls answer))
  /\ (forall order : OrderData,
        let after := DailyLimitRule.on_order order self in
        DailyLimitRule.on_order order self'
        = (tt, DailyLimitRule.set_base_attrs attrs (state_of after), calls after))
  /\ (forall trade : TradeData,
        let after := DailyLimitRule.on_trade trade self in
        DailyLimitRule.on_trade trade self'
        = (tt, DailyLimitRule.set_base_attrs attrs (state_of after), calls after)).
Proof.
  cbn zeta. split_and!.
  - intros req gateway_name. rewrite !check_allowed_closed.
    destruct self. cbn -[defaultdict_touched count_of].
    repeat match goal with
           | |- context [if ?a >=? ?b then _ else _] => destruct (a >=? b)
           end;
      reflexivity.
  - intros order.
    destruct (on_order_cases order self) as [H | [(H1 & H2 & H3) | (H1 & H2)]].
    + by rewrite !on_order_new by done.
    + by rewrite !on_order_cancel by done.
    + by rewrite !on_order_ignored by done.
  - intros trade.
    destruct (decide (trade_vt_tradeid trade ∈ DailyLimitRule.all_tradeids self)).
    + by rewrite !on_trade_seen by done.
    + by rewrite !on_trade_new by done.
Qed.

(** ** RuleTemplate: the constructor and the snapshot *)

Section DictKeys.
Context {A : Type}.

Lemma dict_keys_set (k : string) (v : A) (d : dict A) :
  dict_keys (dict_set k v d)
  = if decide (k ∈ dict_keys d) then dict_keys d else dict_keys d ++ [k].
Proof.
  unfold dict_keys. induction d as [|[k' v'] d IH]; cbn.
  - rewrite decide_False; [done | apply not_elem_of_nil].
  - destruct (String.eqb_spec k k') as [-> | Hne]; cbn.
    + rewrite decide_True; [done | left].
    + rewrite IH. destruct (decide (k ∈ d.*1)) as [Hin | Hout].
      * rewrite decide_True; [done | by right].
      * rewrite decide_False; [done |].
        intros [? | ?]%elem_of_cons; done.
Qed.

(** A key that is new goes to the end. *)
Lemma dict_set_new (k : string) (v : A) (d : dict A) :
  k ∉ dict_keys d -> dict_set k v d = d ++ [(k, v)].
Proof.
  unfold dict_keys. induction d as [|[k' v'] d IH]; cbn; [done |].
  intros Hout. apply not_elem_of_cons in Hout as [Hne Hout].
  destruct (String.eqb_spec k k') as [-> | _]; [done |]. by rewrite IH.
Qed.

Lemma dict_update_cons (d : dict A) (k : string) (v : A) (other : dict A) :
  dict_update d ((k, v) :: other) = dict_update (dict_set k v d) other.
Proof. done. Qed.

(** [d.update(other)] keeps the keys of [d] where they are and puts the new
    keys of [other] behind them. *)
Lemma dict_keys_update (other : dict A) :
  forall d : dict A,
    (exists added, dict_keys (dict_update d other) = dict_keys d ++ added)
    /\ (forall k, k ∈ dict_keys (dict_update d other)
                  <-> k ∈ dict_keys d \/ k ∈ dict_keys other)
    /\ (NoDup (dict_keys d) -> NoDup (dict_keys (dict_update d other))).
Proof.
  induction other as [|[k v] other IH]; intros d.
  - cbn. split_and!; [exists []; by rewrite app_nil_r | | done].
    intros k. rewrite elem_of_nil. tauto.
  - rewrite dict_update_cons. destruct (IH (dict_set k v d)) as ([added Hkeys] & Hin & Hnodup).
    rewrite dict_keys_set in Hkeys, Hin, Hnodup.
    destruct (decide (k ∈ dict_keys d)) as [Hk | Hk].
    + split_and!; [by exists added | | done].
      intros k'. rewrite Hin. cbn. rewrite elem_of_cons.
      split; [tauto |]. intros [? | [-> | ?]]; auto.
    + split_and!.
      * exists (k :: added). rewrite Hkeys. by rewrite <- app_assoc.
      * intros k'. rewrite Hin, elem_of_app, list_elem_of_singleton. cbn.
        rewrite elem_of_cons. tauto.
      * intros Hd. apply Hnodup. apply NoDup_app. split_and!; [done | | apply NoDup_singleton].
        intros x Hx ->%list_elem_of_singleton. done.
Qed.
End DictKeys.

Section CollectOrder.
Import RuleTemplate.
Context {S V : Type}.
Variable getattr : S -> string -> option V.
Variable py_None : V.

(** Over names that are distinct the loop of [get_data] lists the names in
    their order, each with its attribute. *)
Lemma collect_NoDup (self : S) (names : list string) :
  NoDup names ->
  collect getattr py_None self names
  = (fun attr => (attr, default py_None (getattr self attr))) <$> names.
Proof.
  unfold collect. intros Hnames.
  assert (forall acc : dict V,
            (forall k, k ∈ names -> k ∉ dict_keys acc) ->
            fold_left
              (fun data attr => dict_set attr (default py_None (getattr self attr)) data)
              names acc
            = acc ++ ((fun attr => (attr, default py_None (getattr self attr))) <$> names))
    as Hfold.
  { induction Hnames as [|n names Hn Hnames IH]; intros acc Hfresh; cbn.
    - by rewrite app_nil_r.
    - rewrite dict_set_new by (apply Hfresh; left).
      rewrite IH; [by rewrite <- app_assoc |].
      intros k Hk. unfold dict_keys. rewrite fmap_app, elem_of_app. cbn.
      rewrite list_elem_of_singleton. intros [Hin | ->]; [| done].
      by apply (Hfresh k); [right |]. }
  apply (Hfold []). intros k _. apply not_elem_of_nil.
Qed.
End CollectOrder.

(** X14. The snapshot of [get_data]. It never raises: it lists the declared
    parameters and the declared variables in their order, each with the
    value of the attribute of that name, or [None] when the rule has no
    such attribute, together with the rule's name and the name of its
    class. For [DailyLimitRule] the snapshot is the state itself: [active]
    and the six limits, then the three totals and the three per-symbol
    dictionaries as they are, entries inserted by reads included. *)
Theorem get_data_lists_declared_names :
  (forall (V : Type) (py_None : V) (self : RuleTemplate.rule V),
     NoDup (dict_keys (RuleTemplate.parameters self)) ->
     NoDup (dict_keys (RuleTemplate.variables self)) ->
     let entry := fun attr => (attr, default py_None (RuleTemplate.attrs self !! attr)) in
     RuleTemplate.get_data py_None self
     = RuleTemplate.mkRuleData (RuleTemplate.name self) (RuleTemplate.class_name self)
         (entry <$> dict_keys (RuleTemplate.parameters self))
         (entry <$> dict_keys (RuleTemplate.variables self)))
  /\ (forall self : DailyLimitRule.state,
        DailyLimitRule.get_data self
        = RuleTemplate.mkRuleData "Daily Limit Check" "DailyLimitRule"
            [("active", default PyNone (DailyLimitRule.base_attrs self !! "active"));
             ("total_order_limit", PyInt (DailyLimitRule.total_order_limit self));
             ("total_cancel_limit", PyInt (DailyLimitRule.total_cancel_limit self));
             ("total_trade_limit", PyInt (DailyLimitRule.total_trade_limit self));
             ("contract_order_limit", PyInt (DailyLimitRule.contract_order_limit self));
             ("contract_cancel_limit", PyInt (DailyLimitRule.contract_cancel_limit self));
             ("contract_trade_limit", PyInt (DailyLimitRule.contract_trade_limit self))]
            [("total_order_count", PyInt (DailyLimitRule.total_order_count self));
             ("total_cancel_count", PyInt (DailyLimitRule.total_cancel_count self));
             ("total_trade_count", PyInt (DailyLimitRule.total_trade_count self));
             ("contract_order_count", PyCounts (DailyLimitRule.contract_order_count self));
             ("contract_cancel_count", PyCounts (DailyLimitRule.contract_cancel_count self));
             ("contract_trade_count", PyCounts (DailyLimitRule.contract_trade_count self))]).
Proof.
  split.
  - intros V py_None self Hparameters Hvariables. cbn zeta.
    unfold RuleTemplate.get_data. by rewrite !collect_NoDup.
  - intros self. reflexivity.
Qed.

Lemma get_data_lists_declared_names_witness :
  RuleTemplate.get_data PyNone example_rule
  = RuleTemplate.mkRuleData "Example" "ExampleRule"
      [("active", PyBool true); ("x", PyInt 0)] [].
Proof.
  rewrite (proj1 get_data_lists_declared_names PyVal PyNone example_rule).
  - reflexivity.
  - cbn. apply (bool_decide_unpack _). vm_compute. reflexivity.
  - cbn. apply NoDup_nil_2.
Defined.

Section Constructor.
Import RuleTemplate.
Context {V : Type}.
Variable py_bool : bool -> V.
Variable py_truth : V -> bool.

(** The constructor in two steps: [on_init] on the metadata of the class,
    then the settings on the rule whose parameters start with [active]. *)
Lemma init_unfold (cls : rule_class V) (setting : gmap string V) :
  init py_bool py_truth cls setting
  = let declared :=
      cls_on_init cls
        (mkRule (default "" (cls_name cls)) (cls___name__ cls)
           (dict_update [] (default [] (cls_parameters cls)))
           (dict_update [] (default [] (cls_variables cls)))
           {["active" := py_bool true]}) in
    update_setting py_bool py_truth setting
      (mkRule (name declared) (class_name declared)
         (dict_update [("active", "Activate Rule"%string)] (parameters declared))
         (variables declared) (attrs declared)).
Proof.
  unfold init. by destruct (cls_name cls), (cls_parameters cls), (cls_variables cls).
Qed.
End Constructor.

(** X15. The constructor of a rule whose parameters are attributes of the
    instance, and which declares none of the template's own fields.
    [on_init] runs on the metadata of the class, with [active] true, and the
    settings are applied last: the constructor never raises, [active] is
    always a parameter and the first one, the other parameters are those the
    rule has declared when [on_init] returns, no parameter is listed twice,
    and an attribute holds what the assignment of the object of the settings
    stores when it is a parameter that the settings bind, and otherwise what
    [on_init] left in it. So a setting for a parameter overrides the default
    that [on_init] assigns; a setting for [active] leaves in it the truth
    value of the object given. *)
Theorem rule_template_constructor
    (V : Type) (py_bool : bool -> V) (py_truth : V -> bool)
    (cls : RuleTemplate.rule_class V) (setting : gmap string V) :
  let declared :=
    RuleTemplate.cls_on_init cls
      (RuleTemplate.mkRule (default "" (RuleTemplate.cls_name cls))
         (RuleTemplate.cls___name__ cls)
         (dict_update [] (default [] (RuleTemplate.cls_parameters cls)))
         (dict_update [] (default [] (RuleTemplate.cls_variables cls)))
         {["active" := py_bool true]}) in
  let built := RuleTemplate.init py_bool py_truth cls setting in
  let parameter := fun k => k = "active" \/ k ∈ dict_keys (RuleTemplate.parameters declared) in
  declares_no_template_field declared ->
  built.2 = None
  /\ RuleTemplate.name built.1 = RuleTemplate.name declared
  /\ RuleTemplate.class_name built.1 = RuleTemplate.class_name declared
  /\ RuleTemplate.variables built.1 = RuleTemplate.variables declared
  /\ head (dict_keys (RuleTemplate.parameters built.1)) = Some "active"
  /\ NoDup (dict_keys (RuleTemplate.parameters built.1))
  /\ (forall k, k ∈ dict_keys (RuleTemplate.parameters built.1) <-> parameter k)
  /\ (forall k v,
        parameter k -> setting !! k = Some v ->
        RuleTemplate.attrs built.1 !! k
        = Some (if String.eqb k "active" then py_bool (py_truth v) else v))
  /\ (forall k,
        ~ parameter k \/ setting !! k = None ->
        RuleTemplate.attrs built.1 !! k = RuleTemplate.attrs declared !! k).
Proof.
  cbn zeta. intros _. rewrite init_unfold. cbn zeta.
  set (declared := RuleTemplate.cls_on_init cls _).
  unfold RuleTemplate.update_setting.
  cbn [RuleTemplate.name RuleTemplate.class_name RuleTemplate.parameters
       RuleTemplate.variables RuleTemplate.attrs].
  destruct (update_setting_loop_plain py_bool py_truth
              (dict_keys (dict_update [("active", "Activate Rule"%string)]
                            (RuleTemplate.parameters declared)))
              setting
              (RuleTemplate.mkRule (RuleTemplate.name declared)
                 (RuleTemplate.class_name declared)
                 (dict_update [("active", "Activate Rule"%string)]
                    (RuleTemplate.parameters declared))
                 (RuleTemplate.variables declared) (RuleTemplate.attrs declared)))
    as (attrs' & -> & Hattrs).
  cbn [fst snd RuleTemplate.name RuleTemplate.class_name RuleTemplate.parameters
       RuleTemplate.variables RuleTemplate.attrs] in *.
  destruct (dict_keys_update (RuleTemplate.parameters declared)
              [("active", "Activate Rule"%string)])
    as ([added Hkeys] & Hin & Hnodup).
  assert (forall k,
            k ∈ dict_keys (dict_update [("active", "Activate Rule"%string)]
                             (RuleTemplate.parameters declared))
            <-> k = "active" \/ k ∈ dict_keys (RuleTemplate.parameters declared))
    as Hparameter.
  { intros k. rewrite Hin. cbn. by rewrite list_elem_of_singleton. }
  split_and!; try done.
  - by rewrite Hkeys.
  - apply Hnodup. cbn. apply NoDup_singleton.
  - intros k v Hk Hv. rewrite Hattrs, Hv. rewrite decide_True; [done |].
    by apply Hparameter.
  - intros k [Hk | Hk]; rewrite Hattrs.
    + destruct (setting !! k); [| done]. rewrite decide_False; [done |].
      by rewrite Hparameter.
    + by rewrite Hk.
Qed.

Lemma rule_template_constructor_witness :
  let cls :=
    RuleTemplate.mkRuleClass "ExampleRule" (Some "Example")
      (Some [("x", "An Example"%string)]) None
      (RuleTemplate.setattr PyBool py_truth "x" (PyInt 0)) in
  RuleTemplate.attrs
    (RuleTemplate.init PyBool py_truth cls
       {["x" := PyInt 7; "active" := PyInt 0]}).1 !! "x" = Some (PyInt 7)
  /\ RuleTemplate.attrs
       (RuleTemplate.init PyBool py_truth cls
          {["x" := PyInt 7; "active" := PyInt 0]}).1 !! "active"
     = Some (PyBool false).
Proof.
  cbn zeta.
  assert (declares_no_template_field
            (RuleTemplate.mkRule "Example" "ExampleRule"
               [("x", "An Example"%string)] []
               ({["active" := PyBool true; "x" := PyInt 0]} : gmap string PyVal)))
    as Hrule.
  { intros k. cbn. rewrite !elem_of_cons, elem_of_nil.
    intros [-> | []]; vm_compute; intros Hin;
      repeat (apply elem_of_cons in Hin as [[=] | Hin]);
      by apply elem_of_nil in Hin. }
  destruct (rule_template_constructor PyVal PyBool py_truth
              (RuleTemplate.mkRuleClass "ExampleRule" (Some "Example")
                 (Some [("x", "An Example"%string)]) None
                 (RuleTemplate.setattr PyBool py_truth "x" (PyInt 0)))
              {["x" := PyInt 7; "active" := PyInt 0]})
    as (_ & _ & _ & _ & _ & _ & _ & Hassigned & _).
  - intros k Hk. apply Hrule. exact Hk.
  - split.
    + apply (Hassigned "x" (PyInt 7)); [right; cbn; left | reflexivity].
    + apply (Hassigned "active" (PyInt 0)); [by left | reflexivity].
Defined.

(** The constructor on the class of the example: the setting wins over the
    value [on_init] assigns, and [active] stays true. *)
Example rule_template_constructor_example :
  RuleTemplate.init PyBool py_truth
    (RuleTemplate.mkRuleClass "ExampleRule" (Some "Example")
       (Some [("x", "An Example"%string)]) None
       (RuleTemplate.setattr PyBool py_truth "x" (PyInt 0)))
    {["x" := PyInt 7; "y" := PyInt 1]}
  = (RuleTemplate.mkRule "Example" "ExampleRule"
       [("active", "Activate Rule"); ("x", "An Example")] []
       {["active" := PyBool true; "x" := PyInt 7]},
     None).
Proof. vm_compute. reflexivity. Qed.

(** X16. On plain attributes [update_setting] composes: applying settings
    after other settings is applying their union, in which the later
    settings win, and applying the same settings again changes nothing.
    [active], which keeps the truth value of what is assigned to it, is no
    exception. *)
Theorem update_setting_composes
    (V : Type) (py_bool : bool -> V) (py_truth : V -> bool)
    (self : RuleTemplate.rule V) (first second : gmap string V) :
  let once := (RuleTemplate.update_setting py_bool py_truth first self).1 in
  RuleTemplate.update_setting py_bool py_truth second once
  = RuleTemplate.update_setting py_bool py_truth (second ∪ first) self
  /\ RuleTemplate.update_setting py_bool py_truth first once = (once, None).
Proof.
  cbn zeta. unfold RuleTemplate.update_setting.
  destruct (update_setting_loop_plain py_bool py_truth
                (dict_keys (RuleTemplate.parameters self))
              first self) as (attrs1 & -> & Hattrs1).
  cbn [fst RuleTemplate.parameters].
  destruct (update_setting_loop_plain py_bool py_truth
                (dict_keys (RuleTemplate.parameters self))
              (second ∪ first) self) as (attrs12 & -> & Hattrs12).
  split.
  - destruct (update_setting_loop_plain py_bool py_truth
                (dict_keys (RuleTemplate.parameters self))
                second
                (RuleTemplate.mkRule (RuleTemplate.name self)
                   (RuleTemplate.class_name self) (RuleTemplate.parameters self)
                   (RuleTemplate.variables self) attrs1))
      as (attrs2 & -> & Hattrs2).
    cbn [RuleTemplate.name RuleTemplate.class_name RuleTemplate.parameters
         RuleTemplate.variables RuleTemplate.attrs] in *.
    do 2 f_equal. apply map_eq. intros k.
    rewrite Hattrs2, Hattrs12, Hattrs1.
    destruct (second !! k) as [v|] eqn:Hsecond.
    + rewrite (lookup_union_Some_l second first k v Hsecond).
      by destruct (decide (k ∈ dict_keys (RuleTemplate.parameters self))), (first !! k).
    + by rewrite (lookup_union_r second first k Hsecond).
  - destruct (update_setting_loop_plain py_bool py_truth
                (dict_keys (RuleTemplate.parameters self))
                first
                (RuleTemplate.mkRule (RuleTemplate.name self)
                   (RuleTemplate.class_name self) (RuleTemplate.parameters self)
                   (RuleTemplate.variables self) attrs1))
      as (attrs2 & -> & Hattrs2).
    cbn [RuleTemplate.name RuleTemplate.class_name RuleTemplate.parameters
         RuleTemplate.variables RuleTemplate.attrs] in *.
    do 2 f_equal. apply map_eq. intros k.
    rewrite Hattrs2, Hattrs1.
    by destruct (first !! k), (decide (k ∈ dict_keys (RuleTemplate.parameters self))).
Qed.

(** ** OrderValidityRule: the tick grid *)

Section TickGrid.
Import OrderValidityRule.

(** A power of two as a rational, split at a smaller exponent. *)
Lemma Qpower_2_split (e k : Z) :
  k <= e -> (Qpower 2 e == inject_Z (2 ^ (e - k)) * Qpower 2 k)%Q.
Proof.
  intros Hk. rewrite Zpower_Qpower by lia.
  change (inject_Z 2) with 2%Q. rewrite <- Qpower_plus by done.
  by replace (e - k + k) with e by lia.
Qed.

Lemma Qpower_2_nonzero (k : Z) : ~ (Qpower 2 k == 0)%Q.
Proof.
  intros H. assert (0 < Qpower 2 k)%Q as Hpos by (by apply Qpower_0_lt).
  rewrite H in Hpos. by apply Qlt_irrefl in Hpos.
Qed.

(** Two dyadic numbers of which one is an integer multiple of the other,
    brought to the smaller of their exponents. *)
Lemma dyadic_multiple (a b n ea eb : Z) :
  (inject_Z a * Qpower 2 ea == inject_Z n * (inject_Z b * Qpower 2 eb))%Q ->
  a * 2 ^ (ea - Z.min ea eb) = n * (b * 2 ^ (eb - Z.min ea eb)).
Proof.
  intros H. set (e := Z.min ea eb).
  rewrite (Qpower_2_split ea e), (Qpower_2_split eb e) in H by lia.
  apply inject_Z_injective. rewrite !inject_Z_mult.
  apply (Qmult_inj_r _ _ (Qpower 2 e)); [apply Qpower_2_nonzero |].
  rewrite <- (Qmult_assoc (inject_Z a)), H. ring.
Qed.

(** [fmod] of an exact multiple is a zero. *)
Lemma fmod_multiple (x y : Double.t) (p q : Q) (n : Z) :
  Double.to_Q x = Some p -> Double.to_Q y = Some q ->
  Double.truth y = true ->
  (p == inject_Z n * q)%Q ->
  Double.truth (Double.fmod x y) = false.
Proof.
  intros Hx Hy Hnz Hn.
  destruct y as [sy | sy | | sy my ey]; try done.
  destruct x as [sx | sx | | sx mx ex]; try done.
  injection Hx as <-. injection Hy as <-.
  apply dyadic_multiple in Hn.
  unfold Double.fmod.
  set (a := Z.pos mx * 2 ^ (ex - Z.min ex ey)).
  set (b := Z.pos my * 2 ^ (ey - Z.min ex ey)) in *.
  assert (b <> 0) as Hb.
  { unfold b. pose proof (Z.pow_pos_nonneg 2 (ey - Z.min ex ey)). lia. }
  assert (Z.rem a b = 0) as ->.
  { apply Z.rem_divide; [done |].
    exists (if sx then - (if sy then - n else n) else (if sy then - n else n)).
    unfold a. destruct sx, sy; lia. }
  by destruct sx.
Qed.

Lemma rem_multiple (x y : Double.t) (p q : Q) (n : Z) :
  Double.to_Q x = Some p -> Double.to_Q y = Some q ->
  Double.gtb y Double.zero = true ->
  (p == inject_Z n * q)%Q ->
  Double.rem x y = Double.zero.
Proof.
  intros Hx Hy Hpos Hn. unfold Double.rem.
  rewrite (fmod_multiple x y p q n Hx Hy); [| by destruct y as [[] | [] | | [] ? ?] | done].
  by rewrite (gtb_zero_sign _ Hpos).
Qed.

Lemma price_message_iff (get_contract : string -> option Double.ContractData)
    (S : Type) (req : Double.OrderRequest) (gateway_name : string) (s : S)
    (contract : Double.ContractData) :
  get_contract (Double.req_vt_symbol req) = Some contract ->
  Double.gtb (Double.contract_pricetick contract) Double.zero = true ->
  calls (check_allowed get_contract req gateway_name s)
  = [WriteLog (PriceNotMultiple (Double.req_price req)
                 (Double.contract_pricetick contract) req)]
  <-> beyond_tolerance (Double.req_price req) (Double.contract_pricetick contract).
Proof.
  intros Hc Hpos. unfold check_allowed, beyond_tolerance.
  rewrite Hc, Hpos. cbn zeta. rewrite <- andb_true_iff.
  repeat match goal with
         | |- context [if ?b then _ else _] => destruct b; cbn
         end; done.
Qed.
End TickGrid.

(** X17. The price check of [OrderValidityRule] on the tick grid, in the
    arithmetic of doubles. For a contract with a positive tick size, a price
    that is exactly an integer multiple of the tick size, the price zero and
    the negative multiples included, is never denied for its price: its
    remainder is the double 0. Nor is a price that is NaN or infinite: its
    remainder is NaN, which no comparison finds beyond the tolerance. *)
Theorem order_validity_price_on_grid
    (get_contract : string -> option Double.ContractData) (S : Type)
    (req : Double.OrderRequest) (gateway_name : string) (s : S)
    (contract : Double.ContractData) :
  get_contract (Double.req_vt_symbol req) = Some contract ->
  Double.gtb (Double.contract_pricetick contract) Double.zero = true ->
  let price := Double.req_price req in
  let pricetick := Double.contract_pricetick contract in
  let answer := OrderValidityRule.check_allowed get_contract req gateway_name s in
  let denied_for_price :=
    calls answer = [WriteLog (PriceNotMultiple price pricetick req)] in
  (forall (p q : Q) (n : Z),
     Double.to_Q price = Some p -> Double.to_Q pricetick = Some q ->
     (p == inject_Z n * q)%Q ->
     Double.rem price pricetick = Double.zero /\ ~ denied_for_price)
  /\ (Double.is_finite price = false ->
      Double.rem price pricetick = Double.nan /\ ~ denied_for_price).
Proof.
  intros Hc Hpos. cbn zeta.
  pose proof (price_message_iff _ _ _ gateway_name s _ Hc Hpos) as Hmsg.
  unfold OrderValidityRule.beyond_tolerance in Hmsg. split.
  - intros p q n Hp Hq Hn. rewrite Hmsg.
    rewrite (rem_multiple _ _ p q n Hp Hq Hpos Hn). split; [done |].
    by intros [? _].
  - intros Hinf. rewrite Hmsg.
    rewrite (rem_not_finite _ _ Hpos Hinf). split; [done |].
    by intros [? _].
Qed.

Lemma order_validity_price_on_grid_witness :
  Double.rem (Double.of_Z 4000) (Double.of_ratio 1 2) = Double.zero
  /\ calls (OrderValidityRule.check_allowed example_tick_contracts
              (example_tick_req (Double.of_Z 1) (Double.of_Z 4000)) "CTP" tt)
     <> [WriteLog (PriceNotMultiple (Double.of_Z 4000) (Double.of_ratio 1 2)
                     (example_tick_req (Double.of_Z 1) (Double.of_Z 4000)))].
Proof.
  apply (proj1 (order_validity_price_on_grid example_tick_contracts unit
                  (example_tick_req (Double.of_Z 1) (Double.of_Z 4000)) "CTP" tt
                  (Double.mkContractData "rb2410.SHFE" (Double.of_ratio 1 2)
                     (Double.of_Z 1) (Some (Double.of_Z 100)) (Double.of_Z 10))
                  eq_refl eq_refl)
          (default 0%Q (Double.to_Q (Double.of_Z 4000)))
          (default 0%Q (Double.to_Q (Double.of_ratio 1 2))) 8000).
  - vm_compute. reflexivity.
  - vm_compute. reflexivity.
  - vm_compute. reflexivity.
Defined.

(** A price a quarter of a tick off the grid is denied. The price 0.3 at the
    tick size 0.1 is not a multiple among the doubles, its remainder is not
    0, and it is allowed, the remainder being within the tolerance of the
    tick size. *)
Example order_validity_price_off_grid :
  calls (OrderValidityRule.check_allowed example_tick_contracts
           (example_tick_req (Double.of_Z 1) (Double.of_ratio 16001 4)) "CTP" tt)
  = [WriteLog (PriceNotMultiple (Double.of_ratio 16001 4) (Double.of_ratio 1 2)
                 (example_tick_req (Double.of_Z 1) (Double.of_ratio 16001 4)))]
  /\ Double.rem (Double.of_ratio 3 10) (Double.of_ratio 1 10) <> Double.zero
  /\ Double.gtb (Double.abs (Double.sub (Double.rem (Double.of_ratio 3 10)
                                           (Double.of_ratio 1 10))
                               (Double.of_ratio 1 10)))
       Double.tolerance = false.
Proof. vm_compute. split_and!; done. Qed.

(** ** DailyLimitRule: the limits at work, and when settings are refused *)

Section DailyLimitSettings.
Import DailyLimitRule.
Variable as_c_int : PyVal -> exn + Z.

(** An assignment raises exactly when it is to one of the six limits and the
    value does not convert. *)
Lemma setattr_accepted (x : string) (v : PyVal) (self : state) :
  (exists self', setattr as_c_int x v self = inr self')
  <-> (x ∈ dict_keys class_parameters -> exists z, as_c_int v = inr z).
Proof.
  destruct (decide (x ∈ dict_keys class_parameters)) as [Hx | Hx].
  - pose proof (setattr_limit as_c_int x v self Hx) as Hlimit.
    destruct (as_c_int v) as [e | z].
    + rewrite Hlimit. split; [by intros [s' [=]] |].
      intros Hz. by destruct (Hz Hx) as [z [=]].
    + destruct Hlimit as (self' & Hset & _). split; [by exists z | by exists self'].
  - split; [done |]. intros _. unfold setattr.
    cbn in Hx. rewrite !elem_of_cons in Hx.
    repeat match goal with
           | |- context [String.eqb ?a ?b] =>
               destruct (String.eqb_spec a b); [exfalso; apply Hx; auto 10 |]
           end.
    by eexists.
Qed.

Lemma update_setting_raises_iff (rule_setting : gmap string PyVal) (self : state) :
  (update_setting as_c_int rule_setting self).2 = None
  <-> forall x v,
        x ∈ dict_keys class_parameters -> rule_setting !! x = Some v ->
        exists z, as_c_int v = inr z.
Proof.
  unfold update_setting.
  rewrite (update_setting_loop_raises_iff (setattr as_c_int)
             (fun x v => x ∈ dict_keys class_parameters -> exists z, as_c_int v = inr z))
    by (intros; apply setattr_accepted).
  split.
  - intros Hall x v Hx Hv. apply (Hall x v); [| done..].
    by apply class_parameters_declared.
  - intros Hall x v _ Hv Hx. by apply (Hall x v).
Qed.
End DailyLimitSettings.

(** X18. [DailyLimitRule] and the events it has seen. After the constructor
    and any sequence of calls, a request is denied as soon as the number of
    distinct order identifiers delivered has reached the [total_order_limit]
    then in force, or the number of distinct trade identifiers the
    [total_trade_limit], or the number of identifiers counted as cancelled
    the [total_cancel_limit], whatever the symbol of the request. *)
Theorem daily_limit_denies_at_total_limits
    (as_c_int : PyVal -> exn + Z) (setting : gmap string PyVal)
    (cs : list DailyLimitRule.call) (req : OrderRequest) (gateway_name : string) :
  let self := DailyLimitRule.run as_c_int cs (DailyLimitRule.init as_c_int setting).1 in
  let order_ids : gset string := list_to_set (order_vt_orderid <$> order_events cs) in
  let trade_ids : gset string := list_to_set (trade_vt_tradeid <$> trade_events cs) in
  let denied := result (DailyLimitRule.check_allowed req gateway_name self) = false in
  (DailyLimitRule.total_order_limit self <= Z.of_nat (size order_ids) -> denied)
  /\ (DailyLimitRule.total_trade_limit self <= Z.of_nat (size trade_ids) -> denied)
  /\ (DailyLimitRule.total_cancel_limit self
      <= Z.of_nat (size (DailyLimitRule.cancel_orderids self)) -> denied).
Proof.
  cbn zeta.
  pose proof (init_records as_c_int setting) as Hinit.
  unfold DailyLimitRule.same_records in Hinit.
  destruct Hinit as (Hio & _ & Hit & _).
  assert (DailyLimitRule.consistent
            (DailyLimitRule.run as_c_int cs (DailyLimitRule.init as_c_int setting).1))
    as (Ho & Hc & Ht & _).
  { apply run_consistent. eapply same_records_consistent;
      [apply update_setting_records | apply consistent_on_init]. }
  rewrite run_all_orderids, Hio in Ho. rewrite run_all_tradeids, Hit in Ht.
  change (DailyLimitRule.all_orderids DailyLimitRule.on_init) with (∅ : gset string) in Ho.
  change (DailyLimitRule.all_tradeids DailyLimitRule.on_init) with (∅ : gset string) in Ht.
  rewrite union_empty_r_L in Ho, Ht.
  rewrite <- !not_true_iff_false, check_allowed_true_iff.
  split_and!; intros Hreached Hallowed; lia.
Qed.

Lemma daily_limit_denies_at_total_limits_witness :
  result
    (DailyLimitRule.check_allowed (example_req 1 4000) "CTP"
       (DailyLimitRule.run DailyLimitRule.c_int_of_pyval
          [DailyLimitRule.OnOrder (example_order NOTTRADED)]
          (DailyLimitRule.init DailyLimitRule.c_int_of_pyval
             {["total_order_limit" := PyInt 1]}).1))
  = false.
Proof.
  apply (proj1 (daily_limit_denies_at_total_limits DailyLimitRule.c_int_of_pyval
                  {["total_order_limit" := PyInt 1]}
                  [DailyLimitRule.OnOrder (example_order NOTTRADED)]
                  (example_req 1 4000) "CTP")).
  vm_compute. discriminate.
Defined.

(** X19. When settings are refused. [DailyLimitRule.update_setting], and so
    the constructor, raises exactly when the settings bind one of the six
    limits to a value that does not convert to a C int; a value for
    [active], and a value for a name that is no parameter, never make it
    raise. *)
Theorem daily_limit_settings_refused_iff
    (as_c_int : PyVal -> exn + Z) (rule_setting : gmap string PyVal) :
  let converts :=
    forall x v,
      x ∈ dict_keys DailyLimitRule.class_parameters ->
      rule_setting !! x = Some v ->
      exists z, as_c_int v = inr z in
  (forall self : DailyLimitRule.state,
     (DailyLimitRule.update_setting as_c_int rule_setting self).2 = None <-> converts)
  /\ ((DailyLimitRule.init as_c_int rule_setting).2 = None <-> converts).
Proof.
  cbn zeta. split.
  - intros self. apply update_setting_raises_iff.
  - apply update_setting_raises_iff.
Qed.

(** A string for a limit is refused; a bool for a limit converts. *)
Example daily_limit_settings_refused :
  (DailyLimitRule.init DailyLimitRule.c_int_of_pyval
     {["contract_trade_limit" := PyStr "many"]}).2 = Some TypeError
  /\ (DailyLimitRule.init DailyLimitRule.c_int_of_pyval
        {["active" := PyBool false; "total_trade_limit" := PyBool true]})
     = (DailyLimitRule.set_base_attrs {["active" := PyBool false]}
          (DailyLimitRule.set_total_trade_limit 1 DailyLimitRule.on_init),
        None).
Proof. vm_compute. done. Qed.

Section LoopAppend.
Import RuleTemplate.
Context {S V : Type}.
Variable setattr : string -> V -> S -> exn + S.

(** The loop of [update_setting] over two lists of names in a row: the second
    list is reached only when the first has not raised. *)
Lemma update_setting_loop_app
    (names names' : list string) (rule_setting : gmap string V) :
  forall self,
    update_setting_loop setattr (names ++ names') rule_setting self
    = match update_setting_loop setattr names rule_setting self with
      | (self', None) => update_setting_loop setattr names' rule_setting self'
      | (self', Some e) => (self', Some e)
      end.
Proof.
  induction names as [|n names IH]; intros self; cbn; [done |].
  destruct (rule_setting !! n) as [w|]; [| apply IH].
  destruct (setattr n w self) as [e | self']; [done | apply IH].
Qed.
End LoopAppend.

(** X20. A refused value leaves [DailyLimitRule] half configured. When the
    settings bind the limit [x] to a value that does not convert, and no
    limit declared before [x] to such a value, [update_setting] raises the
    exception of that conversion; by then every limit declared before [x]
    that the settings bind holds its converted value, and [active] holds the
    truth value of the object that the settings bind to it, while [x] and
    every parameter declared after it hold what they held, whatever the
    settings bind them to. *)
Theorem daily_limit_update_setting_partial
    (as_c_int : PyVal -> exn + Z) (rule_setting : gmap string PyVal)
    (self : DailyLimitRule.state)
    (before after : list string) (x : string) (v : PyVal) (e : exn) :
  dict_keys DailyLimitRule.parameters = before ++ x :: after ->
  x ∈ dict_keys DailyLimitRule.class_parameters ->
  rule_setting !! x = Some v ->
  as_c_int v = inl e ->
  (forall y w,
     y ∈ before -> y ∈ dict_keys DailyLimitRule.class_parameters ->
     rule_setting !! y = Some w -> exists z, as_c_int w = inr z) ->
  let result := DailyLimitRule.update_setting as_c_int rule_setting self in
  result.2 = Some e
  /\ (forall y w z,
        y ∈ before -> y ∈ dict_keys DailyLimitRule.class_parameters ->
        rule_setting !! y = Some w -> as_c_int w = inr z ->
        DailyLimitRule.getattr result.1 y = Some (PyInt z))
  /\ (forall w,
        rule_setting !! "active" = Some w ->
        DailyLimitRule.getattr result.1 "active" = Some (PyBool (py_truth w)))
  /\ (forall y,
        y ∈ x :: after ->
        DailyLimitRule.getattr result.1 y = DailyLimitRule.getattr self y).
Proof.
  intros Hnames Hx Hv He Hbefore. cbn zeta.
  unfold DailyLimitRule.update_setting. rewrite Hnames, update_setting_loop_app.
  assert ((RuleTemplate.update_setting_loop (DailyLimitRule.setattr as_c_int)
             before rule_setting self).2 = None) as Hdone.
  { apply (update_setting_loop_raises_iff (DailyLimitRule.setattr as_c_int)
             (fun y w => y ∈ dict_keys DailyLimitRule.class_parameters ->
                         exists z, as_c_int w = inr z));
      [intros; apply setattr_accepted |].
    intros y w Hy Hw Hclass. by apply (Hbefore y w). }
  assert (NoDup (before ++ x :: after)) as Hnodup.
  { rewrite <- Hnames. apply (bool_decide_unpack _). vm_compute. reflexivity. }
  apply NoDup_app in Hnodup as (_ & Hapart & _).
  assert ("active" ∈ before) as Hactive.
  { destruct before as [|b before]; cbn in Hnames.
    - injection Hnames as <- _. cbn in Hx. rewrite !elem_of_cons in Hx.
      exfalso. destruct Hx as [[=] | [[=] | [[=] | [[=] | [[=] | [[=] | Hx]]]]]].
      by apply elem_of_nil in Hx.
    - injection Hnames as <- _. left. }
  destruct (RuleTemplate.update_setting_loop (DailyLimitRule.setattr as_c_int)
              before rule_setting self) as [self' raised] eqn:Hloop.
  cbn [snd] in Hdone. subst raised.
  assert (self' = (RuleTemplate.update_setting_loop (DailyLimitRule.setattr as_c_int)
                     before rule_setting self).1) as Hself' by by rewrite Hloop.
  cbn [RuleTemplate.update_setting_loop]. rewrite Hv.
  pose proof (setattr_limit as_c_int x v self' Hx) as Hraises.
  rewrite He in Hraises. rewrite Hraises. cbn [fst snd].
  split_and!.
  - done.
  - intros y w z Hy Hclass Hw Hz. rewrite Hself'.
    apply (update_setting_loop_assigns (DailyLimitRule.setattr as_c_int) rule_setting
             (fun s => DailyLimitRule.getattr s y = Some (PyInt z)) y w);
      try done; [| | by rewrite Hloop].
    + intros s s' Hset.
      pose proof (setattr_limit as_c_int y w s Hclass) as Hlimit.
      rewrite Hz in Hlimit. destruct Hlimit as (s'' & Hset' & Hget). congruence.
    + intros attr value s s' Hne Hset <-. by eapply setattr_getattr_ne.
  - intros w Hw. rewrite Hself'.
    apply (update_setting_loop_assigns (DailyLimitRule.setattr as_c_int) rule_setting
             (fun s => DailyLimitRule.getattr s "active" = Some (PyBool (py_truth w)))
             "active" w);
      try done; [| | by rewrite Hloop].
    + intros s s' [= <-]. unfold DailyLimitRule.getattr. cbn. apply lookup_insert_eq.
    + intros attr value s s' Hne Hset <-. by eapply setattr_getattr_ne.
  - intros y Hy. rewrite Hself'.
    apply (update_setting_loop_keeps (DailyLimitRule.setattr as_c_int) rule_setting
             (fun s s' => DailyLimitRule.getattr s' y = DailyLimitRule.getattr s y));
      [done | congruence |].
    intros attr value s s' Hin Hbound Hset.
    eapply setattr_getattr_ne; [| done].
    intros ->. by apply (Hapart y).
Qed.

Lemma daily_limit_update_setting_partial_witness :
  let rule_setting : gmap string PyVal :=
    {["active" := PyInt 0; "total_order_limit" := PyInt 5;
      "total_cancel_limit" := PyInt (2 ^ 31); "total_trade_limit" := PyInt 7]} in
  let result :=
    DailyLimitRule.update_setting DailyLimitRule.c_int_of_pyval rule_setting
      DailyLimitRule.on_init in
  result.2 = Some OverflowError
  /\ DailyLimitRule.getattr result.1 "active" = Some (PyBool false)
  /\ DailyLimitRule.getattr result.1 "total_order_limit" = Some (PyInt 5)
  /\ DailyLimitRule.getattr result.1 "total_trade_limit" = Some (PyInt 10000).
Proof.
  cbn zeta.
  destruct (daily_limit_update_setting_partial DailyLimitRule.c_int_of_pyval
              {["active" := PyInt 0; "total_order_limit" := PyInt 5;
                "total_cancel_limit" := PyInt (2 ^ 31); "total_trade_limit" := PyInt 7]}
              DailyLimitRule.on_init
              ["active"; "total_order_limit"] 
              ["total_trade_limit"; "contract_order_limit"; "contract_cancel_limit";
               "contract_trade_limit"]
              "total_cancel_limit" (PyInt (2 ^ 31)) OverflowError)
    as (Hraised & Hbefore & Hactive & Hafter).
  - reflexivity.
  - cbn. rewrite !elem_of_cons. auto.
  - reflexivity.
  - reflexivity.
  - intros y w Hy Hclass Hw.
    apply elem_of_cons in Hy as [-> | Hy].
    + cbn in Hclass. rewrite !elem_of_cons in Hclass.
      destruct Hclass as [[=] | [[=] | [[=] | [[=] | [[=] | [[=] | Hclass]]]]]].
      by apply elem_of_nil in Hclass.
    + apply list_elem_of_singleton in Hy as ->.
      vm_compute in Hw. injection Hw as <-. by exists 5.
  - split_and!.
    + exact Hraised.
    + apply (Hactive (PyInt 0)). reflexivity.
    + apply (Hbefore "total_order_limit" (PyInt 5) 5); [| | reflexivity..].
      * rewrite !elem_of_cons. auto.
      * cbn. rewrite !elem_of_cons. auto.
    + rewrite (Hafter "total_trade_limit"); [reflexivity |].
      rewrite !elem_of_cons. auto.
Defined.

(** ** DailyLimitRule: which symbol an identifier is counted for *)

Section FirstEvents.
Context {A : Type}.
Variables key symbol : A -> string.

Lemma first_event_cons (i : string) (x : A) (l : list A) :
  first_event key i (x :: l)
  = if decide (key x = i) then Some x else first_event key i l.
Proof. unfold first_event. rewrite filter_cons. by case_decide. Qed.

Lemma elem_of_first_with_symbol (k i : string) (l : list A) :
  i ∈ first_with_symbol key symbol k l
  <-> i ∈ key <$> l /\ (symbol <$> first_event key i l) = Some k.
Proof.
  unfold first_with_symbol. rewrite elem_of_list_to_set, list_elem_of_filter. tauto.
Qed.

(** The identifiers not seen before whose first event names [k], one event
    further. *)
Lemma first_with_symbol_cons (k : string) (seen : gset string) (x : A) (l : list A) :
  first_with_symbol key symbol k (x :: l) ∖ seen
  = (if decide ((key x ∉ seen) /\ symbol x = k) then {[key x]} else ∅)
    ∪ first_with_symbol key symbol k l ∖ ({[key x]} ∪ seen).
Proof.
  apply set_eq. intros i.
  rewrite elem_of_union, !elem_of_difference, !elem_of_first_with_symbol,
    first_event_cons, fmap_cons, elem_of_cons, elem_of_union, elem_of_singleton.
  destruct (decide (key x = i)) as [<- | Hne]; cbn;
    case_decide; rewrite ?elem_of_singleton, ?elem_of_empty; intuition congruence.
Qed.

Lemma size_first_with_symbol_cons (k : string) (seen : gset string) (x : A) (l : list A) :
  size (first_with_symbol key symbol k (x :: l) ∖ seen)
  = ((if decide ((key x ∉ seen) /\ symbol x = k) then 1 else 0)
     + size (first_with_symbol key symbol k l ∖ ({[key x]} ∪ seen)))%nat.
Proof.
  rewrite first_with_symbol_cons, size_union.
  - case_decide; [by rewrite size_singleton | by rewrite size_empty].
  - intros i Hi [_ Hseen]%elem_of_difference. apply Hseen, elem_of_union_l.
    case_decide; [done | by apply elem_of_empty in Hi].
Qed.
End FirstEvents.

Section DailyLimitSymbols.
Import DailyLimitRule.
Variable as_c_int : PyVal -> exn + Z.

(** The order count of a symbol after a run, from any state. *)
Lemma run_contract_order_count (k : string) (cs : list call) :
  forall self,
    count_of k (contract_order_count (run as_c_int cs self))
    = count_of k (contract_order_count self)
      + Z.of_nat
          (size (first_with_symbol order_vt_orderid order_vt_symbol k (order_events cs)
                 ∖ all_orderids self)).
Proof.
  induction cs as [|c cs IH]; intros self.
  - cbn. unfold first_with_symbol. cbn.
    rewrite difference_disjoint_L, size_empty by apply disjoint_empty_l. lia.
  - rewrite run_cons, IH, step_all_orderids, order_events_cons.
    pose proof (step_same_records as_c_int c self) as Hsame.
    destruct c as [order | trade | | | req gateway_name | rule_setting];
      try (by destruct Hsame as (_ & _ & _ & _ & _ & _ & -> & _)); cbn [step].
    + rewrite size_first_with_symbol_cons.
      destruct (on_order_cases order self) as [H | [(H1 & H2 & H3) | (H1 & H2)]].
      * rewrite on_order_new by done. unfold state_of. cbn [fst snd].
        unfold set_contract_order_count. cbn [contract_order_count].
        rewrite count_of_incr.
        destruct (decide (order_vt_symbol order = k)) as [Hk | Hk].
        -- rewrite decide_True by done. lia.
        -- rewrite decide_False by tauto. lia.
      * rewrite on_order_cancel by done. unfold state_of. cbn [fst snd].
        unfold set_contract_cancel_count, set_total_cancel_count, set_cancel_orderids.
        cbn [contract_order_count]. rewrite decide_False by tauto. lia.
      * rewrite on_order_ignored by done. unfold state_of. cbn [fst snd].
        rewrite decide_False by tauto. lia.
    + destruct (decide (trade_vt_tradeid trade ∈ all_tradeids self)).
      * by rewrite on_trade_seen by done.
      * by rewrite on_trade_new by done.
Qed.

(** The trade count of a symbol after a run, from any state. *)
Lemma run_contract_trade_count (k : string) (cs : list call) :
  forall self,
    count_of k (contract_trade_count (run as_c_int cs self))
    = count_of k (contract_trade_count self)
      + Z.of_nat
          (size (first_with_symbol trade_vt_tradeid trade_vt_symbol k (trade_events cs)
                 ∖ all_tradeids self)).
Proof.
  induction cs as [|c cs IH]; intros self.
  - cbn. unfold first_with_symbol. cbn.
    rewrite difference_disjoint_L, size_empty by apply disjoint_empty_l. lia.
  - rewrite run_cons, IH, step_all_tradeids, trade_events_cons.
    pose proof (step_same_records as_c_int c self) as Hsame.
    destruct c as [order | trade | | | req gateway_name | rule_setting];
      try (by destruct Hsame as (_ & _ & _ & _ & _ & _ & _ & _ & ->)); cbn [step].
    + destruct (on_order_cases order self) as [H | [(H1 & H2 & H3) | (H1 & H2)]].
      * by rewrite on_order_new by done.
      * by rewrite on_order_cancel by done.
      * by rewrite on_order_ignored by done.
    + rewrite size_first_with_symbol_cons.
      destruct (decide (trade_vt_tradeid trade ∈ all_tradeids self)).
      * rewrite on_trade_seen by done. unfold state_of. cbn [fst snd].
        rewrite decide_False by tauto. lia.
      * rewrite on_trade_new by done. unfold state_of. cbn [fst snd].
        unfold set_contract_trade_count. cbn [contract_trade_count].
        rewrite count_of_incr.
        destruct (decide (trade_vt_symbol trade = k)) as [Hk | Hk].
        -- rewrite decide_True by done. lia.
        -- rewrite decide_False by tauto. lia.
Qed.
End DailyLimitSymbols.

(** X21. [DailyLimitRule] counts an identifier for the symbol of its first
    event. After the constructor and any sequence of calls, the order count
    of a symbol is the number of order identifiers whose first event named
    that symbol, and the trade count of a symbol the number of trade
    identifiers whose first event named it: later events of an identifier
    change neither count, whatever symbol they name. *)
Theorem daily_limit_counts_first_symbol
    (as_c_int : PyVal -> exn + Z) (setting : gmap string PyVal)
    (cs : list DailyLimitRule.call) (k : string) :
  let self := DailyLimitRule.run as_c_int cs (DailyLimitRule.init as_c_int setting).1 in
  count_of k (DailyLimitRule.contract_order_count self)
  = Z.of_nat (size (first_with_symbol order_vt_orderid order_vt_symbol k
                      (order_events cs)))
  /\ count_of k (DailyLimitRule.contract_trade_count self)
     = Z.of_nat (size (first_with_symbol trade_vt_tradeid trade_vt_symbol k
                         (trade_events cs))).
Proof.
  cbn zeta.
  pose proof (init_records as_c_int setting) as Hinit.
  unfold DailyLimitRule.same_records in Hinit.
  destruct Hinit as (Hio & _ & Hit & _ & _ & _ & Hco & _ & Hct).
  rewrite run_contract_order_count, run_contract_trade_count, Hio, Hit, Hco, Hct.
  change (DailyLimitRule.all_orderids DailyLimitRule.on_init) with (∅ : gset string).
  change (DailyLimitRule.all_tradeids DailyLimitRule.on_init) with (∅ : gset string).
  change (DailyLimitRule.contract_order_count DailyLimitRule.on_init)
    with (∅ : gmap string Z).
  change (DailyLimitRule.contract_trade_count DailyLimitRule.on_init)
    with (∅ : gmap string Z).
  rewrite !difference_empty_L, !count_of_empty. split; lia.
Qed.

(** An order whose second event names another symbol stays with the first. *)
Example daily_limit_first_symbol :
  let self :=
    DailyLimitRule.run DailyLimitRule.c_int_of_pyval
      [DailyLimitRule.OnOrder (mkOrderData "CTP.1" "rb2410.SHFE" NOTTRADED);
       DailyLimitRule.OnOrder (mkOrderData "CTP.1" "hc2410.SHFE" NOTTRADED);
       DailyLimitRule.OnOrder (mkOrderData "CTP.2" "hc2410.SHFE" NOTTRADED)]
      (DailyLimitRule.init DailyLimitRule.c_int_of_pyval ∅).1 in
  count_of "rb2410.SHFE" (DailyLimitRule.contract_order_count self) = 1
  /\ count_of "hc2410.SHFE" (DailyLimitRule.contract_order_count self) = 1.
Proof. vm_compute. repeat split. Qed.
